(** * usdc-wallet-base: wallet, transaction, webhook and white-label services

    A shallow embedding of the Node.js backend: the relational tables the
    services read and write, the chain adapter seen through its results, the
    wallet service, the transaction route, the white-label limit middleware,
    the webhook dispatcher and the two encryption layers. *)

From Stdlib Require Import ZArith NArith List String Ascii Bool Lia Floats.
From Stdlib Require Import DecimalString DecimalNat DecimalN.
Import ListNotations.

Local Open Scope string_scope.
Local Open Scope Z_scope.

(** ** JavaScript values and numbers

    A JS Number is an IEEE-754 binary64, the kernel's [float].  The values the
    services receive in request bodies and configuration are numbers, strings
    or absent. *)
Module JS.

Definition number := float.

Inductive value :=
| VUndefined
| VNum (n : number)
| VStr (s : string).

Definition NaN : number := PrimFloat.nan.

(** A string is the list of the bytes of its UTF-8 form.

    StrWhiteSpaceChar is WhiteSpace and LineTerminator.  Its ASCII members
    are TAB, LF, VT, FF, CR and SP. *)
Definition is_ws (c : ascii) : bool :=
  let n := N_of_ascii c in
  (((9 <=? n) && (n <=? 13)) || (n =? 32))%N.

(** Its other members are U+00A0, U+1680, U+2000 to U+200A, U+2028, U+2029,
    U+202F, U+205F, U+3000 and U+FEFF, of two or three bytes each: the bytes
    that can start one, and the sequences. *)
Definition ws_lead (a : ascii) : bool :=
  let x := N_of_ascii a in
  ((x =? 0xC2) || (x =? 0xE1) || (x =? 0xE2) || (x =? 0xE3) || (x =? 0xEF))%N.

Definition ws2 (a b : ascii) : bool :=
  ((N_of_ascii a =? 0xC2) && (N_of_ascii b =? 0xA0))%N.

Definition ws3 (a b c : ascii) : bool :=
  let x := N_of_ascii a in
  let y := N_of_ascii b in
  let z := N_of_ascii c in
  ((x =? 0xE1) && (y =? 0x9A) && (z =? 0x80)
   || (x =? 0xE2) && (y =? 0x80)
      && ((0x80 <=? z) && (z <=? 0x8A) || (z =? 0xA8) || (z =? 0xA9) || (z =? 0xAF))
   || (x =? 0xE2) && (y =? 0x81) && (z =? 0x9F)
   || (x =? 0xE3) && (y =? 0x80) && (z =? 0x80)
   || (x =? 0xEF) && (y =? 0xBB) && (z =? 0xBF))%N.

(** What is left of a string once its leading StrWhiteSpaceChar are skipped
    (the TrimString of parseFloat and parseInt). *)
Fixpoint trim_start (s : string) : string :=
  match s with
  | String a s1 =>
      if is_ws a then trim_start s1
      else if ws_lead a then
        match s1 with
        | String b s2 =>
            if ws2 a b then trim_start s2
            else
              match s2 with
              | String c s3 => if ws3 a b c then trim_start s3 else s
              | EmptyString => s
              end
        | EmptyString => s
        end
      else s
  | EmptyString => s
  end.

(** [s.length], the number of UTF-16 code units of the string: one for each
    character of one, two or three bytes, two for each character of four,
    counted at the byte that starts the character. *)
Definition utf16_units (c : ascii) : nat :=
  let n := N_of_ascii c in
  if ((n <? 0x80) || (0xC0 <=? n) && (n <? 0xF0))%N then 1%nat
  else if (0xF0 <=? n)%N then 2%nat else 0%nat.

Fixpoint utf16_length (s : string) : nat :=
  match s with
  | String c s' => (utf16_units c + utf16_length s')%nat
  | EmptyString => O
  end.

Definition digit_of (c : ascii) : option N :=
  let n := N_of_ascii c in
  if ((48 <=? n) && (n <=? 57))%N then Some (n - 48)%N else None.

(** Consumes DecimalDigits: the value read so far, how many digits were read,
    and what is left. *)
Fixpoint digits (s : string) (acc : N) (len : nat) : N * nat * string :=
  match s with
  | String c s' =>
      match digit_of c with
      | Some d => digits s' (10 * acc + d)%N (S len)
      | None => (acc, len, s)
      end
  | EmptyString => (acc, len, s)
  end.

(** ExponentPart, taken only when it is complete ("1e" reads as 1). *)
Definition exponent_part (s : string) : Z * string :=
  match s with
  | String c s1 =>
      if (Ascii.eqb c "e" || Ascii.eqb c "E")%bool then
        let '(neg, s2) :=
          match s1 with
          | String "+"%char r => (false, r)
          | String "-"%char r => (true, r)
          | _ => (false, s1)
          end in
        let '(v, len, rest) := digits s2 0%N 0%nat in
        match len with
        | O => (0, s)
        | _ => ((if neg then - Z.of_N v else Z.of_N v), rest)
        end
      else (0, s)
  | EmptyString => (0, s)
  end.

(** The longest prefix that is an unsigned StrDecimalLiteral other than
    Infinity, as mantissa [m] and decimal exponent [e] (value m * 10^e). *)
Definition unsigned_literal (s : string) : option (N * Z * string) :=
  let '(ip, il, s1) := digits s 0%N 0%nat in
  let '(m, fl, s2, dot) :=
    match s1 with
    | String "."%char r =>
        let '(m, fl, r') := digits r ip 0%nat in (m, fl, r', true)
    | _ => (ip, 0%nat, s1, false)
    end in
  match il, fl with
  | O, O => None
  | _, _ =>
      let '(e, rest) := exponent_part s2 in
      Some (m, e - Z.of_nat fl, rest)
  end.

(** The binary64 nearest to [m * 10^e], ties to even. *)
Definition of_decimal (neg : bool) (m : N) (e : Z) : number :=
  match m with
  | N0 => if neg then PrimFloat.neg_zero else PrimFloat.zero
  | Npos p =>
      SF2Prim
        match e with
        | Zneg k =>
            SFdiv prec emax (S754_finite neg p 0) (S754_finite false (10 ^ k)%positive 0)
        | _ =>
            binary_normalize prec emax
              ((if neg then Zneg p else Zpos p) * 10 ^ e) 0 false
        end
  end.

Definition parse_float_string (s : string) : number :=
  let t := trim_start s in
  let '(neg, u) :=
    match t with
    | String "+"%char r => (false, r)
    | String "-"%char r => (true, r)
    | _ => (false, t)
    end in
  if String.prefix "Infinity" u then
    (if neg then PrimFloat.neg_infinity else PrimFloat.infinity)
  else
    match unsigned_literal u with
    | Some (m, e, _) => of_decimal neg m e
    | None => NaN
    end.

(** [Number.parseFloat(v)]: the argument is converted to a string first, so a
    number comes back as itself (with -0 printed as "0"). *)
Definition parseFloat (v : value) : number :=
  match v with
  | VUndefined => NaN
  | VNum n => if PrimFloat.eqb n PrimFloat.zero then PrimFloat.zero else n
  | VStr s => parse_float_string s
  end.

(** ToBoolean on a number: 0, -0 and NaN are falsy. *)
Definition truthy_number (n : number) : bool :=
  negb (PrimFloat.eqb n PrimFloat.zero || PrimFloat.is_nan n).

(** [x || d] where [x] is a possibly absent numeric property. *)
Definition or_default (x : option number) (d : number) : number :=
  match x with
  | Some n => if truthy_number n then n else d
  | None => d
  end.

Definition N_text (n : N) : string := NilZero.string_of_uint (N.to_uint n).

(** [num/den] against [10^k]. *)
Definition cmp_pow10 (num den k : Z) : comparison :=
  if 0 <=? k then num ?= 10 ^ k * den else num * 10 ^ (- k) ?= den.

Fixpoint decade_up (fuel : nat) (num den k : Z) : Z :=
  match fuel with
  | O => k
  | S f =>
      match cmp_pow10 num den k with
      | Lt => k
      | _ => decade_up f num den (k + 1)
      end
  end.

Fixpoint decade_down (fuel : nat) (num den k : Z) : Z :=
  match fuel with
  | O => k
  | S f =>
      match cmp_pow10 num den (k - 1) with
      | Lt => decade_down f num den (k - 1)
      | _ => k
      end
  end.

(** The [n] with [10^(n-1) <= num/den < 10^n]; a binary64 lies within 400
    decades of 1. *)
Definition decade (num den : Z) : Z :=
  decade_down 400 num den (decade_up 400 num den 0).

(** [floor (num/den / 10^t)] *)
Definition scaled_floor (num den t : Z) : Z :=
  if 0 <=? t then num / (den * 10 ^ t) else (num * 10 ^ (- t)) / den.

(** The shortest digit string [s] (of [k] digits, tried in increasing [k])
    with [s * 10^(n-k)] reading back as [x]; of two, the nearer to [x]. *)
Fixpoint shortest_digits (fuel : nat) (x : number) (num den n k : Z) : Z * Z :=
  let t := n - k in
  let q := scaled_floor num den t in
  let reads s := PrimFloat.eqb (of_decimal false (Z.to_N s) t) x in
  let upper_nearer :=
    match (if 0 <=? t then 2 * num ?= (2 * q + 1) * 10 ^ t * den
           else 2 * num * 10 ^ (- t) ?= (2 * q + 1) * den) with
    | Gt => true
    | Eq => Z.odd q
    | Lt => false
    end in
  match fuel with
  | O => (q, t)
  | S f =>
      match reads q, reads (q + 1) with
      | true, true => if upper_nearer then (q + 1, t) else (q, t)
      | true, false => (q, t)
      | false, true => (q + 1, t)
      | false, false => shortest_digits f x num den n (k + 1)
      end
  end.

Fixpoint drop_zeros (fuel : nat) (s t : Z) : Z * Z :=
  match fuel with
  | O => (s, t)
  | S f => if (s mod 10 =? 0) && negb (s =? 0) then drop_zeros f (s / 10) (t + 1) else (s, t)
  end.

Fixpoint zeros (n : nat) : string :=
  match n with
  | O => ""
  | S k => String "0" (zeros k)
  end.

(** Number::toString for a positive finite number with digits [ds] and the
    decimal point after the [n]-th of them. *)
Definition layout (ds : string) (n : Z) : string :=
  let k := Z.of_nat (String.length ds) in
  if (k <=? n) && (n <=? 21) then ds ++ zeros (Z.to_nat (n - k))
  else if (0 <? n) && (n <=? 21) then
    substring 0 (Z.to_nat n) ds ++ "." ++ substring (Z.to_nat n) (Z.to_nat (k - n)) ds
  else if (-6 <? n) && (n <=? 0) then "0." ++ zeros (Z.to_nat (- n)) ++ ds
  else
    let e := n - 1 in
    let et := (if e <? 0 then "-" else "+") ++ N_text (Z.to_N (Z.abs e)) in
    if k =? 1 then ds ++ "e" ++ et
    else substring 0 1 ds ++ "." ++ substring 1 (Z.to_nat (k - 1)) ds ++ "e" ++ et.

(** [String(x)] for a number. *)
Definition number_to_string (x : number) : string :=
  match Prim2SF x with
  | S754_nan => "NaN"
  | S754_zero _ => "0"
  | S754_infinity neg => if neg then "-Infinity" else "Infinity"
  | S754_finite neg m e =>
      let num := Zpos m * 2 ^ Z.max e 0 in
      let den := 2 ^ Z.max (- e) 0 in
      let n := decade num den in
      let '(s0, t0) := shortest_digits 17 (PrimFloat.abs x) num den n 1 in
      let '(s, t) := drop_zeros 400 s0 t0 in
      let ds := N_text (Z.to_N s) in
      (if neg then "-" else "") ++ layout ds (Z.of_nat (String.length ds) + t)
  end.

(** [String(v)] *)
Definition to_string (v : value) : string :=
  match v with
  | VUndefined => "undefined"
  | VNum n => number_to_string n
  | VStr s => s
  end.

End JS.

(** ** The relational schema (scripts/001_create_database_schema.sql)

    A table is the list of its rows in insertion order.  NUMERIC(20,6) values
    are integers counting millionths.  Timestamps are milliseconds. *)
Module Db.

Definition uuid := string.
Definition time := Z.
Definition numeric := Z.

Inductive wallet_status := WActive | WFrozen | WDeleted.
Inductive tx_type := TSend | TReceive.
Inductive tx_status := Pending | Confirmed | Failed.

Definition wallet_status_eqb (a b : wallet_status) : bool :=
  match a, b with
  | WActive, WActive | WFrozen, WFrozen | WDeleted, WDeleted => true
  | _, _ => false
  end.

Definition tx_status_eqb (a b : tx_status) : bool :=
  match a, b with
  | Pending, Pending | Confirmed, Confirmed | Failed, Failed => true
  | _, _ => false
  end.

Lemma tx_status_eqb_spec a b : reflect (a = b) (tx_status_eqb a b).
Proof. destruct a, b; constructor; congruence. Qed.

(** The text the driver returns for the status column. *)
Definition tx_status_text (s : tx_status) : string :=
  match s with
  | Pending => "pending"
  | Confirmed => "confirmed"
  | Failed => "failed"
  end.

Record wallet_row := mkWallet {
  w_id : uuid;
  w_user_id : uuid;
  w_white_label_client_id : option uuid;
  w_wallet_name : string;
  w_address : string;
  w_encrypted_private_key : string;
  w_is_primary : bool;
  w_balance_usdc : option numeric;
  w_last_balance_update : option time;
  w_created_at : time;
  w_updated_at : time;
  w_status : wallet_status
}.

Record tx_row := mkTx {
  t_id : uuid;
  t_wallet_id : uuid;
  t_transaction_hash : string;
  t_from_address : string;
  t_to_address : string;
  t_amount : numeric;
  t_gas_used : string;
  t_gas_price : string;
  t_transaction_type : tx_type;
  t_status : tx_status;
  t_confirmations : Z;
  t_memo : option string;
  t_created_at : time;
  t_confirmed_at : option time
}.

(** NUMERIC(20,6) leaves fourteen digits before the point: fewer than 10^20
    millionths. *)
Definition numeric_fits (z : Z) : bool := Z.abs z <? 10 ^ 20.

Definition digit_char (d : N) : ascii := ascii_of_N (48 + d).

Fixpoint fixed_digits (width : nat) (n : N) (acc : string) : string :=
  match width with
  | O => acc
  | S k => fixed_digits k (n / 10)%N (String (digit_char (n mod 10)%N) acc)
  end.

Definition nat_text (n : nat) : string := NilZero.string_of_uint (Nat.to_uint n).
Definition N_text := JS.N_text.

(** The text the driver returns for a NUMERIC(20,6) value: six decimals. *)
Definition numeric_out (z : numeric) : string :=
  let a := Z.to_N (Z.abs z) in
  let sign := if z <? 0 then "-" else "" in
  (sign ++ N_text (a / 1000000) ++ "." ++ fixed_digits 6 (a mod 1000000) "")%string.

(** Input conversion of a decimal text to NUMERIC(20,6): the whole text must be
    a decimal literal; the value is rounded to six decimals, half away from
    zero; a value that does not fit the precision is refused. *)
Definition round_half_away (num den : Z) : Z :=
  let q := (2 * Z.abs num + den) / (2 * den) in
  if num <? 0 then - q else q.

(** The blanks the server's numeric input skips are those of C's isspace. *)
Fixpoint skip_ws (s : string) : string :=
  match s with
  | String c s' => if JS.is_ws c then skip_ws s' else s
  | EmptyString => s
  end.

Fixpoint all_ws (s : string) : bool :=
  match s with
  | String c s' => JS.is_ws c && all_ws s'
  | EmptyString => true
  end.

Definition numeric_in_text (s : string) : option numeric :=
  let t := skip_ws s in
  let '(neg, u) :=
    match t with
    | String "+"%char r => (false, r)
    | String "-"%char r => (true, r)
    | _ => (false, t)
    end in
  match JS.unsigned_literal u with
  | Some (m, e, rest) =>
      if all_ws rest then
        let sm := if neg then - Z.of_N m else Z.of_N m in
        (* value * 10^6 = sm * 10^(e + 6) *)
        let z := if 0 <=? e + 6 then sm * 10 ^ (e + 6)
                 else round_half_away sm (10 ^ (- (e + 6))) in
        if numeric_fits z then Some z else None
      else None
  | None => None
  end.

(** A bound parameter reaches the server as its string form; an absent one
    as NULL. *)
Definition numeric_in (v : JS.value) : option numeric :=
  match v with
  | JS.VUndefined => None
  | _ => numeric_in_text (JS.to_string v)
  end.

End Db.

(** ** Effects: a shared store, and exceptions that keep what was written

    A statement that throws leaves the rows written before it in place, so an
    exception carries the store along. *)
Module Eff.

Inductive exn :=
| Error (message : string)
| SyntaxError
| DbError (code : string).

Inductive outcome (A : Type) :=
| Ok (a : A)
| Throw (e : exn).
Arguments Ok {A} a.
Arguments Throw {A} e.

(** One transfer handed to the network by the chain adapter. *)
Record transfer := mkTransfer {
  tr_private_key : string;
  tr_to : string;
  tr_amount : JS.value
}.

Record world := mkWorld {
  wallets : list Db.wallet_row;
  transactions : list Db.tx_row;
  submitted : list transfer
}.

(** A computation over a store [S]; the wallet service runs over [world]. *)
Definition MS (S A : Type) := S -> outcome A * S.
Definition M (A : Type) := MS world A.

Definition ret {S A} (a : A) : MS S A := fun w => (Ok a, w).
Definition throw {S A} (e : exn) : MS S A := fun w => (Throw e, w).
Definition bind {S A B} (m : MS S A) (k : A -> MS S B) : MS S B :=
  fun w =>
    match m w with
    | (Ok a, w') => k a w'
    | (Throw e, w') => (Throw e, w')
    end.
Definition try_catch {S A} (m : MS S A) (h : exn -> MS S A) : MS S A :=
  fun w =>
    match m w with
    | (Ok a, w') => (Ok a, w')
    | (Throw e, w') => h e w'
    end.
Definition get {S} : MS S S := fun w => (Ok w, w).
Definition put {S} (w : S) : MS S unit := fun _ => (Ok tt, w).
(** Lifts a computation that reads nothing and writes nothing. *)
Definition lift {S A} (o : outcome A) : MS S A := fun w => (o, w).

End Eff.

Import Eff.

Declare Scope eff_scope.
Delimit Scope eff_scope with eff.
Notation "x <- m ;; k" := (Eff.bind m (fun x => k))
  (at level 61, m at next level, right associativity) : eff_scope.
Notation "m ;;; k" := (Eff.bind m (fun _ => k))
  (at level 61, right associativity) : eff_scope.

(** ** Node's Buffer hex encoding *)
Module Hex.

Definition nibble_char (n : N) : ascii :=
  if (n <? 10)%N then ascii_of_N (48 + n) else ascii_of_N (87 + n).

Definition nibble_of (c : ascii) : option N :=
  let n := N_of_ascii c in
  if ((48 <=? n) && (n <=? 57))%N then Some (n - 48)%N
  else if ((97 <=? n) && (n <=? 102))%N then Some (n - 87)%N
  else if ((65 <=? n) && (n <=? 70))%N then Some (n - 55)%N
  else None.

(** [buf.toString("hex")] *)
Fixpoint encode (bs : list Byte.byte) : string :=
  match bs with
  | [] => ""
  | b :: rest =>
      let n := Byte.to_N b in
      String (nibble_char (n / 16)) (String (nibble_char (n mod 16)) (encode rest))
  end.

Definition byte_of_nibbles (h l : N) : Byte.byte :=
  match Byte.of_N (16 * h + l) with
  | Some b => b
  | None => Byte.x00
  end.

(** [Buffer.from(s, "hex")]: decoding stops at the first pair that is not two
    hexadecimal digits. *)
Fixpoint decode (s : string) : list Byte.byte :=
  match s with
  | String a (String b rest) =>
      match nibble_of a, nibble_of b with
      | Some h, Some l => byte_of_nibbles h l :: decode rest
      | _, _ => []
      end
  | _ => []
  end.

Lemma decode_encode_byte (b : Byte.byte) :
  let n := Byte.to_N b in
  nibble_of (nibble_char (n / 16)) = Some (n / 16)%N /\
  nibble_of (nibble_char (n mod 16)) = Some (n mod 16)%N /\
  byte_of_nibbles (n / 16) (n mod 16) = b.
Proof. destruct b; vm_compute; repeat split. Qed.

Lemma decode_encode (bs : list Byte.byte) : decode (encode bs) = bs.
Proof.
  induction bs as [|b bs IH]; [reflexivity|].
  cbn [encode decode].
  destruct (decode_encode_byte b) as (Hh & Hl & Hb).
  cbv zeta in Hh, Hl, Hb. rewrite Hh, Hl, Hb, IH. reflexivity.
Qed.

(** A hexadecimal text has two code units for each byte, so an even number
    of them. *)
Lemma encode_units (b : Byte.byte) :
  let n := Byte.to_N b in
  JS.utf16_units (nibble_char (n / 16)) = 1%nat /\
  JS.utf16_units (nibble_char (n mod 16)) = 1%nat.
Proof. destruct b; vm_compute; split; reflexivity. Qed.

Lemma encode_length (bs : list Byte.byte) :
  JS.utf16_length (encode bs) = (2 * List.length bs)%nat.
Proof.
  induction bs as [|b bs IH]; [reflexivity|].
  cbn [encode JS.utf16_length List.length].
  destruct (encode_units b) as [Hh Hl]. cbv zeta in Hh, Hl.
  rewrite Hh, Hl, IH. lia.
Qed.

Lemma encode_even (bs : list Byte.byte) : Nat.odd (JS.utf16_length (encode bs)) = false.
Proof. rewrite encode_length, Nat.odd_mul. reflexivity. Qed.

End Hex.

(** ** Node's crypto module, as the services use it

    [crypto.createCipher(algorithm, password)] derives the key and the nonce
    from the password alone, so the cipher text and the tag are a function of
    the password and the plain text; [createDecipher] with the same password
    and the tag set gives the plain text back, and throws when the tag does
    not verify. *)
Module Crypto.

Definition bytes := list Byte.byte.

Class PasswordCipher := {
  seal : bytes -> bytes -> bytes * bytes;
  unseal : bytes -> bytes -> bytes -> option bytes;
  unseal_seal : forall pw pt,
    unseal pw (fst (seal pw pt)) (snd (seal pw pt)) = Some pt
}.



(** A string argument is read as UTF-8. *)
Definition utf8 (s : string) : bytes := list_byte_of_string s.
Definition from_utf8 (b : bytes) : string := string_of_list_byte b.

Lemma from_utf8_utf8 (s : string) : from_utf8 (utf8 s) = s.
Proof. apply string_of_list_byte_of_string. Qed.

End Crypto.

(** ** SHA-256 (FIPS 180-4)

    Words are integers below 2^32. *)
Module Sha256.

Import Crypto.
Local Open Scope list_scope.

Definition w32 (x : Z) : Z := x mod 2 ^ 32.
Definition rotr (n x : Z) : Z := Z.lor (Z.shiftr x n) (w32 (Z.shiftl x (32 - n))).
Definition Ch (x y z : Z) : Z := Z.lxor (Z.land x y) (Z.land (Z.lxor x 0xffffffff) z).
Definition Maj (x y z : Z) : Z := Z.lxor (Z.lxor (Z.land x y) (Z.land x z)) (Z.land y z).
Definition Sigma0 (x : Z) : Z := Z.lxor (Z.lxor (rotr 2 x) (rotr 13 x)) (rotr 22 x).
Definition Sigma1 (x : Z) : Z := Z.lxor (Z.lxor (rotr 6 x) (rotr 11 x)) (rotr 25 x).
Definition sigma0 (x : Z) : Z := Z.lxor (Z.lxor (rotr 7 x) (rotr 18 x)) (Z.shiftr x 3).
Definition sigma1 (x : Z) : Z := Z.lxor (Z.lxor (rotr 17 x) (rotr 19 x)) (Z.shiftr x 10).

(** The constants are the first 32 bits of the fractional parts of the cube
    roots (for [K]) and of the square roots (for [H0]) of the first primes. *)
Definition is_prime (n : Z) : bool :=
  (1 <? n) && forallb (fun d => negb (n mod Z.of_nat d =? 0)) (seq 2 (Z.to_nat (Z.sqrt n) - 1)).

Fixpoint primes_from (fuel : nat) (n : Z) (count : nat) : list Z :=
  match fuel, count with
  | S f, S c =>
      if is_prime n then n :: primes_from f (n + 1) c else primes_from f (n + 1) count
  | _, _ => []
  end.

(** The largest [r] below [2^bits] with [r^3 <= x], bit by bit. *)
Fixpoint cube_root (bits : nat) (x r : Z) : Z :=
  match bits with
  | O => r
  | S b =>
      let r' := r + 2 ^ Z.of_nat b in
      cube_root b x (if r' * r' * r' <=? x then r' else r)
  end.

Definition K : list Z :=
  Eval vm_compute in
    map (fun p => w32 (cube_root 40 (p * 2 ^ 96) 0)) (primes_from 400 2 64).

Definition H0 : list Z :=
  Eval vm_compute in
    map (fun p => w32 (Z.sqrt (p * 2 ^ 64))) (primes_from 400 2 8).

Definition byte_of_Z (z : Z) : Byte.byte :=
  match Byte.of_N (Z.to_N (z mod 256)) with
  | Some b => b
  | None => Byte.x00
  end.
Definition Z_of_byte (b : Byte.byte) : Z := Z.of_N (Byte.to_N b).

(** Big-endian bytes of a number, [n] of them. *)
Fixpoint be_bytes (n : nat) (z : Z) : bytes :=
  match n with
  | O => []
  | S k => byte_of_Z (Z.shiftr z (8 * Z.of_nat k)) :: be_bytes k z
  end.

Fixpoint words (bs : bytes) : list Z :=
  match bs with
  | a :: b :: c :: d :: rest =>
      (Z_of_byte a * 16777216 + Z_of_byte b * 65536 + Z_of_byte c * 256 + Z_of_byte d)
      :: words rest
  | _ => []
  end.

Definition pad (msg : bytes) : bytes :=
  let len := List.length msg in
  let zeros := ((119 - len mod 64) mod 64)%nat in
  msg ++ Byte.x80 :: repeat Byte.x00 zeros ++ be_bytes 8 (8 * Z.of_nat len).

(** The message schedule, latest word first. *)
Fixpoint schedule (n : nat) (ws : list Z) : list Z :=
  match n with
  | O => ws
  | S k =>
      let w := w32 (sigma1 (nth 1 ws 0) + nth 6 ws 0 + sigma0 (nth 14 ws 0) + nth 15 ws 0) in
      schedule k (w :: ws)
  end.

Definition round (st : list Z) (kw : Z * Z) : list Z :=
  match st with
  | [a; b; c; d; e; f; g; h] =>
      let t1 := h + Sigma1 e + Ch e f g + fst kw + snd kw in
      let t2 := Sigma0 a + Maj a b c in
      [w32 (t1 + t2); a; b; c; w32 (d + t1); e; f; g]
  | _ => st
  end.

Definition compress (st : list Z) (block : list Z) : list Z :=
  let ws := rev (schedule 48 (rev block)) in
  map (fun p => w32 (fst p + snd p)) (combine st (fold_left round (combine K ws) st)).

Fixpoint blocks (fuel : nat) (ws : list Z) (st : list Z) : list Z :=
  match fuel, ws with
  | S k, _ :: _ => blocks k (skipn 16 ws) (compress st (firstn 16 ws))
  | _, _ => st
  end.

Definition sha256 (msg : bytes) : bytes :=
  let ws := words (pad msg) in
  flat_map (be_bytes 4) (blocks (List.length ws) ws H0).

End Sha256.


(** HMAC-SHA256 (RFC 2104) and PBKDF2 (RFC 8018), which [crypto.pbkdf2Sync]
    computes for the digest "sha256". *)
Module Pbkdf2.

Import Crypto Sha256.
Local Open Scope list_scope.

Definition xor_byte (a b : Byte.byte) : Byte.byte :=
  byte_of_Z (Z.lxor (Z_of_byte a) (Z_of_byte b)).

Definition block_size : nat := 64.

(** The key as HMAC uses it: hashed when longer than a block, then padded
    with zero bytes to a block. *)
Definition key_block (key : bytes) : bytes :=
  let k := if (block_size <? List.length key)%nat then sha256 key else key in
  k ++ repeat Byte.x00 (block_size - List.length k).

Definition hmac_keyed (kb : bytes) (msg : bytes) : bytes :=
  sha256 (map (xor_byte Byte.x5c) kb ++ sha256 (map (xor_byte Byte.x36) kb ++ msg)).

Definition hmac (key msg : bytes) : bytes := hmac_keyed (key_block key) msg.

Fixpoint xor_bytes (a b : bytes) : bytes :=
  match a, b with
  | x :: a', y :: b' => xor_byte x y :: xor_bytes a' b'
  | _, _ => []
  end.

(** The block T_i = U_1 xor ... xor U_c. *)
Definition F_keyed (kb salt : bytes) (c : N) (i : Z) : bytes :=
  let u1 := hmac_keyed kb (salt ++ be_bytes 4 i) in
  snd (N.iter (c - 1)
         (fun ut => let u := hmac_keyed kb (fst ut) in (u, xor_bytes (snd ut) u))
         (u1, u1)).

Definition pbkdf2_keyed (kb salt : bytes) (c : N) (dkLen : nat) : bytes :=
  firstn dkLen
    (flat_map (fun i => F_keyed kb salt c (Z.of_nat i)) (seq 1 ((dkLen + 31) / 32))).

Definition pbkdf2 (password salt : bytes) (c : N) (dkLen : nat) : bytes :=
  pbkdf2_keyed (key_block password) salt c dkLen.



End Pbkdf2.

Example sha256_abc :
  Hex.encode (Sha256.sha256 (Crypto.utf8 "abc"))
  = "ba7816bf8f01cfea414140de5dae2223b00361a396177a9cb410ff61f20015ad".
Proof. vm_compute. reflexivity. Qed.

Example hmac_sha256_fox :
  Hex.encode (Pbkdf2.hmac (Crypto.utf8 "key")
                (Crypto.utf8 "The quick brown fox jumps over the lazy dog"))
  = "f7bc83f430538424b13298e6aa6fb143ef4d59a14946175997479dbc2d1a3cd8".
Proof. vm_compute. reflexivity. Qed.

Example pbkdf2_sha256_two_iterations :
  Hex.encode (Pbkdf2.pbkdf2 (Crypto.utf8 "password") (Crypto.utf8 "salt") 2 32)
  = "ae4d0c95af6b46d32d0adff928f06dd02a303f8ef3c251dfd6e2d85a95474c43".
Proof. vm_compute. reflexivity. Qed.

(** ** The chain adapter (services/blockchain.js) *)
Module Blockchain.

Import Crypto.

Record encrypted_data := mkEncrypted {
  encrypted : string;
  iv : string;
  authTag : string
}.

Record generated_wallet := mkGenerated {
  g_address : string;
  g_encryptedPrivateKey : encrypted_data;
  g_publicKey : string
}.

Record random_wallet := mkRandomWallet {
  rw_address : string;
  rw_privateKey : string;
  rw_publicKey : string
}.

(** What the node answered for a transaction and for its receipt. *)
Record node_tx := mkNodeTx {
  ntx_hash : string;
  ntx_from : string;
  ntx_to : string;
  ntx_blockNumber : option Z;
  (** what [tx.confirmations()] resolves to, when it does *)
  ntx_confirmations : option Z
}.

Record node_receipt := mkNodeReceipt {
  rc_status : Z;
  rc_gasUsed : Z
}.

Record sent_tx := mkSent {
  s_transactionHash : string;
  s_gasUsed : string;
  s_gasPrice : string
}.

(** What the ethers library and the JSON-RPC node answer while one service
    call runs; [None] (or [inl message]) is a call that throws or a promise
    that rejects. *)
Record provider := mkProvider {
  isAddress : string -> bool;
  createRandom : random_wallet;
  balanceOf : string -> option Z;
  decimals : option Z;
  getBalance : string -> option Z;
  getTransaction_rpc : string -> option (option node_tx);
  getTransactionReceipt : string -> option (option node_receipt);
  getBlock_timestamp : Z -> option Z;
  transfer : string -> string -> JS.value -> string + sent_tx
}.

(** The service object: its provider, the process secret read from
    WALLET_ENCRYPTION_KEY, and the bytes [crypto.randomBytes(16)] returns
    next. *)
Record service := mkService {
  sv_provider : provider;
  encryptionKey : option string;
  randomBytes16 : bytes
}.

Section Adapter.
Context {cipher : PasswordCipher}.
Variable sv : service.

(** encryptPrivateKey: the nonce drawn at the start is returned, and nothing
    else is done with it. *)
Definition encryptPrivateKey (privateKey : string) : outcome encrypted_data :=
  let iv := randomBytes16 sv in
  match encryptionKey sv with
  | Some key =>
      let '(ct, tag) := seal (utf8 key) (utf8 privateKey) in
      Ok {| encrypted := Hex.encode ct;
            iv := Hex.encode iv;
            authTag := Hex.encode tag |}
  | None => Throw (Error "Failed to encrypt private key")
  end.

(** decryptPrivateKey: the decipher's update refuses a hexadecimal text of
    odd length; whatever is thrown is replaced by the one message. *)
Definition decryptPrivateKey (encryptedData : encrypted_data) : outcome string :=
  match encryptionKey sv with
  | Some key =>
      if Nat.odd (JS.utf16_length (encrypted encryptedData)) then
        Throw (Error "Failed to decrypt private key")
      else
        match unseal (utf8 key) (Hex.decode (encrypted encryptedData))
                     (Hex.decode (authTag encryptedData)) with
        | Some pt => Ok (from_utf8 pt)
        | None => Throw (Error "Failed to decrypt private key")
        end
  | None => Throw (Error "Failed to decrypt private key")
  end.

Definition generateWallet : outcome generated_wallet :=
  let wallet := createRandom (sv_provider sv) in
  match encryptPrivateKey (rw_privateKey wallet) with
  | Ok enc =>
      Ok {| g_address := rw_address wallet;
            g_encryptedPrivateKey := enc;
            g_publicKey := rw_publicKey wallet |}
  | Throw _ => Throw (Error "Failed to generate wallet")
  end.

(** [ethers.formatUnits(value, decimals)]: the fraction without its trailing
    zeros, and at least one digit of it; no fraction and no point for a token
    of 0 decimals. *)
Fixpoint strip_trailing_zeros (width : nat) (n : N) : nat * N :=
  match width with
  | O => (O, n)
  | S k => if (n mod 10 =? 0)%N then strip_trailing_zeros k (n / 10)%N else (width, n)
  end.

Definition formatUnits (value : Z) (dec : Z) : string :=
  let a := Z.to_N (Z.abs value) in
  let unit := (10 ^ Z.to_N dec)%N in
  let '(width, frac) := strip_trailing_zeros (Z.to_nat dec) (a mod unit)%N in
  let sign := if value <? 0 then "-" else "" in
  if dec =? 0 then (sign ++ Db.N_text a)%string
  else
    (sign ++ Db.N_text (a / unit) ++ "." ++
     match width with
     | O => "0"
     | _ => Db.fixed_digits width frac ""
     end)%string.

Record balance_data := mkBalance {
  b_balance : string;
  b_balanceWei : string
}.

Definition Z_text (z : Z) : string :=
  let sign := if z <? 0 then "-" else "" in
  (sign ++ Db.N_text (Z.to_N (Z.abs z)))%string.

Definition getUSDCBalance (address : string) : outcome balance_data :=
  match balanceOf (sv_provider sv) address, decimals (sv_provider sv) with
  | Some balance, Some dec =>
      Ok {| b_balance := formatUnits balance dec; b_balanceWei := Z_text balance |}
  | _, _ => Throw (Error "Failed to get USDC balance")
  end.

Definition getETHBalance (address : string) : outcome balance_data :=
  match getBalance (sv_provider sv) address with
  | Some balance =>
      Ok {| b_balance := formatUnits balance 18; b_balanceWei := Z_text balance |}
  | None => Throw (Error "Failed to get ETH balance")
  end.

(** sendUSDC: the key is decrypted, then the signed transfer goes to the
    network; a transfer the network accepted is recorded in the store. *)
Definition sendUSDC (fromEncryptedKey : encrypted_data) (toAddress : string)
    (amount : JS.value) : M sent_tx :=
  fun w =>
    match decryptPrivateKey fromEncryptedKey with
    | Ok privateKey =>
        match transfer (sv_provider sv) privateKey toAddress amount with
        | inr tx =>
            (Ok tx,
             {| wallets := wallets w;
                transactions := transactions w;
                submitted := mkTransfer privateKey toAddress amount :: submitted w |})
        | inl message => (Throw (Error ("Failed to send USDC: " ++ message)), w)
        end
    | Throw (Error message) => (Throw (Error ("Failed to send USDC: " ++ message)), w)
    | Throw e => (Throw e, w)
    end.

Record chain_tx := mkChainTx {
  c_hash : string;
  c_from : string;
  c_to : string;
  c_gasUsed : option Z;
  c_blockNumber : option Z;
  c_confirmations : Z;
  c_status : Db.tx_status;
  c_timestamp : option Z
}.

(** getTransaction: the status is read off the receipt: none yet is pending,
    a receipt with status 1 is confirmed, any other receipt is failed.  The
    block is asked for its timestamp when the block number is truthy, so not
    for a transaction without a block, nor for one in block 0. *)
Definition getTransaction (txHash : string) : outcome chain_tx :=
  let failed := Throw (Error "Failed to get transaction details") in
  match getTransaction_rpc (sv_provider sv) txHash,
        getTransactionReceipt (sv_provider sv) txHash with
  | Some (Some tx), Some receipt =>
      match ntx_confirmations tx with
      | None => failed
      | Some confirmations =>
          let status :=
            match receipt with
            | Some r => if rc_status r =? 1 then Db.Confirmed else Db.Failed
            | None => Db.Pending
            end in
          let result timestamp :=
            Ok {| c_hash := ntx_hash tx;
                  c_from := ntx_from tx;
                  c_to := ntx_to tx;
                  c_gasUsed := option_map rc_gasUsed receipt;
                  c_blockNumber := ntx_blockNumber tx;
                  c_confirmations := confirmations;
                  c_status := status;
                  c_timestamp := timestamp |} in
          match ntx_blockNumber tx with
          | None => result None
          | Some n =>
              if n =? 0 then result None
              else
                match getBlock_timestamp (sv_provider sv) n with
                | Some t => result (Some t)
                | None => failed
                end
          end
      end
  | _, _ => failed
  end.

Definition isValidAddress (address : string) : bool :=
  isAddress (sv_provider sv) address.

End Adapter.

End Blockchain.

(** ** The wallet service (services/walletService.js) *)
Module WalletService.

Import Blockchain.
Local Open Scope eff_scope.

(** What a call finds around it: the chain adapter, the JSON codec of the
    stored key, the database clock and the identifier the database generates
    for the row the call inserts. *)
Record runtime := mkRuntime {
  blockchainService : service;
  JSON_stringify : encrypted_data -> string;
  JSON_parse : string -> option encrypted_data;
  NOW : Db.time;
  uuid_generate_v4 : Db.uuid
}.

Definition opt_eqb (a : option string) (b : string) : bool :=
  match a with
  | Some x => String.eqb x b
  | None => false
  end.

(** SQLSTATE codes of the constraint failures. *)
Definition unique_violation := "23505".
Definition string_data_right_truncation := "22001".
Definition numeric_value_out_of_range := "22003".
Definition not_null_violation := "23502".
Definition invalid_text_representation := "22P02".

(** INSERT INTO wallets (user_id, white_label_client_id, wallet_name, address,
    encrypted_private_key, is_primary): the primary key, UNIQUE(user_id,
    wallet_name) and the column widths are checked; the other columns take
    their defaults.  The users and clients the row refers to are in tables
    this development does not follow, and are taken to exist.

    A width is counted here in bytes, and a longer value is refused.  The
    database counts characters, and where all that exceeds the width is
    blanks it cuts the value and stores it.  The two agree on every value
    of at most the width in bytes; the routes to createWallet and
    importWallet trim the name and cap it at 100 characters, and the
    addresses come from ethers.  A restore takes its names and addresses
    from the document, so what is said of them carries the width as a
    condition. *)
Definition insert_wallet (id : Db.uuid) (now : Db.time) (userId : Db.uuid)
    (clientId : option Db.uuid) (walletName address key : string) (isPrimary : bool)
    : M Db.wallet_row :=
  fun w =>
    let row := Db.mkWallet id userId clientId walletName address key isPrimary
                 (Some 0) None now now Db.WActive in
    if existsb (fun r => String.eqb (Db.w_id r) id) (wallets w)
       || existsb (fun r => String.eqb (Db.w_user_id r) userId
                            && String.eqb (Db.w_wallet_name r) walletName) (wallets w)
    then (Throw (DbError unique_violation), w)
    else if (100 <? String.length walletName)%nat || (42 <? String.length address)%nat
    then (Throw (DbError string_data_right_truncation), w)
    else (Ok row,
          {| wallets := wallets w ++ [row];
             transactions := transactions w;
             submitted := submitted w |}).

Definition set_balance (now : Db.time) (z : Db.numeric) (r : Db.wallet_row) : Db.wallet_row :=
  Db.mkWallet (Db.w_id r) (Db.w_user_id r) (Db.w_white_label_client_id r)
    (Db.w_wallet_name r) (Db.w_address r) (Db.w_encrypted_private_key r)
    (Db.w_is_primary r) (Some z) (Some now) (Db.w_created_at r) now (Db.w_status r).

Definition set_is_primary (now : Db.time) (b : bool) (r : Db.wallet_row) : Db.wallet_row :=
  Db.mkWallet (Db.w_id r) (Db.w_user_id r) (Db.w_white_label_client_id r)
    (Db.w_wallet_name r) (Db.w_address r) (Db.w_encrypted_private_key r)
    b (Db.w_balance_usdc r) (Db.w_last_balance_update r) (Db.w_created_at r) now
    (Db.w_status r).

(** UPDATE wallets SET ... WHERE [sel]: the rows selected are rewritten (the
    trigger stamps updated_at), the others are left as they are. *)
Definition update_where (sel : Db.wallet_row -> bool) (f : Db.wallet_row -> Db.wallet_row)
    (ws : list Db.wallet_row) : list Db.wallet_row :=
  map (fun r => if sel r then f r else r) ws.

Definition with_wallets (w : world) (ws : list Db.wallet_row) : world :=
  {| wallets := ws; transactions := transactions w; submitted := submitted w |}.

Section Service.
Context {cipher : Crypto.PasswordCipher}.
Variable rt : runtime.

Record balance_update := mkBalanceUpdate {
  bu_walletId : Db.uuid;
  bu_address : string;
  bu_balance_usdc : string;
  bu_balance_wei : string
}.

(** updateWalletBalance *)
Definition updateWalletBalance (walletId : Db.uuid) : M balance_update :=
  w <- get ;;
  match filter (fun r => String.eqb (Db.w_id r) walletId) (wallets w) with
  | [] => throw (Error "Wallet not found")
  | row :: _ =>
      let address := Db.w_address row in
      balanceData <- lift (getUSDCBalance (blockchainService rt) address) ;;
      match Db.numeric_in_text (b_balance balanceData) with
      | None => throw (DbError numeric_value_out_of_range)
      | Some z =>
          put (with_wallets w
                 (update_where (fun r => String.eqb (Db.w_id r) walletId)
                    (set_balance (NOW rt) z) (wallets w))) ;;;
          ret {| bu_walletId := walletId;
                 bu_address := address;
                 bu_balance_usdc := b_balance balanceData;
                 bu_balance_wei := b_balanceWei balanceData |}
      end
  end.

Record created_wallet := mkCreated {
  cw_id : Db.uuid;
  cw_address : string;
  cw_walletName : string;
  cw_isPrimary : bool;
  cw_balance : string;
  cw_createdAt : Db.time
}.

(** createWallet *)
Definition createWallet (userId : Db.uuid) (walletName : string)
    (whitelabelClientId : option Db.uuid) : M created_wallet :=
  w <- get ;;
  let existingWallet :=
    filter (fun r => String.eqb (Db.w_user_id r) userId
                     && String.eqb (Db.w_wallet_name r) walletName) (wallets w) in
  match existingWallet with
  | _ :: _ => throw (Error "Wallet with this name already exists")
  | [] =>
      walletData <- lift (generateWallet (blockchainService rt)) ;;
      let count :=
        Db.nat_text (List.length (filter (fun r => String.eqb (Db.w_user_id r) userId)
                                         (wallets w))) in
      let isPrimary := String.eqb count "0" in
      wallet <- insert_wallet (uuid_generate_v4 rt) (NOW rt) userId whitelabelClientId
                  walletName (g_address walletData)
                  (JSON_stringify rt (g_encryptedPrivateKey walletData)) isPrimary ;;
      balance <- updateWalletBalance (Db.w_id wallet) ;;
      ret {| cw_id := Db.w_id wallet;
             cw_address := Db.w_address wallet;
             cw_walletName := Db.w_wallet_name wallet;
             cw_isPrimary := Db.w_is_primary wallet;
             cw_balance := bu_balance_usdc balance;
             cw_createdAt := Db.w_created_at wallet |}
  end.

(** The literal 0.001, the least ETH balance a send requires. *)
Definition min_eth_for_gas : JS.number := 0x1.0624dd2f1a9fcp-10%float.

(** [wallet.balance_usdc || "0"] on the text the driver returns. *)
Definition balance_text (row : Db.wallet_row) : string :=
  match Db.w_balance_usdc row with
  | Some z => Db.numeric_out z
  | None => "0"
  end.

(** INSERT INTO transactions (...): the primary key, the UNIQUE transaction
    hash, the column widths and the NUMERIC amount are checked. *)
Definition insert_transaction (id : Db.uuid) (now : Db.time) (walletId : Db.uuid)
    (hash from to : string) (amount : JS.value) (gasUsed gasPrice : string)
    (memo : option string) : M Db.tx_row :=
  fun w =>
    match Db.numeric_in amount with
    | None =>
        (Throw (DbError match amount with
                        | JS.VUndefined => not_null_violation
                        | _ => invalid_text_representation
                        end), w)
    | Some z =>
        let row := Db.mkTx id walletId hash from to z gasUsed gasPrice Db.TSend
                     Db.Pending 0 memo now None in
        if existsb (fun r => String.eqb (Db.t_id r) id
                             || String.eqb (Db.t_transaction_hash r) hash) (transactions w)
        then (Throw (DbError unique_violation), w)
        else if (66 <? String.length hash)%nat || (42 <? String.length from)%nat
                || (42 <? String.length to)%nat
        then (Throw (DbError string_data_right_truncation), w)
        else (Ok row,
              {| wallets := wallets w;
                 transactions := transactions w ++ [row];
                 submitted := submitted w |})
    end.

Record send_result := mkSendResult {
  sr_transactionId : Db.uuid;
  sr_transactionHash : string;
  sr_from : string;
  sr_to : string;
  sr_amount : JS.value;
  sr_status : string;
  sr_createdAt : Db.time
}.

(** sendUSDC *)
Definition sendUSDC (walletId userId : Db.uuid) (toAddress : string)
    (amount : JS.value) (memo : option string) : M send_result :=
  if negb (isValidAddress (blockchainService rt) toAddress) then
    throw (Error "Invalid recipient address")
  else
    w <- get ;;
    match filter (fun r => String.eqb (Db.w_id r) walletId
                           && String.eqb (Db.w_user_id r) userId
                           && Db.wallet_status_eqb (Db.w_status r) Db.WActive)
                 (wallets w) with
    | [] => throw (Error "Wallet not found or access denied")
    | wallet :: _ =>
        match JSON_parse rt (Db.w_encrypted_private_key wallet) with
        | None => throw SyntaxError
        | Some encryptedPrivateKey =>
            let currentBalance := JS.parseFloat (JS.VStr (balance_text wallet)) in
            if PrimFloat.ltb currentBalance (JS.parseFloat amount) then
              throw (Error "Insufficient USDC balance")
            else
              ethBalance <- lift (getETHBalance (blockchainService rt) (Db.w_address wallet)) ;;
              if PrimFloat.ltb (JS.parseFloat (JS.VStr (b_balance ethBalance))) min_eth_for_gas then
                throw (Error "Insufficient ETH balance for gas fees")
              else
                txResult <- Blockchain.sendUSDC (blockchainService rt)
                              encryptedPrivateKey toAddress amount ;;
                transaction <- insert_transaction (uuid_generate_v4 rt) (NOW rt) walletId
                                 (s_transactionHash txResult) (Db.w_address wallet)
                                 toAddress amount (s_gasUsed txResult)
                                 (s_gasPrice txResult) memo ;;
                ret {| sr_transactionId := Db.t_id transaction;
                       sr_transactionHash := s_transactionHash txResult;
                       sr_from := Db.w_address wallet;
                       sr_to := toAddress;
                       sr_amount := amount;
                       sr_status := "pending";
                       sr_createdAt := Db.t_created_at transaction |}
        end
    end.

(** The three statements of setPrimaryWallet, each one a database statement
    of its own. *)
Definition verify_ownership (walletId userId : Db.uuid) (ws : list Db.wallet_row) : bool :=
  match filter (fun r => String.eqb (Db.w_id r) walletId
                         && String.eqb (Db.w_user_id r) userId) ws with
  | [] => false
  | _ :: _ => true
  end.

Definition clear_primary (userId : Db.uuid) (ws : list Db.wallet_row) : list Db.wallet_row :=
  update_where (fun r => String.eqb (Db.w_user_id r) userId)
    (set_is_primary (NOW rt) false) ws.

Definition mark_primary (walletId : Db.uuid) (ws : list Db.wallet_row) : list Db.wallet_row :=
  update_where (fun r => String.eqb (Db.w_id r) walletId)
    (set_is_primary (NOW rt) true) ws.

(** setPrimaryWallet *)
Definition setPrimaryWallet (walletId userId : Db.uuid) : M bool :=
  w <- get ;;
  if negb (verify_ownership walletId userId (wallets w)) then
    throw (Error "Wallet not found or access denied")
  else
    put (with_wallets w (clear_primary userId (wallets w))) ;;;
    w1 <- get ;;
    put (with_wallets w1 (mark_primary walletId (wallets w1))) ;;;
    ret true.

End Service.

(** *** Facts about the statements *)

Lemma nat_text_zero (n : nat) : Db.nat_text n = "0" <-> n = 0%nat.
Proof.
  split; [|intros ->; reflexivity].
  unfold Db.nat_text. intros H.
  rewrite <- (DecimalNat.Unsigned.of_to n).
  destruct (Nat.to_uint n) as [|u|u|u|u|u|u|u|u|u|u]; try reflexivity;
    cbn in H; try discriminate.
  destruct u; cbn in H; try discriminate. reflexivity.
Qed.

Lemma existsb_false_filter {A} (f : A -> bool) (l : list A) :
  existsb f l = false <-> filter f l = [].
Proof.
  induction l as [|a l IH]; cbn; [tauto|].
  destruct (f a); cbn; [split; discriminate | exact IH].
Qed.

Lemma update_where_none sel f (ws : list Db.wallet_row) :
  existsb sel ws = false -> update_where sel f ws = ws.
Proof.
  unfold update_where.
  induction ws as [|r ws IH]; cbn; [reflexivity|].
  destruct (sel r); cbn; [discriminate|]. intros H. now rewrite IH.
Qed.

Lemma update_where_app sel f (ws1 ws2 : list Db.wallet_row) :
  update_where sel f (ws1 ++ ws2) = (update_where sel f ws1 ++ update_where sel f ws2)%list.
Proof. apply map_app. Qed.

Lemma update_where_length sel f (ws : list Db.wallet_row) :
  List.length (update_where sel f ws) = List.length ws.
Proof. apply length_map. Qed.

Ltac case_if :=
  match goal with
  | |- context [if ?b then _ else _] => destruct b eqn:?
  end.

Ltac run_eff :=
  unfold Eff.bind, Eff.ret, Eff.throw, Eff.get, Eff.put, Eff.lift, Eff.try_catch in *.

Section ServiceFacts.
Context {cipher : Crypto.PasswordCipher}.
Variable rt : runtime.

(** The row a successful createWallet leaves behind: appended to the table,
    with the balance the chain reported, and primary exactly when the user had
    no row before. *)
Definition created_row (userId : Db.uuid) (walletName : string)
    (clientId : option Db.uuid) (address key : string) (z : Db.numeric)
    (ws : list Db.wallet_row) : Db.wallet_row :=
  Db.mkWallet (uuid_generate_v4 rt) userId clientId walletName address key
    (Nat.eqb (List.length (filter (fun r => String.eqb (Db.w_user_id r) userId) ws)) 0)
    (Some z) (Some (NOW rt)) (NOW rt) (NOW rt) Db.WActive.

Lemma createWallet_inv userId walletName clientId w v w' :
  createWallet rt userId walletName clientId w = (Ok v, w') ->
  exists address key z,
    let row := created_row userId walletName clientId address key z (wallets w) in
    wallets w' = (wallets w ++ [row])%list /\
    transactions w' = transactions w /\
    submitted w' = submitted w /\
    cw_id v = Db.w_id row /\
    cw_isPrimary v = Db.w_is_primary row /\
    cw_walletName v = walletName /\
    existsb (fun r => String.eqb (Db.w_id r) (uuid_generate_v4 rt)) (wallets w) = false /\
    existsb (fun r => String.eqb (Db.w_user_id r) userId
                      && String.eqb (Db.w_wallet_name r) walletName) (wallets w) = false.
Proof.
  unfold createWallet. run_eff.
  destruct (filter _ (wallets w)) eqn:Hdup; [|discriminate].
  apply existsb_false_filter in Hdup.
  destruct (generateWallet (blockchainService rt)) as [gw|]; [|discriminate].
  unfold insert_wallet. rewrite Hdup.
  destruct (existsb (fun r => String.eqb (Db.w_id r) (uuid_generate_v4 rt)) (wallets w))
    eqn:Hid; cbn [orb]; [discriminate|].
  destruct (_ || _)%bool; [discriminate|].
  unfold updateWalletBalance. run_eff. cbn [wallets Db.w_id].
  rewrite filter_app. apply existsb_false_filter in Hid as Hid'. rewrite Hid'.
  cbn [filter Db.w_id app]. rewrite String.eqb_refl.
  destruct (getUSDCBalance _ _) as [bd|]; [|discriminate].
  destruct (Db.numeric_in_text _) as [z|]; [|discriminate].
  intros [= <- <-]. cbn.
  exists (g_address gw), (JSON_stringify rt (g_encryptedPrivateKey gw)), z.
  rewrite update_where_app, (update_where_none _ _ _ Hid).
  unfold update_where. cbn. rewrite String.eqb_refl.
  unfold created_row, set_balance. cbn.
  assert (E : String.eqb (Db.nat_text (List.length
             (filter (fun r => String.eqb (Db.w_user_id r) userId) (wallets w)))) "0"
           = Nat.eqb (List.length
             (filter (fun r => String.eqb (Db.w_user_id r) userId) (wallets w))) 0).
  { destruct (Nat.eqb_spec (List.length
       (filter (fun r => String.eqb (Db.w_user_id r) userId) (wallets w))) 0) as [e|ne].
    - rewrite e. reflexivity.
    - apply String.eqb_neq. intros H. apply nat_text_zero in H. contradiction. }
  rewrite E. repeat split; try reflexivity; assumption.
Qed.

End ServiceFacts.

(** *** The constraints of the wallets table, kept by every statement *)

Definition owner_name (r : Db.wallet_row) : string * string :=
  (Db.w_user_id r, Db.w_wallet_name r).

(** PRIMARY KEY (id) and UNIQUE (user_id, wallet_name), over rows of every
    status. *)
Definition ids_unique (ws : list Db.wallet_row) : Prop := NoDup (map Db.w_id ws).
Definition names_unique (ws : list Db.wallet_row) : Prop := NoDup (map owner_name ws).
Definition table_ok (ws : list Db.wallet_row) : Prop := ids_unique ws /\ names_unique ws.

Lemma NoDup_map_eq {A B} (f : A -> B) (l : list A) (x y : A) :
  NoDup (map f l) -> In x l -> In y l -> f x = f y -> x = y.
Proof.
  induction l as [|a l IH]; cbn; [tauto|].
  intros Hnd [->|Hx] [->|Hy] E; inversion Hnd as [|? ? Hnot Hnd']; subst; auto.
  - exfalso. apply Hnot. rewrite E. now apply in_map.
  - exfalso. apply Hnot. rewrite <- E. now apply in_map.
Qed.

Lemma existsb_id_false (id : Db.uuid) (ws : list Db.wallet_row) :
  existsb (fun r => String.eqb (Db.w_id r) id) ws = false -> ~ In id (map Db.w_id ws).
Proof.
  induction ws as [|r ws IH]; cbn; [tauto|].
  intros H. apply orb_false_iff in H as [Hr Hws].
  apply String.eqb_neq in Hr. intros [E|Hin]; [congruence | now apply IH].
Qed.

Lemma existsb_name_false (u n : string) (ws : list Db.wallet_row) :
  existsb (fun r => String.eqb (Db.w_user_id r) u && String.eqb (Db.w_wallet_name r) n) ws
    = false ->
  ~ In (u, n) (map owner_name ws).
Proof.
  induction ws as [|r ws IH]; cbn; [tauto|].
  intros H. apply orb_false_iff in H as [Hr Hws].
  intros [E|Hin]; [|now apply IH].
  unfold owner_name in E. injection E as <- <-.
  now rewrite !String.eqb_refl in Hr.
Qed.

Lemma existsb_name_true (u n : string) (ws : list Db.wallet_row) (r : Db.wallet_row) :
  In r ws -> Db.w_user_id r = u -> Db.w_wallet_name r = n ->
  existsb (fun r => String.eqb (Db.w_user_id r) u && String.eqb (Db.w_wallet_name r) n) ws
    = true.
Proof.
  intros Hin <- <-. apply existsb_exists. exists r.
  now rewrite !String.eqb_refl.
Qed.

Lemma NoDup_snoc {A} (l : list A) (a : A) : NoDup l -> ~ In a l -> NoDup (l ++ [a]).
Proof.
  intros Hl Ha. apply NoDup_app; [assumption | repeat constructor; cbn; tauto |].
  intros x Hx [<-|[]]. contradiction.
Qed.

Lemma insert_wallet_table_ok id now userId clientId walletName address key isPrimary w :
  table_ok (wallets w) ->
  table_ok (wallets (snd (insert_wallet id now userId clientId walletName address key
                            isPrimary w))).
Proof.
  intros H. unfold insert_wallet.
  destruct (existsb (fun r => String.eqb (Db.w_id r) id) (wallets w)) eqn:E1;
    cbn [orb snd]; [assumption|].
  destruct (existsb (fun r => String.eqb (Db.w_user_id r) userId
                              && String.eqb (Db.w_wallet_name r) walletName) (wallets w))
    eqn:E2; cbn [snd]; [assumption|].
  destruct (_ || _)%bool; cbn [snd wallets]; [assumption|].
  destruct H as [Hid Hname].
  split; unfold ids_unique, names_unique; rewrite map_app; cbn [map].
  - apply NoDup_snoc; [assumption | now apply existsb_id_false].
  - apply NoDup_snoc; [assumption | now apply existsb_name_false].
Qed.

Lemma update_where_keys sel f (ws : list Db.wallet_row) :
  (forall r, Db.w_id (f r) = Db.w_id r) ->
  (forall r, owner_name (f r) = owner_name r) ->
  map Db.w_id (update_where sel f ws) = map Db.w_id ws /\
  map owner_name (update_where sel f ws) = map owner_name ws.
Proof.
  intros Hi Hn. unfold update_where. rewrite !map_map.
  split; apply map_ext; intros r; destruct (sel r); auto.
Qed.

Lemma update_where_table_ok sel f (ws : list Db.wallet_row) :
  (forall r, Db.w_id (f r) = Db.w_id r) ->
  (forall r, owner_name (f r) = owner_name r) ->
  table_ok ws -> table_ok (update_where sel f ws).
Proof.
  intros Hi Hn [H1 H2].
  destruct (update_where_keys sel f ws Hi Hn) as [E1 E2].
  split; unfold ids_unique, names_unique; [now rewrite E1 | now rewrite E2].
Qed.

Section Preservation.
Context {cipher : Crypto.PasswordCipher}.
Variable rt : runtime.

Lemma updateWalletBalance_table_ok walletId w :
  table_ok (wallets w) -> table_ok (wallets (snd (updateWalletBalance rt walletId w))).
Proof.
  intros H. unfold updateWalletBalance. run_eff.
  destruct (filter _ (wallets w)); cbn [snd]; [assumption|].
  destruct (getUSDCBalance _ _); cbn [snd]; [|assumption].
  destruct (Db.numeric_in_text _); cbn [snd wallets with_wallets]; [|assumption].
  apply update_where_table_ok; auto.
Qed.

Lemma createWallet_table_ok userId walletName clientId w :
  table_ok (wallets w) ->
  table_ok (wallets (snd (createWallet rt userId walletName clientId w))).
Proof.
  intros H. unfold createWallet. run_eff.
  destruct (filter _ (wallets w)); cbn [snd]; [|assumption].
  destruct (generateWallet _); cbn [snd]; [|assumption].
  match goal with
  | |- context [insert_wallet ?a ?b ?c ?d ?e ?f ?g ?h w] =>
      pose proof (insert_wallet_table_ok a b c d e f g h w H) as Hins;
      destruct (insert_wallet a b c d e f g h w) as [[row|e0] w1]
  end; cbn [snd] in *; [|assumption].
  pose proof (updateWalletBalance_table_ok (Db.w_id row) w1 Hins) as Hupd.
  destruct (updateWalletBalance rt (Db.w_id row) w1) as [[b|e0] w2]; cbn [snd] in *;
    assumption.
Qed.

Lemma sendUSDC_wallets walletId userId toAddress amount memo w :
  wallets (snd (sendUSDC rt walletId userId toAddress amount memo w)) = wallets w.
Proof.
  unfold sendUSDC. run_eff.
  destruct (negb _); cbn [snd]; [reflexivity|].
  destruct (filter _ (wallets w)); cbn [snd]; [reflexivity|].
  destruct (JSON_parse rt _); cbn [snd]; [|reflexivity].
  destruct (PrimFloat.ltb _ _); cbn [snd]; [reflexivity|].
  destruct (getETHBalance _ _); cbn [snd]; [|reflexivity].
  destruct (PrimFloat.ltb _ _); cbn [snd]; [reflexivity|].
  unfold Blockchain.sendUSDC.
  destruct (decryptPrivateKey _ _) as [pk|[m| |c]]; cbn [snd]; try reflexivity.
  destruct (transfer _ _ _ _) as [m|tx]; cbn [snd]; [reflexivity|].
  unfold insert_transaction. cbn [transactions wallets].
  destruct (Db.numeric_in amount); cbn [snd]; [|reflexivity].
  destruct (existsb _ _); cbn [snd]; [reflexivity|].
  destruct (_ || _)%bool; reflexivity.
Qed.

Lemma setPrimaryWallet_table_ok walletId userId w :
  table_ok (wallets w) ->
  table_ok (wallets (snd (setPrimaryWallet rt walletId userId w))).
Proof.
  intros H. unfold setPrimaryWallet. run_eff.
  destruct (negb _); cbn [snd wallets with_wallets]; [assumption|].
  unfold mark_primary, clear_primary.
  repeat apply update_where_table_ok; auto.
Qed.

End Preservation.

(** Everything that writes the wallets table: the service's calls, and the
    same INSERT issued elsewhere (importWallet and restoreFromBackup use it
    without a check of their own on the name). *)
Inductive call :=
| CreateWallet (rt : runtime) (userId : Db.uuid) (walletName : string)
    (whitelabelClientId : option Db.uuid)
| UpdateWalletBalance (rt : runtime) (walletId : Db.uuid)
| SendUSDC (rt : runtime) (walletId userId : Db.uuid) (toAddress : string)
    (amount : JS.value) (memo : option string)
| SetPrimaryWallet (rt : runtime) (walletId userId : Db.uuid)
| InsertWallet (id : Db.uuid) (now : Db.time) (userId : Db.uuid)
    (clientId : option Db.uuid) (walletName address key : string) (isPrimary : bool).

Definition run_call {cipher : Crypto.PasswordCipher} (c : call) (w : world) : world :=
  match c with
  | CreateWallet rt u n c => snd (createWallet rt u n c w)
  | UpdateWalletBalance rt i => snd (updateWalletBalance rt i w)
  | SendUSDC rt i u a v m => snd (sendUSDC rt i u a v m w)
  | SetPrimaryWallet rt i u => snd (setPrimaryWallet rt i u w)
  | InsertWallet i t u c n a k p => snd (insert_wallet i t u c n a k p w)
  end.

Definition run_calls {cipher : Crypto.PasswordCipher} (cs : list call) (w : world) : world :=
  fold_left (fun w c => run_call c w) cs w.

Definition empty_world : world :=
  {| wallets := []; transactions := []; submitted := [] |}.

Lemma run_call_table_ok {cipher : Crypto.PasswordCipher} c w :
  table_ok (wallets w) -> table_ok (wallets (run_call c w)).
Proof.
  intros H. destruct c; cbn [run_call].
  - now apply createWallet_table_ok.
  - now apply updateWalletBalance_table_ok.
  - now rewrite sendUSDC_wallets.
  - now apply setPrimaryWallet_table_ok.
  - now apply insert_wallet_table_ok.
Qed.

Lemma run_calls_table_ok {cipher : Crypto.PasswordCipher} cs w :
  table_ok (wallets w) -> table_ok (wallets (run_calls cs w)).
Proof.
  revert w. induction cs as [|c cs IH]; intros w H; cbn; [assumption|].
  apply IH. now apply run_call_table_ok.
Qed.

(** *** setPrimaryWallet, statement by statement

    The service awaits each query on the shared pool: the database runs the
    three statements of one call one at a time, and the statements of other
    calls in between. *)

Inductive sp_pc := AtVerify | AtClear | AtMark | Finished | Rejected.

Record sp_call := mkSpCall {
  sp_rt : runtime;
  sp_walletId : Db.uuid;
  sp_userId : Db.uuid;
  sp_at : sp_pc
}.

Definition sp_goto (c : sp_call) (pc : sp_pc) : sp_call :=
  mkSpCall (sp_rt c) (sp_walletId c) (sp_userId c) pc.

(** The next statement of a call. *)
Definition sp_step (c : sp_call) (ws : list Db.wallet_row) : sp_call * list Db.wallet_row :=
  match sp_at c with
  | AtVerify =>
      if verify_ownership (sp_walletId c) (sp_userId c) ws
      then (sp_goto c AtClear, ws) else (sp_goto c Rejected, ws)
  | AtClear => (sp_goto c AtMark, clear_primary (sp_rt c) (sp_userId c) ws)
  | AtMark => (sp_goto c Finished, mark_primary (sp_rt c) (sp_walletId c) ws)
  | Finished | Rejected => (c, ws)
  end.

Fixpoint replace_nth {A} (i : nat) (a : A) (l : list A) : list A :=
  match l, i with
  | [], _ => []
  | _ :: l', O => a :: l'
  | x :: l', S j => x :: replace_nth j a l'
  end.

(** The calls in flight and the table. *)
Definition sp_state := (list sp_call * list Db.wallet_row)%type.

(** The database runs the next statement of the [i]-th call. *)
Definition sched_step (st : sp_state) (i : nat) : sp_state :=
  match nth_error (fst st) i with
  | Some c => let '(c', ws') := sp_step c (snd st) in (replace_nth i c' (fst st), ws')
  | None => st
  end.

Definition run_schedule (schedule : list nat) (st : sp_state) : sp_state :=
  fold_left sched_step schedule st.

(** The states some interleaving of the calls reaches. *)
Definition reachable (init st : sp_state) : Prop :=
  exists schedule, run_schedule schedule init = st.

Definition primary_count (userId : Db.uuid) (ws : list Db.wallet_row) : nat :=
  List.length (filter (fun r => String.eqb (Db.w_user_id r) userId && Db.w_is_primary r) ws).

Definition new_call (rt : runtime) (walletId userId : Db.uuid) : sp_call :=
  mkSpCall rt walletId userId AtVerify.

(** One call running alone is the service method. *)
Lemma setPrimaryWallet_statements rt walletId userId w :
  wallets (snd (setPrimaryWallet rt walletId userId w)) =
  snd (run_schedule [0; 0; 0]%nat ([new_call rt walletId userId], wallets w)).
Proof.
  unfold setPrimaryWallet, run_schedule, sched_step, sp_step. run_eff. cbn.
  destruct (verify_ownership walletId userId (wallets w)); reflexivity.
Qed.

Section Alone.
Variable rt : runtime.
Variables walletId userId : Db.uuid.

Lemma clear_primary_count_self ws :
  primary_count userId (clear_primary rt userId ws) = 0%nat.
Proof.
  unfold primary_count, clear_primary, update_where.
  induction ws as [|r ws IH]; [reflexivity|]. cbn [map filter].
  destruct (String.eqb (Db.w_user_id r) userId) eqn:E; cbn.
  - rewrite E. cbn. exact IH.
  - rewrite E. cbn. exact IH.
Qed.

Lemma clear_primary_count_other u ws :
  String.eqb u userId = false ->
  primary_count u (clear_primary rt userId ws) = primary_count u ws.
Proof.
  intros Hu. unfold primary_count, clear_primary, update_where.
  induction ws as [|r ws IH]; [reflexivity|]. cbn [map filter].
  destruct (String.eqb (Db.w_user_id r) userId) eqn:E.
  - apply String.eqb_eq in E. cbn. rewrite E, String.eqb_sym, Hu. cbn. exact IH.
  - destruct (String.eqb (Db.w_user_id r) u && Db.w_is_primary r); cbn; now rewrite IH.
Qed.

Lemma mark_primary_absent ws :
  ~ In walletId (map Db.w_id ws) -> mark_primary rt walletId ws = ws.
Proof.
  intros H. apply update_where_none.
  induction ws as [|r ws IH]; [reflexivity|]. cbn in *.
  apply orb_false_iff. split.
  - apply String.eqb_neq. tauto.
  - apply IH. tauto.
Qed.

Lemma clear_primary_ids ws :
  map Db.w_id (clear_primary rt userId ws) = map Db.w_id ws.
Proof. apply update_where_keys; reflexivity. Qed.

Lemma mark_after_clear_count ws :
  ids_unique ws ->
  verify_ownership walletId userId ws = true ->
  primary_count userId (mark_primary rt walletId (clear_primary rt userId ws)) = 1%nat.
Proof.
  unfold verify_ownership, ids_unique.
  induction ws as [|r ws IH]; [discriminate|].
  intros Hnd Hown. inversion Hnd as [|? ? Hnot Hnd']; subst.
  cbn [filter] in Hown.
  change (clear_primary rt userId (r :: ws))
    with ((if String.eqb (Db.w_user_id r) userId then set_is_primary (NOW rt) false r else r)
          :: clear_primary rt userId ws).
  destruct (String.eqb (Db.w_id r) walletId) eqn:Eid.
  - (* the target is the head: no other row carries its id *)
    apply String.eqb_eq in Eid.
    assert (Habsent : ~ In walletId (map Db.w_id (clear_primary rt userId ws)))
      by (rewrite clear_primary_ids; congruence).
    assert (Eu : String.eqb (Db.w_user_id r) userId = true).
    { destruct (String.eqb (Db.w_user_id r) userId) eqn:Eu; [reflexivity|].
      cbn [andb] in Hown.
      destruct (filter _ ws) as [|r0 l] eqn:Ef; [discriminate|].
      assert (Hin : In r0 (filter (fun r => String.eqb (Db.w_id r) walletId
                                            && String.eqb (Db.w_user_id r) userId) ws))
        by (rewrite Ef; now left).
      apply filter_In in Hin as [Hin Hr0]. apply andb_true_iff in Hr0 as [Hr0 _].
      apply String.eqb_eq in Hr0. exfalso. apply Hnot. rewrite Eid, <- Hr0.
      now apply in_map. }
    rewrite Eu. unfold mark_primary at 1. unfold update_where. cbn [map].
    fold (update_where (fun r => String.eqb (Db.w_id r) walletId)
            (set_is_primary (NOW rt) true) (clear_primary rt userId ws)).
    fold (mark_primary rt walletId (clear_primary rt userId ws)).
    rewrite (mark_primary_absent _ Habsent).
    cbn [set_is_primary Db.w_id]. rewrite Eid, String.eqb_refl.
    unfold primary_count. cbn [filter set_is_primary Db.w_user_id Db.w_is_primary].
    rewrite Eu. cbn [andb List.length].
    f_equal. apply clear_primary_count_self.
  - (* the target is further down *)
    cbn [andb] in Hown.
    specialize (IH Hnd' Hown).
    unfold mark_primary at 1. unfold update_where. cbn [map].
    fold (update_where (fun r => String.eqb (Db.w_id r) walletId)
            (set_is_primary (NOW rt) true) (clear_primary rt userId ws)).
    fold (mark_primary rt walletId (clear_primary rt userId ws)).
    assert (Eid' : String.eqb
              (Db.w_id (if String.eqb (Db.w_user_id r) userId
                        then set_is_primary (NOW rt) false r else r)) walletId = false)
      by (destruct (String.eqb (Db.w_user_id r) userId); exact Eid).
    rewrite Eid'. unfold primary_count in *. cbn [filter].
    destruct (String.eqb (Db.w_user_id r) userId) eqn:Eu; cbn.
    + rewrite Eu. cbn. exact IH.
    + rewrite Eu. cbn. exact IH.
Qed.

Lemma verified_row ws :
  verify_ownership walletId userId ws = true ->
  exists r, In r ws /\ Db.w_id r = walletId /\ Db.w_user_id r = userId.
Proof.
  unfold verify_ownership. destruct (filter _ ws) as [|r l] eqn:Ef; [discriminate|].
  intros _. exists r.
  assert (Hin : In r (filter (fun r => String.eqb (Db.w_id r) walletId
                                       && String.eqb (Db.w_user_id r) userId) ws))
    by (rewrite Ef; now left).
  apply filter_In in Hin as [Hin Hr]. apply andb_true_iff in Hr as [H1 H2].
  apply String.eqb_eq in H1, H2. auto.
Qed.

Lemma target_owner ws r :
  ids_unique ws -> verify_ownership walletId userId ws = true ->
  In r ws -> Db.w_id r = walletId -> Db.w_user_id r = userId.
Proof.
  intros Hnd Hown Hin Hid.
  destruct (verified_row ws Hown) as (r0 & Hin0 & Hid0 & Hu0).
  rewrite (NoDup_map_eq Db.w_id ws r r0 Hnd Hin Hin0); congruence.
Qed.

Lemma mark_primary_count_other u ws :
  (forall r, In r ws -> Db.w_id r = walletId -> Db.w_user_id r = userId) ->
  String.eqb u userId = false ->
  primary_count u (mark_primary rt walletId ws) = primary_count u ws.
Proof.
  intros Hown Hu. unfold primary_count, mark_primary, update_where.
  induction ws as [|r ws IH]; [reflexivity|]. cbn [map filter].
  assert (IH' := IH (fun r' Hr' => Hown r' (or_intror Hr'))). clear IH.
  destruct (String.eqb (Db.w_id r) walletId) eqn:E.
  - apply String.eqb_eq in E.
    assert (Er : Db.w_user_id r = userId) by (apply Hown; [now left | exact E]).
    cbn [set_is_primary Db.w_user_id]. rewrite Er, String.eqb_sym, Hu. cbn [andb].
    exact IH'.
  - destruct (String.eqb (Db.w_user_id r) u && Db.w_is_primary r); cbn [List.length];
      now rewrite IH'.
Qed.

Lemma clear_primary_In ws r' :
  In r' (clear_primary rt userId ws) ->
  exists r, In r ws /\ Db.w_id r' = Db.w_id r /\ Db.w_user_id r' = Db.w_user_id r.
Proof.
  unfold clear_primary, update_where. intros H. apply in_map_iff in H as (r & <- & Hin).
  exists r. destruct (String.eqb (Db.w_user_id r) userId); auto.
Qed.

Lemma marked_row ws :
  verify_ownership walletId userId ws = true ->
  exists r, In r (mark_primary rt walletId (clear_primary rt userId ws)) /\
            Db.w_id r = walletId /\ Db.w_user_id r = userId /\ Db.w_is_primary r = true.
Proof.
  intros Hown. destruct (verified_row ws Hown) as (r0 & Hin0 & Hid0 & Hu0).
  exists (set_is_primary (NOW rt) true (set_is_primary (NOW rt) false r0)).
  split; [|cbn; auto].
  unfold mark_primary, clear_primary, update_where. rewrite map_map.
  apply in_map_iff. exists r0. split; [|assumption].
  rewrite Hu0, String.eqb_refl. cbn [set_is_primary Db.w_id].
  now rewrite Hid0, String.eqb_refl.
Qed.

End Alone.

End WalletService.

(** ** The backup service (services/backupService.js): the password layer *)
Module Backup.

Import Crypto.

Record encrypted_backup := mkBackup {
  encrypted : string;
  salt : string;
  iv : string;
  authTag : string
}.

(** [crypto.pbkdf2Sync(password, salt, 100000, 32, "sha256")] *)
Definition derive_key (password : string) (salt : bytes) : bytes :=
  Pbkdf2.pbkdf2 (utf8 password) salt 100000 32.

Section Service.
Context {cipher : PasswordCipher}.

(** encryptBackup, with the two draws of [crypto.randomBytes(16)] it makes.
    The derived key is the cipher's password; the second draw is returned as
    the iv and not used otherwise. *)
Definition encryptBackup (random_salt random_iv : bytes) (data password : string)
    : encrypted_backup :=
  let key := derive_key password random_salt in
  let '(ct, tag) := seal key (utf8 data) in
  {| encrypted := Hex.encode ct;
     salt := Hex.encode random_salt;
     iv := Hex.encode random_iv;
     authTag := Hex.encode tag |}.

(** decryptBackup: the decipher's update refuses a hexadecimal text of odd
    length; whatever is thrown is replaced by the one message. *)
Definition decryptBackup (encryptedData : encrypted_backup) (password : string)
    : outcome string :=
  let salt := Hex.decode (salt encryptedData) in
  let key := derive_key password salt in
  if Nat.odd (JS.utf16_length (encrypted encryptedData)) then
    Throw (Error "Failed to decrypt backup - invalid password or corrupted data")
  else
    match unseal key (Hex.decode (encrypted encryptedData))
                 (Hex.decode (authTag encryptedData)) with
    | Some pt => Ok (from_utf8 pt)
    | None =>
        Throw (Error "Failed to decrypt backup - invalid password or corrupted data")
    end.

Lemma decryptBackup_encryptBackup random_salt random_iv data password :
  decryptBackup (encryptBackup random_salt random_iv data password) password = Ok data.
Proof.
  unfold decryptBackup, encryptBackup.
  pose proof (unseal_seal (derive_key password random_salt) (utf8 data)) as Hlaw.
  destruct (seal (derive_key password random_salt) (utf8 data)) as [ct tag].
  cbn [salt encrypted authTag fst snd] in *.
  rewrite Hex.encode_even, !Hex.decode_encode, Hlaw. now rewrite from_utf8_utf8.
Qed.


End Service.

Definition NUL : string := String Ascii.zero "".





Lemma append_NUL_differs (password : string) :
  String.eqb (password ++ NUL) password = false.
Proof.
  induction password as [|c p IH]; [reflexivity|]. cbn.
  rewrite Ascii.eqb_refl. exact IH.
Qed.

End Backup.

(** ** The transaction route (routes/transactions.js) *)
Module TransactionsRoute.

Import Blockchain.
Local Open Scope eff_scope.

Record tx_data := mkTxData {
  d_chain : chain_tx;
  d_memo : option string;
  d_type : Db.tx_type
}.

Record response := mkResponse {
  http_status : Z;
  success : bool;
  message : option string;
  data : option tx_data
}.

Definition exn_message (e : exn) : string :=
  match e with
  | Error m => m
  | SyntaxError => "Unexpected token"
  | DbError code => code
  end.

(** SELECT t.*, w.user_id FROM transactions t JOIN wallets w
    ON t.wallet_id = w.id WHERE t.transaction_hash = $1 AND w.user_id = $2 *)
Definition select_for_user (txHash : string) (userId : Db.uuid) (w : world) : list Db.tx_row :=
  flat_map
    (fun t =>
       if String.eqb (Db.t_transaction_hash t) txHash then
         map (fun _ => t)
             (filter (fun wl => String.eqb (Db.w_id wl) (Db.t_wallet_id t)
                                && String.eqb (Db.w_user_id wl) userId) (wallets w))
       else [])
    (transactions w).

Definition set_chain_status (status : Db.tx_status) (confirmations : Z)
    (confirmed_at : option Db.time) (t : Db.tx_row) : Db.tx_row :=
  Db.mkTx (Db.t_id t) (Db.t_wallet_id t) (Db.t_transaction_hash t) (Db.t_from_address t)
    (Db.t_to_address t) (Db.t_amount t) (Db.t_gas_used t) (Db.t_gas_price t)
    (Db.t_transaction_type t) status confirmations (Db.t_memo t) (Db.t_created_at t)
    confirmed_at.

(** UPDATE transactions SET status = $1, confirmations = $2, confirmed_at = $3
    WHERE transaction_hash = $4 *)
Definition update_status (txHash : string) (status : Db.tx_status) (confirmations : Z)
    (confirmed_at : option Db.time) (w : world) : world :=
  {| wallets := wallets w;
     transactions :=
       map (fun t => if String.eqb (Db.t_transaction_hash t) txHash
                     then set_chain_status status confirmations confirmed_at t else t)
           (transactions w);
     submitted := submitted w |}.

Section Route.
Context {cipher : Crypto.PasswordCipher}.
Variable blockchainService : service.
(** [new Date()] when the handler runs. *)
Variable now : Db.time.

(** router.get("/:txHash"), for the authenticated user [userId].  The
    validator's length is taken in bytes, which for the hexadecimal text of a
    hash is its number of characters. *)
Definition get_by_hash (userId : Db.uuid) (txHash : string) : M response :=
  try_catch
    (if negb (String.length txHash =? 66)%nat then
       ret (mkResponse 400 false (Some "Invalid transaction hash") None)
     else
       w <- get ;;
       match select_for_user txHash userId w with
       | [] => ret (mkResponse 404 false (Some "Transaction not found or access denied") None)
       | row :: _ =>
           blockchainTx <- lift (getTransaction blockchainService txHash) ;;
           (if negb (Db.tx_status_eqb (c_status blockchainTx) (Db.t_status row)) then
              put (update_status txHash (c_status blockchainTx)
                     (c_confirmations blockchainTx)
                     (match c_status blockchainTx with
                      | Db.Confirmed => Some now
                      | _ => None
                      end) w)
            else ret tt) ;;;
           ret (mkResponse 200 true None
                  (Some (mkTxData blockchainTx (Db.t_memo row) (Db.t_transaction_type row))))
       end)
    (fun error => ret (mkResponse 400 false (Some (exn_message error)) None)).

End Route.

(** UNIQUE (transaction_hash) *)
Definition hashes_unique (ts : list Db.tx_row) : Prop :=
  NoDup (map Db.t_transaction_hash ts).

Lemma select_for_user_In txHash userId w row :
  In row (select_for_user txHash userId w) ->
  In row (transactions w) /\ Db.t_transaction_hash row = txHash.
Proof.
  unfold select_for_user. intros H. apply in_flat_map in H as (t & Ht & Hin).
  destruct (String.eqb (Db.t_transaction_hash t) txHash) eqn:E; [|contradiction].
  apply in_map_iff in Hin as (wl & <- & _). apply String.eqb_eq in E. auto.
Qed.

End TransactionsRoute.

(** ** The white-label middleware (middleware/whitelabel.js) *)
Module Whitelabel.

Record features_config := mkFeatures {
  features : list string;
  dailyTransactionLimit : option JS.number;
  monthlyTransactionLimit : option JS.number
}.

Record client_config := mkClient {
  cc_id : Db.uuid;
  cc_clientName : string;
  cc_featuresConfig : option features_config
}.

(** What the middleware reads of the request. *)
Record request := mkRequest {
  whitelabelClient : option client_config;
  user_id : option Db.uuid;
  body_amount : JS.value
}.

(** The Date arithmetic of the process's time zone. *)
Record calendar := mkCalendar {
  midnight : Db.time -> Db.time;
  add_day : Db.time -> Db.time;
  month_start : Db.time -> Db.time;
  next_month_start : Db.time -> Db.time
}.

(** Days since 1970-01-01 of a civil date, and back (proleptic Gregorian). *)
Definition days_from_civil (y m d : Z) : Z :=
  let y' := if m <=? 2 then y - 1 else y in
  let era := y' / 400 in
  let yoe := y' - era * 400 in
  let mp := if m <=? 2 then m + 9 else m - 3 in
  let doy := (153 * mp + 2) / 5 + d - 1 in
  let doe := yoe * 365 + yoe / 4 - yoe / 100 + doy in
  era * 146097 + doe - 719468.

Definition civil_from_days (z : Z) : Z * Z * Z :=
  let z' := z + 719468 in
  let era := z' / 146097 in
  let doe := z' - era * 146097 in
  let yoe := (doe - doe / 1460 + doe / 36524 - doe / 146096) / 365 in
  let doy := doe - (365 * yoe + yoe / 4 - yoe / 100) in
  let mp := (5 * doy + 2) / 153 in
  let d := doy - (153 * mp + 2) / 5 + 1 in
  let m := if mp <? 10 then mp + 3 else mp - 9 in
  ((if m <=? 2 then yoe + era * 400 + 1 else yoe + era * 400), m, d).

Definition ms_per_day : Z := 86400000.

(** A process running in UTC. *)
Definition utc : calendar :=
  {| midnight := fun t => t / ms_per_day * ms_per_day;
     add_day := fun t => t + ms_per_day;
     month_start := fun t =>
       let '(y, m, _) := civil_from_days (t / ms_per_day) in
       days_from_civil y m 1 * ms_per_day;
     next_month_start := fun t =>
       let '(y, m, _) := civil_from_days (t / ms_per_day) in
       (if m =? 12 then days_from_civil (y + 1) 1 1 else days_from_civil y (m + 1) 1)
       * ms_per_day |}.

(** What surrounds one run of the limit check: the clock, the calendar, and
    whether the database answers each of the two queries. *)
Record surroundings := mkSurroundings {
  now : Db.time;
  cal : calendar;
  daily_query_answers : bool;
  monthly_query_answers : bool
}.

Definition connection_failure := "08006".

(** The rows the limit query sums: transactions joined to their wallet, of
    this user under this client, created in [from, to), not failed. *)
Definition counted (userId clientId : Db.uuid) (from to : Db.time) (w : world)
    : list Db.tx_row :=
  flat_map
    (fun t =>
       if (from <=? Db.t_created_at t) && (Db.t_created_at t <? to)
          && negb (Db.tx_status_eqb (Db.t_status t) Db.Failed)
       then
         map (fun _ => t)
             (filter (fun wl => String.eqb (Db.w_id wl) (Db.t_wallet_id t)
                                && String.eqb (Db.w_user_id wl) userId
                                && WalletService.opt_eqb (Db.w_white_label_client_id wl) clientId)
                     (wallets w))
       else [])
    (transactions w).

(** SELECT COALESCE(SUM(t.amount), 0): the text of the sum, or of the integer
    0 when no row is counted. *)
Definition total_text (rows : list Db.tx_row) : string :=
  match rows with
  | [] => "0"
  | _ => Db.numeric_out (fold_left (fun acc t => acc + Db.t_amount t) rows 0)
  end.

Definition limit_query (answers : bool) (userId clientId : Db.uuid) (from to : Db.time)
    (w : world) : outcome string :=
  if answers then Ok (total_text (counted userId clientId from to w))
  else Throw (DbError connection_failure).

Inductive period := Daily | Monthly.

Record limit_data := mkLimitData {
  ld_period : period;
  ld_limit : JS.number;
  ld_used : JS.number;
  ld_remaining : JS.number
}.

Inductive verdict :=
| Next
| Respond (status : Z) (success : bool) (message : string) (data : limit_data).

Definition exceeded_message (p : period) (limit : JS.number) : string :=
  (match p with Daily => "Daily" | Monthly => "Monthly" end)
  ++ " transaction limit of $" ++ JS.number_to_string limit ++ " would be exceeded".

Definition default_daily_limit : JS.number := 10000%float.
Definition default_monthly_limit : JS.number := 100000%float.

(** The body of the try block: an outcome, so that a throw can be caught. *)
Definition check_limits (s : surroundings) (req : request) (w : world) : outcome verdict :=
  match whitelabelClient req, user_id req with
  | Some clientConfig, Some userId =>
      match cc_featuresConfig clientConfig with
      | None => Ok Next
      | Some featuresConfig =>
          let amount := body_amount req in
          let dailyLimit :=
            JS.or_default (dailyTransactionLimit featuresConfig) default_daily_limit in
          let monthlyLimit :=
            JS.or_default (monthlyTransactionLimit featuresConfig) default_monthly_limit in
          let today := midnight (cal s) (now s) in
          let tomorrow := add_day (cal s) today in
          match limit_query (daily_query_answers s) userId (cc_id clientConfig)
                  today tomorrow w with
          | Throw e => Throw e
          | Ok daily_total =>
              let dailyTotal := JS.parseFloat (JS.VStr daily_total) in
              if PrimFloat.ltb dailyLimit (dailyTotal + JS.parseFloat amount)%float then
                Ok (Respond 400 false (exceeded_message Daily dailyLimit)
                      (mkLimitData Daily dailyLimit dailyTotal (dailyLimit - dailyTotal)%float))
              else
                let monthStart := month_start (cal s) today in
                let monthEnd := next_month_start (cal s) today in
                match limit_query (monthly_query_answers s) userId (cc_id clientConfig)
                        monthStart monthEnd w with
                | Throw e => Throw e
                | Ok monthly_total =>
                    let monthlyTotal := JS.parseFloat (JS.VStr monthly_total) in
                    if PrimFloat.ltb monthlyLimit
                         (monthlyTotal + JS.parseFloat amount)%float then
                      Ok (Respond 400 false (exceeded_message Monthly monthlyLimit)
                            (mkLimitData Monthly monthlyLimit monthlyTotal
                               (monthlyLimit - monthlyTotal)%float))
                    else Ok Next
                end
          end
      end
  | _, _ => Ok Next
  end.

(** checkTransactionLimits: whatever the try block throws is logged, and the
    request goes on without a limit check. *)
Definition checkTransactionLimits (s : surroundings) (req : request) (w : world) : verdict :=
  match check_limits s req w with
  | Ok v => v
  | Throw _ => Next
  end.

(** checkFeaturePermission(feature) *)
Definition checkFeaturePermission (feature : string) (req : request) : bool :=
  match whitelabelClient req with
  | None => true
  | Some clientConfig =>
      let allowedFeatures :=
        match cc_featuresConfig clientConfig with
        | Some fc => features fc
        | None => []
        end in
      existsb (String.eqb feature) allowedFeatures
  end.

(** The quantities the check computes, named as in the source. *)
Definition dailyLimit (fc : features_config) : JS.number :=
  JS.or_default (dailyTransactionLimit fc) default_daily_limit.

Definition monthlyLimit (fc : features_config) : JS.number :=
  JS.or_default (monthlyTransactionLimit fc) default_monthly_limit.

Definition today (s : surroundings) : Db.time := midnight (cal s) (now s).

Definition dailyRows (s : surroundings) (userId clientId : Db.uuid) (w : world) :=
  counted userId clientId (today s) (add_day (cal s) (today s)) w.

Definition monthlyRows (s : surroundings) (userId clientId : Db.uuid) (w : world) :=
  counted userId clientId (month_start (cal s) (today s))
    (next_month_start (cal s) (today s)) w.

Definition dailyTotal (s : surroundings) (userId clientId : Db.uuid) (w : world) : JS.number :=
  JS.parseFloat (JS.VStr (total_text (dailyRows s userId clientId w))).

Definition monthlyTotal (s : surroundings) (userId clientId : Db.uuid) (w : world)
    : JS.number :=
  JS.parseFloat (JS.VStr (total_text (monthlyRows s userId clientId w))).

(** The 400 response of an exceeded limit. *)
Definition exceeded (p : period) (limit used : JS.number) : verdict :=
  Respond 400 false (exceeded_message p limit)
    (mkLimitData p limit used (limit - used)%float).

End Whitelabel.

(** ** The send route (routes/wallets.js, POST /:walletId/send)

    The handlers run in the order the router lists them: the feature check,
    the limit check, the validators, the handler that calls the service. *)
Module WalletRoutes.

Import Whitelabel WalletService.
Local Open Scope eff_scope.

Record send_params := mkSendParams {
  p_walletId : Db.uuid;
  p_toAddress : string;
  p_memo : option string;
  (** what express-validator's isUUID, isFloat({min: 0.000001}) and
      isLength({max: 500}) say of the request *)
  p_param_checks_pass : bool
}.

Inductive send_response :=
| FeatureDisabled (message : string)
| LimitExceeded (status : Z) (message : string) (data : limit_data)
| ValidationFailed
| Sent (transaction : send_result)
| SendFailed (message : string).

Section Route.
Context {cipher : Crypto.PasswordCipher}.
Variable rt : runtime.
Variable s : surroundings.

Definition send_handler (req : request) (p : send_params) : M send_response :=
  if negb (Blockchain.isValidAddress (blockchainService rt) (p_toAddress p)
           && p_param_checks_pass p) then
    ret ValidationFailed
  else
    match user_id req with
    | None => ret (SendFailed "Cannot read properties of undefined (reading 'id')")
    | Some userId =>
        try_catch
          (transaction <- sendUSDC rt (p_walletId p) userId (p_toAddress p)
                            (body_amount req) (p_memo p) ;;
           ret (Sent transaction))
          (fun error => ret (SendFailed (TransactionsRoute.exn_message error)))
    end.

Definition post_send (req : request) (p : send_params) : M send_response :=
  if negb (checkFeaturePermission "send" req) then
    ret (FeatureDisabled "Feature 'send' is not enabled for this client")
  else
    w <- get ;;
    match checkTransactionLimits s req w with
    | Respond status _ message data => ret (LimitExceeded status message data)
    | Next => send_handler req p
    end.

End Route.

End WalletRoutes.

(** ** The webhook dispatcher (services/webhookService.js) *)
Module Webhook.

Local Open Scope eff_scope.

Record webhook_row := mkWebhook {
  wh_id : Db.uuid;
  wh_client_id : option Db.uuid;
  wh_url : string;
  wh_events : list string;
  wh_secret : option string;
  wh_active : bool
}.

Inductive delivery_status := Success | Failed.

Record webhook_log := mkLog {
  wl_webhook_id : Db.uuid;
  wl_event : string;
  wl_status : delivery_status;
  wl_status_code : Z;
  wl_error_message : option string;
  wl_created_at : Db.time
}.

(** One POST handed to the HTTP client. *)
Record http_post := mkPost {
  hp_url : string;
  hp_body : string;
  hp_signature : string
}.

Record store := mkStore {
  webhooks : list webhook_row;
  webhook_logs : list webhook_log;
  posted : list http_post
}.

(** How a POST ends: a 2xx answer, or a rejected promise whose error carries
    the response when there was one. *)
Inductive http_outcome :=
| Resolved (status : Z)
| Rejected (message : string) (response_status : option Z).

(** What surrounds one call of sendWebhook: the clock, the serializer and the
    HMAC of the crypto module, the message of the TypeError createHmac throws
    for a key that is null (its wording is the Node version's), how the POST
    to each registration ends, and whether the database answers the SELECT
    and each log INSERT. *)
Record surroundings := mkSurroundings {
  now : Db.time;
  toISOString : Db.time -> string;
  JSON_stringify : string -> string -> string -> Db.uuid -> string;
  hmac_sha256_hex : string -> string -> string;
  null_key_message : string;
  post : webhook_row -> http_outcome;
  select_answers : bool;
  insert_answers : webhook_row -> bool
}.

Section Dispatcher.
Variable s : surroundings.

(** generateSignature; createHmac throws on a secret that is null. *)
Definition generateSignature (payload : string) (secret : option string) : outcome string :=
  match secret with
  | Some key => Ok (hmac_sha256_hex s key payload)
  | None => Throw (Error (null_key_message s))
  end.

(** logWebhookDelivery: the INSERT is refused when the database does not
    answer, when the event is longer than VARCHAR(50), or when the webhook
    row is gone; whatever it throws is logged and dropped. *)
Definition logWebhookDelivery (webhook : webhook_row) (event : string)
    (status : delivery_status) (statusCode : Z) (errorMessage : option string)
    : MS store unit :=
  fun st =>
    if insert_answers s webhook
       && (String.length event <=? 50)%nat
       && existsb (fun h => String.eqb (wh_id h) (wh_id webhook)) (webhooks st)
    then
      (Ok tt,
       {| webhooks := webhooks st;
          webhook_logs :=
            webhook_logs st
            ++ [mkLog (wh_id webhook) event status statusCode errorMessage (now s)];
          posted := posted st |})
    else (Ok tt, st).

(** [error.response?.status || 0] *)
Definition status_or_zero (response_status : option Z) : Z :=
  match response_status with
  | Some code => if code =? 0 then 0 else code
  | None => 0
  end.

(** deliverWebhook *)
Definition deliverWebhook (webhook : webhook_row) (event data : string) : MS store unit :=
  let payload := JSON_stringify s event data (toISOString s (now s)) (wh_id webhook) in
  match generateSignature payload (wh_secret webhook) with
  | Throw e =>
      logWebhookDelivery webhook event Failed 0
        (Some (TransactionsRoute.exn_message e))
  | Ok signature =>
      fun st =>
        let st' := {| webhooks := webhooks st;
                      webhook_logs := webhook_logs st;
                      posted := posted st ++ [mkPost (wh_url webhook) payload signature] |} in
        match post s webhook with
        | Resolved status => logWebhookDelivery webhook event Success status None st'
        | Rejected message response_status =>
            logWebhookDelivery webhook event Failed (status_or_zero response_status)
              (Some message) st'
        end
  end.

Fixpoint deliver_each (rows : list webhook_row) (event data : string) : MS store unit :=
  match rows with
  | [] => ret tt
  | webhook :: rest => deliverWebhook webhook event data ;;; deliver_each rest event data
  end.

(** SELECT * FROM webhooks WHERE client_id = $1 AND status = 'active'
    AND events::jsonb ? $2 *)
Definition listening (clientId : Db.uuid) (event : string) (st : store) : list webhook_row :=
  filter (fun h => WalletService.opt_eqb (wh_client_id h) clientId
                   && wh_active h
                   && existsb (String.eqb event) (wh_events h))
         (webhooks st).

(** sendWebhook *)
Definition sendWebhook (clientId : Db.uuid) (event data : string) : MS store unit :=
  try_catch
    (st <- get ;;
     rows <- (if select_answers s then ret (listening clientId event st)
              else throw (DbError Whitelabel.connection_failure)) ;;
     deliver_each rows event data)
    (fun _ => ret tt).

(** What one delivery leaves behind: the POST, when a signature could be
    computed, and the row that records how it ended. *)
Definition post_of (event data : string) (webhook : webhook_row) : list http_post :=
  let payload := JSON_stringify s event data (toISOString s (now s)) (wh_id webhook) in
  match wh_secret webhook with
  | Some key => [mkPost (wh_url webhook) payload (hmac_sha256_hex s key payload)]
  | None => []
  end.

Definition log_of (event : string) (webhook : webhook_row) : webhook_log :=
  match wh_secret webhook with
  | None =>
      mkLog (wh_id webhook) event Failed 0
        (Some (null_key_message s)) (now s)
  | Some _ =>
      match post s webhook with
      | Resolved status => mkLog (wh_id webhook) event Success status None (now s)
      | Rejected message response_status =>
          mkLog (wh_id webhook) event Failed (status_or_zero response_status)
            (Some message) (now s)
      end
  end.

(** The log INSERT of a delivery goes through. *)
Definition logged (event : string) (webhook : webhook_row) : bool :=
  insert_answers s webhook && (String.length event <=? 50)%nat.

Lemma deliverWebhook_effect webhook event data st :
  existsb (fun h => String.eqb (wh_id h) (wh_id webhook)) (webhooks st) = true ->
  deliverWebhook webhook event data st =
  (Ok tt,
   {| webhooks := webhooks st;
      webhook_logs :=
        webhook_logs st ++ (if logged event webhook then [log_of event webhook] else []);
      posted := posted st ++ post_of event data webhook |}).
Proof.
  intros Hin. unfold deliverWebhook, generateSignature, post_of, log_of, logged.
  destruct (wh_secret webhook) as [key|].
  - destruct (post s webhook) as [status|message rs];
      unfold logWebhookDelivery; cbn [webhooks webhook_logs posted]; rewrite Hin;
      rewrite andb_true_r;
      destruct (insert_answers s webhook && (String.length event <=? 50)%nat);
      cbn; rewrite ?app_nil_r; reflexivity.
  - unfold logWebhookDelivery. rewrite Hin, andb_true_r.
    destruct (insert_answers s webhook && (String.length event <=? 50)%nat);
      destruct st; cbn; rewrite ?app_nil_r; reflexivity.
Qed.

Lemma deliver_each_effect rows event data st :
  (forall webhook, In webhook rows ->
     existsb (fun h => String.eqb (wh_id h) (wh_id webhook)) (webhooks st) = true) ->
  deliver_each rows event data st =
  (Ok tt,
   {| webhooks := webhooks st;
      webhook_logs := webhook_logs st ++ map (log_of event) (filter (logged event) rows);
      posted := posted st ++ flat_map (post_of event data) rows |}).
Proof.
  revert st. induction rows as [|webhook rest IH]; intros st Hall.
  - cbn. unfold ret. destruct st; cbn. now rewrite !app_nil_r.
  - cbn [deliver_each]. unfold bind.
    rewrite deliverWebhook_effect by (apply Hall; now left).
    rewrite IH by (intros h Hh; cbn [webhooks]; apply Hall; now right).
    cbn [webhooks webhook_logs posted filter flat_map].
    destruct (logged event webhook); cbn [map]; rewrite <- !app_assoc; reflexivity.
Qed.

Lemma listening_present clientId event st webhook :
  In webhook (listening clientId event st) ->
  existsb (fun h => String.eqb (wh_id h) (wh_id webhook)) (webhooks st) = true.
Proof.
  unfold listening. intros H. apply filter_In in H as [H _].
  apply existsb_exists. exists webhook. split; [assumption | apply String.eqb_refl].
Qed.

End Dispatcher.

End Webhook.

(** ** A concrete setting to run the services in

    A cipher that meets the interface (its tag binds the password and the
    cipher text), a node that answers with fixed values, and the requests of
    two users. *)
Module Example.

Import Blockchain WalletService.


Fixpoint bytes_eqb (a b : Crypto.bytes) : bool :=
  match a, b with
  | [], [] => true
  | x :: a', y :: b' => Byte.eqb x y && bytes_eqb a' b'
  | _, _ => false
  end.

Lemma bytes_eqb_refl (a : Crypto.bytes) : bytes_eqb a a = true.
Proof.
  induction a as [|x a IH]; [reflexivity|]. cbn.
  rewrite IH, andb_true_r. now apply Byte.byte_dec_lb.
Qed.

Definition example_tag (pw ct : Crypto.bytes) : Crypto.bytes :=
  (List.rev pw ++ Byte.x00 :: ct)%list.

Definition example_seal (pw pt : Crypto.bytes) : Crypto.bytes * Crypto.bytes :=
  let ct := List.rev pt in (ct, example_tag pw ct).

Definition example_unseal (pw ct tag : Crypto.bytes) : option Crypto.bytes :=
  if bytes_eqb tag (example_tag pw ct) then Some (List.rev ct) else None.

Lemma example_unseal_seal pw pt :
  example_unseal pw (fst (example_seal pw pt)) (snd (example_seal pw pt)) = Some pt.
Proof.
  unfold example_unseal, example_seal. cbn [fst snd].
  now rewrite bytes_eqb_refl, rev_involutive.
Qed.

#[export] Instance example_cipher : Crypto.PasswordCipher :=
  {| Crypto.seal := example_seal;
     Crypto.unseal := example_unseal;
     Crypto.unseal_seal := example_unseal_seal |}.



Definition dquote : string := String (ascii_of_nat 34) "".

(** The stored key in the layout JSON.stringify gives it; the values are
    hexadecimal, so nothing is escaped. *)
Definition example_stringify (e : encrypted_data) : string :=
  "{" ++ dquote ++ "encrypted" ++ dquote ++ ":" ++ dquote ++ encrypted e ++ dquote
  ++ "," ++ dquote ++ "iv" ++ dquote ++ ":" ++ dquote ++ iv e ++ dquote
  ++ "," ++ dquote ++ "authTag" ++ dquote ++ ":" ++ dquote ++ authTag e ++ dquote ++ "}".

Fixpoint split_quotes (s : string) (cur : string) : list string :=
  match s with
  | EmptyString => [cur]
  | String c s' =>
      if Ascii.eqb c (ascii_of_nat 34) then cur :: split_quotes s' ""
      else split_quotes s' (cur ++ String c "")
  end.

(** Reads that layout back, and refuses any other text. *)
Definition example_parse (s : string) : option encrypted_data :=
  match split_quotes s "" with
  | ["{"; "encrypted"; ":"; e; ","; "iv"; ":"; i; ","; "authTag"; ":"; t; "}"] =>
      Some (mkEncrypted e i t)
  | _ => None
  end.

Definition example_hash : string :=
  "0x00000000000000000000000000000000000000000000000000000000000000a1".

Definition example_provider : provider :=
  {| isAddress := fun a => (String.length a =? 42)%nat && String.prefix "0x" a;
     createRandom :=
       {| rw_address := "0x1111111111111111111111111111111111111111";
          rw_privateKey := "0xabc123";
          rw_publicKey := "0x04fe" |};
     balanceOf := fun _ => Some 12500000;
     decimals := Some 6;
     getBalance := fun _ => Some 2000000000000000000;
     getTransaction_rpc := fun h => Some (Some (mkNodeTx h "0xfrom" "0xto" (Some 7) (Some 3)));
     getTransactionReceipt := fun _ => Some (Some (mkNodeReceipt 1 21000));
     getBlock_timestamp := fun _ => Some 1793700000;
     transfer := fun _ _ _ => inr (mkSent example_hash "21000" "1000000000") |}.

Definition example_service : service :=
  {| sv_provider := example_provider;
     encryptionKey := Some "process-secret";
     randomBytes16 := [Byte.x01; Byte.x02; Byte.x03; Byte.x04] |}.

Definition example_runtime (id : Db.uuid) (now : Db.time) : runtime :=
  {| blockchainService := example_service;
     JSON_stringify := example_stringify;
     JSON_parse := example_parse;
     NOW := now;
     uuid_generate_v4 := id |}.

Definition first_call := createWallet (example_runtime "w-1" 1000) "alice" "main" None.
Definition second_call := createWallet (example_runtime "w-2" 2000) "alice" "savings" None.

Definition after_first : outcome created_wallet * world :=
  Eval vm_compute in first_call empty_world.
Definition after_second : outcome created_wallet * world :=
  Eval vm_compute in second_call (snd after_first).

(** A send of 5 USDC from the first wallet, and the reconciliation that finds
    its receipt. *)
Definition third_call :=
  sendUSDC (example_runtime "t-1" 4000) "w-1" "alice"
    "0x9999999999999999999999999999999999999999" (JS.VNum 5%float) None.

Definition after_send : outcome send_result * world :=
  Eval vm_compute in third_call (snd after_second).

Definition after_confirm : TransactionsRoute.response * world :=
  Eval vm_compute in
    match TransactionsRoute.get_by_hash example_service 5000 "alice" example_hash
            (snd after_send) with
    | (Ok r, w) => (r, w)
    | (Throw _, w) => (TransactionsRoute.mkResponse 500 false None None, w)
    end.

(** The token contract reports 10000000000.000001 USDC for the first wallet,
    and the balance is refreshed. *)
Definition whale_runtime : runtime :=
  {| blockchainService :=
       {| sv_provider :=
            {| isAddress := isAddress example_provider;
               createRandom := createRandom example_provider;
               balanceOf := fun _ => Some 10000000000000001;
               decimals := decimals example_provider;
               getBalance := getBalance example_provider;
               getTransaction_rpc := getTransaction_rpc example_provider;
               getTransactionReceipt := getTransactionReceipt example_provider;
               getBlock_timestamp := getBlock_timestamp example_provider;
               transfer := transfer example_provider |};
          encryptionKey := encryptionKey example_service;
          randomBytes16 := randomBytes16 example_service |};
     JSON_stringify := example_stringify;
     JSON_parse := example_parse;
     NOW := 3000;
     uuid_generate_v4 := "-" |}.

Definition whale_world : world :=
  Eval vm_compute in snd (updateWalletBalance whale_runtime "w-1" (snd after_second)).

(** A node that has no receipt for the transaction (it lags behind, or the
    block was reorganised away). *)
Definition lagging_service : service :=
  {| sv_provider :=
       {| isAddress := isAddress example_provider;
          createRandom := createRandom example_provider;
          balanceOf := balanceOf example_provider;
          decimals := decimals example_provider;
          getBalance := getBalance example_provider;
          getTransaction_rpc :=
            fun h => Some (Some (mkNodeTx h "0xfrom" "0xto" None (Some 0)));
          getTransactionReceipt := fun _ => Some None;
          getBlock_timestamp := getBlock_timestamp example_provider;
          transfer := transfer example_provider |};
     encryptionKey := encryptionKey example_service;
     randomBytes16 := randomBytes16 example_service |}.

(** A wallet the user deleted, kept as a row with status deleted. *)
Definition deleted_row : Db.wallet_row :=
  Db.mkWallet "w-0" "alice" None "old" "0x2222222222222222222222222222222222222222"
    "{}" false (Some 0) None 10 20 Db.WDeleted.

Definition with_deleted : world :=
  with_wallets (snd after_second) (deleted_row :: wallets (snd after_second)).


(** A tenant with a daily ceiling of 100 and a monthly one of 1000, and a
    user of that tenant who has sent 50 and 30 today (3 November 2026), has
    one failed transaction of 1000 today, and sent 200 on 1 November. *)
Definition tenant : Whitelabel.client_config :=
  Whitelabel.mkClient "tenant-1" "Acme"
    (Some (Whitelabel.mkFeatures ["send"; "receive"] (Some 100%float) (Some 1000%float))).

Definition tenant_wallet : Db.wallet_row :=
  Db.mkWallet "w-9" "bob" (Some "tenant-1") "main"
    "0x4444444444444444444444444444444444444444" "{}" true (Some 500000000) None 0 0
    Db.WActive.

Definition tx_of (id hash : string) (amount : Db.numeric) (status : Db.tx_status)
    (created : Db.time) : Db.tx_row :=
  Db.mkTx id "w-9" hash "0x4444444444444444444444444444444444444444"
    "0x9999999999999999999999999999999999999999" amount "21000" "1000000000" Db.TSend
    status 0 None created None.

Definition noon_3_november_2026 : Db.time := 1793707200000.

Definition limits_world : world :=
  {| wallets := [tenant_wallet];
     transactions :=
       [tx_of "t-11" "0xb1" 200000000 Db.Confirmed 1793500000000;
        tx_of "t-12" "0xb2" 50000000 Db.Confirmed 1793670000000;
        tx_of "t-13" "0xb3" 1000000000 Db.Failed 1793680000000;
        tx_of "t-14" "0xb4" 30000000 Db.Pending 1793690000000];
     submitted := [] |}.

Definition send_of (amount : JS.number) : Whitelabel.request :=
  Whitelabel.mkRequest (Some tenant) (Some "bob") (JS.VNum amount).

Definition database_up : Whitelabel.surroundings :=
  Whitelabel.mkSurroundings noon_3_november_2026 Whitelabel.utc true true.

Definition database_down : Whitelabel.surroundings :=
  Whitelabel.mkSurroundings noon_3_november_2026 Whitelabel.utc false false.

(** The same tenant with its daily ceiling configured as 0. *)
Definition tenant_ceiling_zero : Whitelabel.client_config :=
  Whitelabel.mkClient "tenant-1" "Acme"
    (Some (Whitelabel.mkFeatures ["send"; "receive"] (Some 0%float) (Some 1000%float))).


(** Two registrations of one client listening to wallet.created: the POST to
    the first is refused with a 500, the POST to the second is accepted. *)
Definition hook_1 : Webhook.webhook_row :=
  Webhook.mkWebhook "h-1" (Some "client-1") "https://a.example/hook"
    ["wallet.created"; "transaction.created"] (Some "s3cret-1") true.

Definition hook_2 : Webhook.webhook_row :=
  Webhook.mkWebhook "h-2" (Some "client-1") "https://b.example/hook"
    ["wallet.created"] (Some "s3cret-2") true.

Definition hooks_store : Webhook.store :=
  {| Webhook.webhooks := [hook_1; hook_2];
     Webhook.webhook_logs := [];
     Webhook.posted := [] |}.

Definition hooks_surroundings (insert_answers : Webhook.webhook_row -> bool)
    : Webhook.surroundings :=
  {| Webhook.now := noon_3_november_2026;
     Webhook.toISOString := fun t => JS.N_text (Z.to_N t);
     Webhook.JSON_stringify := fun event data timestamp id =>
       event ++ "|" ++ data ++ "|" ++ timestamp ++ "|" ++ id;
     Webhook.hmac_sha256_hex := fun key payload => Hex.encode (Crypto.utf8 (key ++ payload));
     Webhook.null_key_message := "The key argument must be of type string. Received null";
     Webhook.post := fun h =>
       if String.eqb (Webhook.wh_id h) "h-1"
       then Webhook.Rejected "Request failed with status code 500" (Some 500)
       else Webhook.Resolved 200;
     Webhook.select_answers := true;
     Webhook.insert_answers := insert_answers |}.

End Example.

(** * Properties of the wallet service *)

Import WalletService.

(** C7.  For a user without wallets, a successful createWallet returns a
    primary wallet; a further successful createWallet for that user returns a
    wallet that is not primary, and the table after it is the table before it
    with one row added, so the first wallet's row, its primary flag included,
    is as the first call left it. *)
Theorem createWallet_first_primary_then_not
    {cipher : Crypto.PasswordCipher} (rt1 rt2 : runtime) (userId : Db.uuid)
    (name1 name2 : string) (client1 client2 : option Db.uuid)
    (w w1 w2 : world) (v1 v2 : created_wallet) :
  filter (fun r => String.eqb (Db.w_user_id r) userId) (wallets w) = [] ->
  createWallet rt1 userId name1 client1 w = (Ok v1, w1) ->
  createWallet rt2 userId name2 client2 w1 = (Ok v2, w2) ->
  cw_isPrimary v1 = true /\
  cw_isPrimary v2 = false /\
  exists row1 row2,
    wallets w1 = (wallets w ++ [row1])%list /\
    Db.w_id row1 = cw_id v1 /\ Db.w_user_id row1 = userId /\
    Db.w_is_primary row1 = true /\
    wallets w2 = (wallets w1 ++ [row2])%list /\
    Db.w_id row2 = cw_id v2 /\ Db.w_user_id row2 = userId /\
    Db.w_is_primary row2 = false /\
    String.eqb (Db.w_id row2) (Db.w_id row1) = false.
Proof.
  intros Hnone H1 H2.
  apply createWallet_inv in H1 as (a1 & k1 & z1 & Hw1 & _ & _ & Hid1 & Hp1 & _ & _ & _).
  apply createWallet_inv in H2 as (a2 & k2 & z2 & Hw2 & _ & _ & Hid2 & Hp2 & _ & Hfresh & _).
  cbv zeta in *.
  assert (P1 : Db.w_is_primary (created_row rt1 userId name1 client1 a1 k1 z1 (wallets w)) = true).
  { unfold created_row; cbn. rewrite Hnone. reflexivity. }
  assert (P2 : Db.w_is_primary (created_row rt2 userId name2 client2 a2 k2 z2 (wallets w1)) = false).
  { unfold created_row; cbn. rewrite Hw1, filter_app, Hnone. cbn.
    rewrite String.eqb_refl. reflexivity. }
  split; [congruence|]. split; [congruence|].
  eexists _, _. repeat split; try eassumption; try reflexivity; auto.
  rewrite Hw1, existsb_app in Hfresh. apply orb_false_iff in Hfresh as [_ Hfresh].
  cbn in Hfresh. rewrite orb_false_r in Hfresh.
  cbn. rewrite String.eqb_sym. exact Hfresh.
Qed.

(** C8.  In every state the service's calls and the wallets INSERT reach from
    an empty database, two rows of the wallets table with the same owner and
    name are the same row, whatever their status; and where a row of any
    status, a deleted one included, already carries the owner and the name,
    createWallet is rejected by its duplicate check and the INSERT by the
    schema's UNIQUE constraint, the store left as it was. *)
Theorem wallet_names_unique_over_all_statuses {cipher : Crypto.PasswordCipher} :
  (forall (calls : list call) (r1 r2 : Db.wallet_row),
      In r1 (wallets (run_calls calls empty_world)) ->
      In r2 (wallets (run_calls calls empty_world)) ->
      Db.w_user_id r1 = Db.w_user_id r2 ->
      Db.w_wallet_name r1 = Db.w_wallet_name r2 ->
      r1 = r2) /\
  (forall (rt : runtime) (w : world) (r : Db.wallet_row)
          (clientId : option Db.uuid) (id : Db.uuid) (now : Db.time)
          (address key : string) (isPrimary : bool),
      In r (wallets w) ->
      createWallet rt (Db.w_user_id r) (Db.w_wallet_name r) clientId w
        = (Throw (Error "Wallet with this name already exists"), w) /\
      (existsb (fun x => String.eqb (Db.w_id x) id) (wallets w) = false ->
       insert_wallet id now (Db.w_user_id r) clientId (Db.w_wallet_name r) address key
         isPrimary w = (Throw (DbError unique_violation), w))).
Proof.
  split.
  - intros calls r1 r2 H1 H2 Hu Hn.
    assert (Hok : table_ok (wallets (run_calls calls empty_world))).
    { apply run_calls_table_ok. split; constructor. }
    destruct Hok as [_ Hnames].
    apply (NoDup_map_eq owner_name _ r1 r2 Hnames H1 H2).
    unfold owner_name. congruence.
  - intros rt w r clientId id now address key isPrimary Hin.
    pose proof (existsb_name_true _ _ _ r Hin eq_refl eq_refl) as Hdup.
    split.
    + unfold createWallet. run_eff.
      destruct (filter _ (wallets w)) eqn:Hf; [|reflexivity].
      apply existsb_false_filter in Hf. congruence.
    + intros Hid. unfold insert_wallet. rewrite Hid, Hdup. reflexivity.
Qed.

(** C3, as the code has it.  setPrimaryWallet issues its two UPDATE statements
    one after the other, with no transaction around them.  Run with no other
    statement in between, on a table whose ids are unique and where the caller
    owns the target: the state between the two statements has no primary
    wallet for the user, the final state has exactly one, the target, and the
    primary wallets of every other user are the same in all three states. *)
Theorem setPrimaryWallet_run_alone (rt : runtime) (walletId userId : Db.uuid) (w : world) :
  ids_unique (wallets w) ->
  verify_ownership walletId userId (wallets w) = true ->
  let between := clear_primary rt userId (wallets w) in
  let final := mark_primary rt walletId between in
  setPrimaryWallet rt walletId userId w = (Ok true, with_wallets w final) /\
  reachable ([new_call rt walletId userId], wallets w)
            ([mkSpCall rt walletId userId AtMark], between) /\
  primary_count userId between = 0%nat /\
  primary_count userId final = 1%nat /\
  (exists r, In r final /\ Db.w_id r = walletId /\ Db.w_user_id r = userId /\
             Db.w_is_primary r = true) /\
  (forall u, String.eqb u userId = false ->
             primary_count u between = primary_count u (wallets w) /\
             primary_count u final = primary_count u (wallets w)).
Proof.
  intros Hnd Hown between final. repeat split.
  - unfold setPrimaryWallet. run_eff. rewrite Hown. reflexivity.
  - exists [0; 0]%nat. unfold run_schedule, sched_step, sp_step. cbn. rewrite Hown.
    reflexivity.
  - apply clear_primary_count_self.
  - now apply mark_after_clear_count.
  - now apply marked_row.
  - now apply clear_primary_count_other.
  - unfold final.
    rewrite (mark_primary_count_other rt walletId userId u between).
    + now apply clear_primary_count_other.
    + intros r' Hin' Hid'. apply clear_primary_In in Hin' as (r & Hin & Ei & Eu).
      rewrite Eu. apply (target_owner walletId userId (wallets w)); auto. congruence.
    + assumption.
Qed.

Lemma createWallet_first_primary_then_not_witness :
  exists v1 w1 v2 w2,
    Example.first_call empty_world = (Ok v1, w1) /\
    Example.second_call w1 = (Ok v2, w2) /\
    cw_isPrimary v1 = true /\
    cw_isPrimary v2 = false /\
    exists row1 row2,
      wallets w1 = (wallets empty_world ++ [row1])%list /\
      Db.w_id row1 = cw_id v1 /\ Db.w_user_id row1 = "alice" /\
      Db.w_is_primary row1 = true /\
      wallets w2 = (wallets w1 ++ [row2])%list /\
      Db.w_id row2 = cw_id v2 /\ Db.w_user_id row2 = "alice" /\
      Db.w_is_primary row2 = false /\
      String.eqb (Db.w_id row2) (Db.w_id row1) = false.
Proof.
  eexists _, _, _, _.
  split; [vm_compute; reflexivity|].
  split; [vm_compute; reflexivity|].
  apply (createWallet_first_primary_then_not (cipher := Example.example_cipher)
           (Example.example_runtime "w-1" 1000) (Example.example_runtime "w-2" 2000)
           "alice" "main" "savings" None None empty_world).
  - reflexivity.
  - vm_compute; reflexivity.
  - vm_compute; reflexivity.
Defined.

Lemma wallet_names_unique_over_all_statuses_witness :
  createWallet (cipher := Example.example_cipher)
      (Example.example_runtime "w-3" 3000) "alice" "old" None Example.with_deleted
    = (Throw (Error "Wallet with this name already exists"), Example.with_deleted) /\
  insert_wallet "w-3" 3000 "alice" None "old" "0x3333" "{}" false Example.with_deleted
    = (Throw (DbError unique_violation), Example.with_deleted).
Proof.
  destruct (proj2 (wallet_names_unique_over_all_statuses (cipher := Example.example_cipher))
              (Example.example_runtime "w-3" 3000) Example.with_deleted
              Example.deleted_row None "w-3" 3000 "0x3333" "{}" false
              (or_introl eq_refl)) as [A B].
  split; [exact A | exact (B eq_refl)].
Defined.

Lemma setPrimaryWallet_run_alone_witness :
  let rt := Example.example_runtime "-" 3000 in
  let w := snd Example.after_second in
  setPrimaryWallet rt "w-2" "alice" w
    = (Ok true, with_wallets w (mark_primary rt "w-2" (clear_primary rt "alice" (wallets w)))) /\
  primary_count "alice" (clear_primary rt "alice" (wallets w)) = 0%nat /\
  primary_count "alice" (mark_primary rt "w-2" (clear_primary rt "alice" (wallets w))) = 1%nat.
Proof.
  cbv zeta.
  destruct (setPrimaryWallet_run_alone (Example.example_runtime "-" 3000) "w-2" "alice" (snd Example.after_second))
    as (A & _ & B & C & _).
  - unfold ids_unique. cbn. repeat constructor; cbn; intuition discriminate.
  - reflexivity.
  - repeat split; assumption.
Defined.

(** C3, as stated, fails: between the two statements of one call the user has
    no primary wallet, and two calls whose statements interleave leave the
    user with two. *)
Lemma setPrimaryWallet_interleaved :
  let rt := Example.example_runtime "-" 3000 in
  let ws := wallets (snd Example.after_second) in
  let a := new_call rt "w-2" "alice" in
  let b := new_call rt "w-1" "alice" in
  primary_count "alice" ws = 1%nat /\
  primary_count "alice" (snd (run_schedule [0; 0]%nat ([a], ws))) = 0%nat /\
  map sp_at (fst (run_schedule [0; 1; 0; 1; 0; 1]%nat ([a; b], ws))) = [Finished; Finished] /\
  primary_count "alice" (snd (run_schedule [0; 1; 0; 1; 0; 1]%nat ([a; b], ws))) = 2%nat.
Proof. cbv zeta. repeat split; vm_compute; reflexivity. Qed.

(** C2, as stated, fails: the check compares the two amounts as binary64
    numbers, and two amounts a millionth apart can be the same number.  With
    a cached balance of 10000000000.000001 USDC, a request for
    10000000000.000002, sent as text or as a number, passes the check: the
    transfer goes to the network and the row is written with the larger
    amount. *)
Lemma sendUSDC_excess_lost_in_rounding :
  let rt := Example.example_runtime "t-1" 4000 in
  let w := Example.whale_world in
  let to := "0x9999999999999999999999999999999999999999" in
  let as_text := JS.VStr "10000000000.000002" in
  let as_number := JS.VNum 0x1.2a05f20000001p+33%float in
  map Db.w_balance_usdc (wallets w) = [Some 10000000000000001; Some 12500000] /\
  Db.numeric_in as_text = Some 10000000000000002 /\
  Db.numeric_in as_number = Some 10000000000000002 /\
  (exists v w',
     sendUSDC (cipher := Example.example_cipher) rt "w-1" "alice" to as_text None w
       = (Ok v, w') /\
     sr_status v = "pending" /\
     submitted w' = [mkTransfer "0xabc123" to as_text] /\
     map Db.t_amount (transactions w') = [10000000000000002]) /\
  (exists v w',
     sendUSDC (cipher := Example.example_cipher) rt "w-1" "alice" to as_number None w
       = (Ok v, w') /\
     sr_status v = "pending" /\
     submitted w' = [mkTransfer "0xabc123" to as_number] /\
     map Db.t_amount (transactions w') = [10000000000000002]).
Proof.
  cbv zeta. split; [reflexivity|].
  split; [vm_compute; reflexivity|]. split; [vm_compute; reflexivity|].
  split; eexists _, _; (split; [vm_compute; reflexivity|]); repeat split.
Qed.

(** C2, as the code has it.  Where the wallet row is found and the requested
    amount is greater than its cached balance, both read as JS numbers, as
    the check reads them, sendUSDC throws and leaves the store as it was: no
    transfer reaches the network and no transaction row is written; with a
    valid recipient address and a stored key that parses, what it throws is
    the insufficient-balance error. *)
Theorem sendUSDC_insufficient_balance {cipher : Crypto.PasswordCipher}
    (rt : runtime) (walletId userId : Db.uuid) (toAddress : string)
    (amount : JS.value) (memo : option string) (w : world)
    (wallet : Db.wallet_row) (others : list Db.wallet_row) :
  filter (fun r => String.eqb (Db.w_id r) walletId
                   && String.eqb (Db.w_user_id r) userId
                   && Db.wallet_status_eqb (Db.w_status r) Db.WActive) (wallets w)
    = wallet :: others ->
  PrimFloat.ltb (JS.parseFloat (JS.VStr (balance_text wallet))) (JS.parseFloat amount) = true ->
  (exists e, sendUSDC rt walletId userId toAddress amount memo w = (Throw e, w)) /\
  (Blockchain.isValidAddress (blockchainService rt) toAddress = true ->
   JSON_parse rt (Db.w_encrypted_private_key wallet) <> None ->
   sendUSDC rt walletId userId toAddress amount memo w
     = (Throw (Error "Insufficient USDC balance"), w)).
Proof.
  intros Hfound Hlt. unfold sendUSDC. run_eff.
  destruct (Blockchain.isValidAddress (blockchainService rt) toAddress); cbn [negb].
  - rewrite Hfound.
    destruct (JSON_parse rt _); [rewrite Hlt|]; split; eauto; congruence.
  - split; [eauto | discriminate].
Qed.

Lemma sendUSDC_insufficient_balance_witness :
  let rt := Example.example_runtime "t-1" 4000 in
  let w := snd Example.after_second in
  sendUSDC (cipher := Example.example_cipher) rt "w-1" "alice"
      "0x9999999999999999999999999999999999999999" (JS.VNum 20%float) None w
    = (Throw (Error "Insufficient USDC balance"), w).
Proof.
  cbv zeta.
  refine (proj2 (sendUSDC_insufficient_balance (cipher := Example.example_cipher)
                   (Example.example_runtime "t-1" 4000) "w-1" "alice"
                   "0x9999999999999999999999999999999999999999" (JS.VNum 20%float) None
                   (snd Example.after_second) _ _ _ _) _ _).
  - vm_compute; reflexivity.
  - vm_compute; reflexivity.
  - reflexivity.
  - vm_compute. discriminate.
Defined.

(** * Properties of the transaction route *)

Import TransactionsRoute.

(** C1, as stated, fails: a transaction stored as confirmed is written back to
    pending by a later reconciliation for which the node returns no receipt. *)
Lemma reconciliation_reverts_confirmed :
  map Db.t_status (transactions (snd Example.after_confirm)) = [Db.Confirmed] /\
  map Db.t_status
    (transactions (snd (get_by_hash Example.lagging_service 6000 "alice"
                          Example.example_hash (snd Example.after_confirm))))
    = [Db.Pending].
Proof. split; vm_compute; reflexivity. Qed.

(** C1, as the code has it.  A reconciliation that reaches the comparison (a
    hash of 66 characters, a row the user may see, an answer from the chain
    adapter) leaves every row with that hash with the status the adapter
    reported, whatever status was stored: the stored status is kept only when
    the adapter reports that same status.  Rows with other hashes are not
    touched. *)
Theorem reconciliation_stores_adapter_status
    (blockchainService : Blockchain.service) (now : Db.time)
    (userId : Db.uuid) (txHash : string) (w : world)
    (row : Db.tx_row) (others : list Db.tx_row) (chainTx : Blockchain.chain_tx) :
  String.length txHash = 66%nat ->
  hashes_unique (transactions w) ->
  select_for_user txHash userId w = row :: others ->
  Blockchain.getTransaction blockchainService txHash = Ok chainTx ->
  let w' := snd (get_by_hash blockchainService now userId txHash w) in
  (exists t, In t (transactions w') /\ Db.t_transaction_hash t = txHash) /\
  (forall t, In t (transactions w') -> Db.t_transaction_hash t = txHash ->
             Db.t_status t = Blockchain.c_status chainTx) /\
  (forall t, Db.t_transaction_hash t <> txHash ->
             (In t (transactions w') <-> In t (transactions w))).
Proof.
  intros Hlen Huniq Hsel Hchain w'.
  assert (Hrow : In row (transactions w) /\ Db.t_transaction_hash row = txHash).
  { apply (select_for_user_In txHash userId). rewrite Hsel. now left. }
  destruct Hrow as [Hin Hhash].
  subst w'. unfold get_by_hash. run_eff.
  rewrite Hlen. cbn [Nat.eqb negb]. rewrite Hsel, Hchain.
  destruct (Db.tx_status_eqb_spec (Blockchain.c_status chainTx) (Db.t_status row)) as [E|NE];
    cbn [negb snd].
  - (* the adapter agrees with the stored status: nothing is written *)
    split; [eauto|]. split; [|tauto].
    intros t Ht Hh. rewrite E. f_equal.
    apply (WalletService.NoDup_map_eq Db.t_transaction_hash (transactions w)); auto.
    congruence.
  - (* it differs: the UPDATE overwrites the status *)
    cbn [transactions update_status]. split; [|split].
    + exists (set_chain_status (Blockchain.c_status chainTx)
                (Blockchain.c_confirmations chainTx)
                (match Blockchain.c_status chainTx with
                 | Db.Confirmed => Some now
                 | _ => None
                 end) row).
      split; [|exact Hhash].
      apply in_map_iff. exists row. split; [|assumption].
      rewrite Hhash, String.eqb_refl. reflexivity.
    + intros t Ht Hh. apply in_map_iff in Ht as (t0 & <- & Ht0).
      destruct (String.eqb (Db.t_transaction_hash t0) txHash) eqn:E0; [reflexivity|].
      apply String.eqb_neq in E0. contradiction.
    + intros t Hh. rewrite in_map_iff. split.
      * intros (t0 & <- & Ht0).
        destruct (String.eqb (Db.t_transaction_hash t0) txHash) eqn:E0; [|assumption].
        apply String.eqb_eq in E0. cbn in Hh. contradiction.
      * intros Ht. exists t. split; [|assumption].
        apply String.eqb_neq in Hh. now rewrite Hh.
Qed.

Lemma reconciliation_stores_adapter_status_witness :
  exists t,
    In t (transactions (snd (get_by_hash Example.lagging_service 6000 "alice"
                               Example.example_hash (snd Example.after_confirm)))) /\
    Db.t_transaction_hash t = Example.example_hash /\
    Db.t_status t = Db.Pending.
Proof.
  edestruct (reconciliation_stores_adapter_status Example.lagging_service 6000 "alice"
               Example.example_hash (snd Example.after_confirm))
    as ((t & Hin & Hh) & Hall & _).
  - reflexivity.
  - unfold hashes_unique. cbn. repeat constructor. cbn. tauto.
  - vm_compute; reflexivity.
  - vm_compute; reflexivity.
  - exists t. split; [exact Hin|]. split; [exact Hh|]. exact (Hall t Hin Hh).
Defined.

(** * Properties of the white-label limits *)

Import Whitelabel WalletRoutes.

Section Limits.
Variable s : surroundings.
Variable req : request.
Variable w : world.
Variable clientConfig : client_config.
Variable fc : features_config.
Variable userId : Db.uuid.
Hypothesis tenant_resolved : whitelabelClient req = Some clientConfig.
Hypothesis tenant_configured : cc_featuresConfig clientConfig = Some fc.
Hypothesis authenticated : user_id req = Some userId.

Let amount := JS.parseFloat (body_amount req).
Let usedToday := dailyTotal s userId (cc_id clientConfig) w.
Let usedThisMonth := monthlyTotal s userId (cc_id clientConfig) w.

Lemma daily_limit_exceeded :
  daily_query_answers s = true ->
  PrimFloat.ltb (dailyLimit fc) (usedToday + amount)%float = true ->
  checkTransactionLimits s req w = exceeded Daily (dailyLimit fc) usedToday.
Proof.
  intros Hq Hlt. unfold checkTransactionLimits, check_limits, limit_query.
  rewrite tenant_resolved, authenticated, tenant_configured, Hq.
  fold (dailyLimit fc). fold (today s).
  fold (dailyRows s userId (cc_id clientConfig) w).
  fold (dailyTotal s userId (cc_id clientConfig) w).
  fold usedToday. fold amount. rewrite Hlt. reflexivity.
Qed.

Lemma monthly_limit_exceeded :
  daily_query_answers s = true ->
  PrimFloat.ltb (dailyLimit fc) (usedToday + amount)%float = false ->
  monthly_query_answers s = true ->
  PrimFloat.ltb (monthlyLimit fc) (usedThisMonth + amount)%float = true ->
  checkTransactionLimits s req w = exceeded Monthly (monthlyLimit fc) usedThisMonth.
Proof.
  intros Hq Hd Hq' Hlt. unfold checkTransactionLimits, check_limits, limit_query.
  rewrite tenant_resolved, authenticated, tenant_configured, Hq, Hq'.
  fold (dailyLimit fc). fold (monthlyLimit fc). fold (today s).
  fold (dailyRows s userId (cc_id clientConfig) w).
  fold (dailyTotal s userId (cc_id clientConfig) w).
  fold (monthlyRows s userId (cc_id clientConfig) w).
  fold (monthlyTotal s userId (cc_id clientConfig) w).
  fold usedToday. fold usedThisMonth. fold amount. rewrite Hd, Hlt. reflexivity.
Qed.

(** A limit query that throws lets the request through. *)
Lemma limit_query_failure_passes :
  daily_query_answers s = false \/
  (PrimFloat.ltb (dailyLimit fc) (usedToday + amount)%float = false /\
   monthly_query_answers s = false) ->
  checkTransactionLimits s req w = Next.
Proof.
  unfold checkTransactionLimits, check_limits, limit_query.
  rewrite tenant_resolved, authenticated, tenant_configured.
  intros [Hq | [Hd Hq]].
  - rewrite Hq. reflexivity.
  - destruct (daily_query_answers s); [|reflexivity].
    fold (dailyLimit fc). fold (today s).
    fold (dailyRows s userId (cc_id clientConfig) w).
    fold (dailyTotal s userId (cc_id clientConfig) w).
    fold usedToday. fold amount. rewrite Hd, Hq. reflexivity.
Qed.

End Limits.

(** A verdict other than Next ends the request at the limit check: the handler
    that calls the service is not run, and the store is as it was. *)
Lemma post_send_stops_at_limit {cipher : Crypto.PasswordCipher}
    (rt : WalletService.runtime) (s : surroundings) (req : request) (p : send_params)
    (w : world) status success message data :
  checkFeaturePermission "send" req = true ->
  checkTransactionLimits s req w = Respond status success message data ->
  post_send rt s req p w = (Ok (LimitExceeded status message data), w).
Proof.
  intros Hf Hv. unfold post_send. run_eff. rewrite Hf. cbn [negb]. now rewrite Hv.
Qed.

Lemma post_send_goes_on {cipher : Crypto.PasswordCipher}
    (rt : WalletService.runtime) (s : surroundings) (req : request) (p : send_params)
    (w : world) :
  checkFeaturePermission "send" req = true ->
  checkTransactionLimits s req w = Next ->
  post_send rt s req p w = send_handler rt req p w.
Proof.
  intros Hf Hv. unfold post_send. run_eff. rewrite Hf. cbn [negb]. now rewrite Hv.
Qed.

(** C4, as stated, fails twice over: with the limit query failing, and with a
    daily ceiling configured as 0, a send of 30 on top of 80 used today goes
    on to the handler. *)
Lemma limit_check_lets_excess_through :
  dailyTotal Example.database_up "bob" "tenant-1" Example.limits_world = 80%float /\
  checkTransactionLimits Example.database_down (Example.send_of 30%float)
    Example.limits_world = Next /\
  checkTransactionLimits Example.database_up
    (mkRequest (Some Example.tenant_ceiling_zero) (Some "bob") (JS.VNum 30%float))
    Example.limits_world = Next.
Proof. repeat split; vm_compute; reflexivity. Qed.

(** C4, as the code has it.  For a request under a resolved tenant that has a
    features configuration, from an authenticated user, when the daily query
    answers: the ceilings are the configured ones, or 10000 a day and 100000 a
    month where the configured one is absent, zero or NaN; if today's
    non-failed total plus the amount (as JS numbers) is over the daily ceiling
    the check answers 400 with that ceiling, the total and their difference,
    and otherwise, when the monthly query answers and this month's total plus
    the amount is over the monthly ceiling, 400 with the monthly ones; the
    send route then ends there, the store untouched.  With a ceiling of 100, 80
    used and a send of 30, the answer carries 100, 80 and 20. *)
Theorem limit_excess_is_reported {cipher : Crypto.PasswordCipher}
    (rt : WalletService.runtime) (s : surroundings) (req : request) (p : send_params)
    (w : world) (clientConfig : client_config) (fc : features_config)
    (userId : Db.uuid) :
  whitelabelClient req = Some clientConfig ->
  cc_featuresConfig clientConfig = Some fc ->
  user_id req = Some userId ->
  daily_query_answers s = true ->
  let amount := JS.parseFloat (body_amount req) in
  let usedToday := dailyTotal s userId (cc_id clientConfig) w in
  let usedThisMonth := monthlyTotal s userId (cc_id clientConfig) w in
  (PrimFloat.ltb (dailyLimit fc) (usedToday + amount)%float = true ->
   checkTransactionLimits s req w = exceeded Daily (dailyLimit fc) usedToday /\
   (checkFeaturePermission "send" req = true ->
    post_send rt s req p w
      = (Ok (LimitExceeded 400 (exceeded_message Daily (dailyLimit fc))
               (mkLimitData Daily (dailyLimit fc) usedToday
                  (dailyLimit fc - usedToday)%float)), w))) /\
  (PrimFloat.ltb (dailyLimit fc) (usedToday + amount)%float = false ->
   monthly_query_answers s = true ->
   PrimFloat.ltb (monthlyLimit fc) (usedThisMonth + amount)%float = true ->
   checkTransactionLimits s req w = exceeded Monthly (monthlyLimit fc) usedThisMonth /\
   (checkFeaturePermission "send" req = true ->
    post_send rt s req p w
      = (Ok (LimitExceeded 400 (exceeded_message Monthly (monthlyLimit fc))
               (mkLimitData Monthly (monthlyLimit fc) usedThisMonth
                  (monthlyLimit fc - usedThisMonth)%float)), w))) /\
  (dailyTransactionLimit fc = Some 100%float ->
   usedToday = 80%float ->
   amount = 30%float ->
   checkTransactionLimits s req w
     = Respond 400 false "Daily transaction limit of $100 would be exceeded"
         (mkLimitData Daily 100%float 80%float 20%float)).
Proof.
  intros Ht Hc Hu Hq amount usedToday usedThisMonth.
  split; [|split].
  - intros Hlt.
    pose proof (daily_limit_exceeded s req w clientConfig fc userId Ht Hc Hu Hq Hlt) as Hv.
    split; [exact Hv|]. intros Hf.
    now apply (post_send_stops_at_limit rt s req p w 400 false).
  - intros Hd Hq' Hlt.
    pose proof (monthly_limit_exceeded s req w clientConfig fc userId Ht Hc Hu Hq Hd Hq' Hlt)
      as Hv.
    split; [exact Hv|]. intros Hf.
    now apply (post_send_stops_at_limit rt s req p w 400 false).
  - intros Hlimit Hused Hamount.
    assert (Hl : dailyLimit fc = 100%float).
    { unfold dailyLimit. rewrite Hlimit. vm_compute. reflexivity. }
    rewrite (daily_limit_exceeded s req w clientConfig fc userId Ht Hc Hu Hq).
    + fold usedToday. rewrite Hl, Hused. vm_compute. reflexivity.
    + fold usedToday. fold amount. rewrite Hl, Hused, Hamount. vm_compute. reflexivity.
Qed.

Lemma limit_excess_is_reported_witness :
  checkTransactionLimits Example.database_up (Example.send_of 30%float) Example.limits_world
    = Respond 400 false "Daily transaction limit of $100 would be exceeded"
        (mkLimitData Daily 100%float 80%float 20%float) /\
  post_send (cipher := Example.example_cipher) (Example.example_runtime "t-2" 7000)
      Example.database_up (Example.send_of 30%float)
      (mkSendParams "w-9" "0x9999999999999999999999999999999999999999" None true)
      Example.limits_world
    = (Ok (LimitExceeded 400 "Daily transaction limit of $100 would be exceeded"
             (mkLimitData Daily 100%float 80%float 20%float)), Example.limits_world).
Proof.
  destruct (limit_excess_is_reported (cipher := Example.example_cipher)
              (Example.example_runtime "t-2" 7000) Example.database_up
              (Example.send_of 30%float)
              (mkSendParams "w-9" "0x9999999999999999999999999999999999999999" None true)
              Example.limits_world Example.tenant
              (mkFeatures ["send"; "receive"] (Some 100%float) (Some 1000%float)) "bob"
              eq_refl eq_refl eq_refl eq_refl) as (Hdaily & _ & Hscenario).
  split.
  - apply Hscenario; vm_compute; reflexivity.
  - destruct Hdaily as [_ Hroute]; [vm_compute; reflexivity|].
    rewrite Hroute by reflexivity. vm_compute. reflexivity.
Defined.

(** C10.  Under a resolved, configured tenant and an authenticated user, if
    the daily query throws, or the daily check passes and the monthly query
    throws, checkTransactionLimits calls next: the send route goes on to its
    handler exactly as if there were no limit check, whatever the totals are.
    More generally, whatever the try block throws ends in next. *)
Theorem limit_check_fails_open {cipher : Crypto.PasswordCipher}
    (rt : WalletService.runtime) (s : surroundings) (req : request) (p : send_params)
    (w : world) :
  (forall e, check_limits s req w = Throw e -> checkTransactionLimits s req w = Next) /\
  (forall clientConfig fc userId,
     whitelabelClient req = Some clientConfig ->
     cc_featuresConfig clientConfig = Some fc ->
     user_id req = Some userId ->
     daily_query_answers s = false \/
     (PrimFloat.ltb (dailyLimit fc)
        (dailyTotal s userId (cc_id clientConfig) w + JS.parseFloat (body_amount req))%float
        = false /\
      monthly_query_answers s = false) ->
     (exists e, check_limits s req w = Throw e) /\
     checkTransactionLimits s req w = Next /\
     (checkFeaturePermission "send" req = true ->
      post_send rt s req p w = send_handler rt req p w)).
Proof.
  split.
  - intros e He. unfold checkTransactionLimits. now rewrite He.
  - intros clientConfig fc userId Ht Hc Hu Hfail.
    pose proof (limit_query_failure_passes s req w clientConfig fc userId Ht Hc Hu Hfail)
      as Hnext.
    split; [|split; [exact Hnext|]].
    + unfold check_limits, limit_query. rewrite Ht, Hu, Hc.
      destruct Hfail as [Hq | [Hd Hq]].
      * rewrite Hq. eauto.
      * destruct (daily_query_answers s); [|eauto].
        unfold dailyLimit, dailyTotal, dailyRows, today in Hd. rewrite Hd, Hq. eauto.
    + intros Hf. now apply post_send_goes_on.
Qed.

Lemma limit_check_fails_open_witness :
  checkTransactionLimits Example.database_down (Example.send_of 30%float)
    Example.limits_world = Next /\
  post_send (cipher := Example.example_cipher) (Example.example_runtime "t-2" 7000)
      Example.database_down (Example.send_of 30%float)
      (mkSendParams "w-9" "0x9999999999999999999999999999999999999999" None true)
      Example.limits_world
    = send_handler (cipher := Example.example_cipher) (Example.example_runtime "t-2" 7000)
        (Example.send_of 30%float)
        (mkSendParams "w-9" "0x9999999999999999999999999999999999999999" None true)
        Example.limits_world.
Proof.
  destruct (proj2 (limit_check_fails_open (cipher := Example.example_cipher)
                     (Example.example_runtime "t-2" 7000) Example.database_down
                     (Example.send_of 30%float)
                     (mkSendParams "w-9" "0x9999999999999999999999999999999999999999"
                        None true)
                     Example.limits_world)
              Example.tenant
              (mkFeatures ["send"; "receive"] (Some 100%float) (Some 1000%float)) "bob"
              eq_refl eq_refl eq_refl (or_introl eq_refl)) as (_ & Hnext & Hroute).
  split; [exact Hnext | exact (Hroute eq_refl)].
Defined.

(** * Properties of the webhook dispatcher *)

Import Webhook.

(** C9, as stated, fails in its second half: with the log INSERT of the second
    delivery refused, both registrations are posted to and one delivery leaves
    no row. *)
Lemma delivery_without_log_row :
  let s := Example.hooks_surroundings
             (fun h => negb (String.eqb (wh_id h) "h-2")) in
  let st := snd (sendWebhook s "client-1" "wallet.created" "{}" Example.hooks_store) in
  map hp_url (posted st) = ["https://a.example/hook"; "https://b.example/hook"] /\
  map wl_webhook_id (webhook_logs st) = ["h-1"].
Proof. cbv zeta. split; vm_compute; reflexivity. Qed.

(** C9, as the code has it.  When the SELECT answers, sendWebhook runs
    deliverWebhook for every active registration of the client that lists the
    event, in table order and whatever the earlier deliveries did: each one
    with a secret is posted to, and each delivery whose log INSERT goes
    through adds the row of its outcome (success with the response's status,
    or failed with the error's response status or 0).  A log INSERT that is
    refused is dropped without stopping the others; when all go through there
    is one row per registration. *)
Theorem sendWebhook_fans_out (s : surroundings) (clientId : Db.uuid)
    (event data : string) (st : store) :
  select_answers s = true ->
  let rows := listening clientId event st in
  sendWebhook s clientId event data st =
    (Ok tt,
     {| webhooks := webhooks st;
        webhook_logs :=
          webhook_logs st ++ map (log_of s event) (filter (logged s event) rows);
        posted := posted st ++ flat_map (post_of s event data) rows |}) /\
  ((forall webhook, In webhook rows -> logged s event webhook = true) ->
   webhook_logs (snd (sendWebhook s clientId event data st))
     = (webhook_logs st ++ map (log_of s event) rows)%list).
Proof.
  intros Hsel rows.
  assert (E : sendWebhook s clientId event data st =
    (Ok tt,
     {| webhooks := webhooks st;
        webhook_logs :=
          webhook_logs st ++ map (log_of s event) (filter (logged s event) rows);
        posted := posted st ++ flat_map (post_of s event data) rows |})).
  { unfold sendWebhook. run_eff. rewrite Hsel.
    fold rows. rewrite deliver_each_effect; [reflexivity|].
    intros webhook Hin. now apply (listening_present clientId event). }
  split; [exact E|].
  intros Hall. rewrite E. cbn [snd webhook_logs]. f_equal. f_equal.
  clear E. induction rows as [|h rest IH]; [reflexivity|].
  cbn [filter]. rewrite (Hall h) by now left.
  f_equal. apply IH. intros h' Hh'. apply Hall. now right.
Qed.

Lemma sendWebhook_fans_out_witness :
  let s := Example.hooks_surroundings (fun _ => true) in
  let st := snd (sendWebhook s "client-1" "wallet.created" "{}" Example.hooks_store) in
  map hp_url (posted st) = ["https://a.example/hook"; "https://b.example/hook"] /\
  map (fun l => (wl_webhook_id l, wl_status l, wl_status_code l)) (webhook_logs st)
    = [("h-1", Failed, 500); ("h-2", Success, 200)].
Proof.
  cbv zeta.
  destruct (sendWebhook_fans_out (Example.hooks_surroundings (fun _ => true))
              "client-1" "wallet.created" "{}" Example.hooks_store eq_refl) as [E _].
  rewrite E. split; vm_compute; reflexivity.
Defined.

(** * Properties of the two encryption layers *)

Import Blockchain Backup.

(** C5.  With the process secret set, encryptPrivateKey returns the bytes it
    drew as the iv field and builds the cipher from the secret alone:
    decrypting its result with the iv field replaced by any value gives the
    private key back, and a second encryption of the same key under the same
    secret, whatever bytes it draws, has the same encrypted and authTag
    fields. *)
Theorem private_key_iv_is_unused {cipher : Crypto.PasswordCipher}
    (sv : service) (secret privateKey : string) :
  encryptionKey sv = Some secret ->
  exists e,
    encryptPrivateKey sv privateKey = Ok e /\
    Blockchain.iv e = Hex.encode (randomBytes16 sv) /\
    (forall v,
       decryptPrivateKey sv (mkEncrypted (Blockchain.encrypted e) v (Blockchain.authTag e))
         = Ok privateKey) /\
    (forall sv' e',
       encryptionKey sv' = Some secret ->
       encryptPrivateKey sv' privateKey = Ok e' ->
       Blockchain.encrypted e' = Blockchain.encrypted e /\
       Blockchain.authTag e' = Blockchain.authTag e).
Proof.
  intros Hkey. unfold encryptPrivateKey, decryptPrivateKey. rewrite Hkey.
  pose proof (Crypto.unseal_seal (Crypto.utf8 secret) (Crypto.utf8 privateKey)) as Hlaw.
  destruct (Crypto.seal (Crypto.utf8 secret) (Crypto.utf8 privateKey)) as [ct tag] eqn:Hseal.
  cbn [fst snd] in Hlaw.
  eexists. split; [reflexivity|]. cbn [Blockchain.iv Blockchain.encrypted Blockchain.authTag].
  split; [reflexivity|]. split.
  - intros v. cbn [Blockchain.encrypted Blockchain.authTag].
    rewrite Hex.encode_even, !Hex.decode_encode, Hlaw. now rewrite Crypto.from_utf8_utf8.
  - intros sv' e' Hkey'. unfold encryptPrivateKey. rewrite Hkey', Hseal.
    intros [= <-]. split; reflexivity.
Qed.

Lemma private_key_iv_is_unused_witness :
  let sv := Example.example_service in
  let sv' := mkService Example.example_provider (Some "process-secret")
               [Byte.xff; Byte.xfe; Byte.xfd] in
  exists e e',
    encryptPrivateKey (cipher := Example.example_cipher) sv "0xabc123" = Ok e /\
    encryptPrivateKey (cipher := Example.example_cipher) sv' "0xabc123" = Ok e' /\
    Blockchain.iv e = "01020304" /\ Blockchain.iv e' = "fffefd" /\
    Blockchain.encrypted e' = Blockchain.encrypted e /\
    Blockchain.authTag e' = Blockchain.authTag e /\
    decryptPrivateKey (cipher := Example.example_cipher) sv
      (mkEncrypted (Blockchain.encrypted e) "00" (Blockchain.authTag e)) = Ok "0xabc123".
Proof.
  cbv zeta.
  destruct (private_key_iv_is_unused (cipher := Example.example_cipher)
              Example.example_service "process-secret" "0xabc123" eq_refl)
    as (e & He & Hiv & Hdec & Hsame).
  exists e. eexists.
  split; [exact He|]. split; [vm_compute; reflexivity|].
  split; [exact Hiv|]. split; [reflexivity|].
  specialize (Hsame (mkService Example.example_provider (Some "process-secret")
                       [Byte.xff; Byte.xfe; Byte.xfd]) _ eq_refl eq_refl).
  split; [exact (proj1 Hsame)|]. split; [exact (proj2 Hsame)|]. apply Hdec.
Defined.




(** * Decimal texts read back *)
Module NumericText.

(** The value of a digit sequence read after [acc]. *)
Fixpoint uint_value (d : Decimal.uint) (acc : N) : N :=
  match d with
  | Decimal.Nil => acc
  | Decimal.D0 l => uint_value l (10 * acc + 0)%N
  | Decimal.D1 l => uint_value l (10 * acc + 1)%N
  | Decimal.D2 l => uint_value l (10 * acc + 2)%N
  | Decimal.D3 l => uint_value l (10 * acc + 3)%N
  | Decimal.D4 l => uint_value l (10 * acc + 4)%N
  | Decimal.D5 l => uint_value l (10 * acc + 5)%N
  | Decimal.D6 l => uint_value l (10 * acc + 6)%N
  | Decimal.D7 l => uint_value l (10 * acc + 7)%N
  | Decimal.D8 l => uint_value l (10 * acc + 8)%N
  | Decimal.D9 l => uint_value l (10 * acc + 9)%N
  end.

Lemma digits_uint (d : Decimal.uint) (rest : string) (acc : N) (len : nat) :
  JS.digits (NilEmpty.string_of_uint d ++ rest) acc len
  = JS.digits rest (uint_value d acc)
      (len + String.length (NilEmpty.string_of_uint d)).
Proof.
  revert acc len.
  induction d; intros acc len; cbn [NilEmpty.string_of_uint String.append uint_value];
    [cbn; now rewrite Nat.add_0_r | ..];
    cbn [JS.digits]; cbv [JS.digit_of]; cbn; rewrite IHd; f_equal; lia.
Qed.

Lemma uint_value_pos (d : Decimal.uint) (p : positive) :
  uint_value d (Npos p) = Npos (Pos.of_uint_acc d p).
Proof.
  revert p. induction d; intros p; cbn [uint_value Pos.of_uint_acc]; [reflexivity|..];
    rewrite <- IHd; f_equal; lia.
Qed.

Lemma uint_value_zero (d : Decimal.uint) : uint_value d 0 = N.of_uint d.
Proof.
  unfold N.of_uint.
  induction d; cbn [uint_value Pos.of_uint]; [reflexivity | exact IHd | ..];
    apply uint_value_pos.
Qed.

Lemma N_to_uint_not_nil (n : N) : N.to_uint n <> Decimal.Nil.
Proof.
  intros H. pose proof (DecimalN.Unsigned.of_to n) as E. rewrite H in E.
  cbn in E. subst n. discriminate.
Qed.

Lemma N_text_not_empty (n : N) : JS.N_text n = NilEmpty.string_of_uint (N.to_uint n).
Proof.
  unfold JS.N_text, NilZero.string_of_uint.
  pose proof (N_to_uint_not_nil n). destruct (N.to_uint n); congruence.
Qed.

(** Reading the decimal text of [n] gives [n] back, and consumes all of it. *)
Lemma digits_N_text (n : N) (rest : string) :
  JS.digits (JS.N_text n ++ rest) 0 0
  = JS.digits rest n (String.length (JS.N_text n)).
Proof.
  rewrite N_text_not_empty, digits_uint, uint_value_zero, DecimalN.Unsigned.of_to.
  reflexivity.
Qed.


Lemma append_assoc (a b c : string) : ((a ++ b) ++ c = a ++ (b ++ c))%string.
Proof. induction a as [|x a IH]; [reflexivity|]. cbn. now rewrite IH. Qed.

Lemma append_nil_r (a : string) : (a ++ "" = a)%string.
Proof. induction a as [|x a IH]; [reflexivity|]. cbn. now rewrite IH. Qed.

Lemma digit_of_digit_char (d : N) : (d < 10)%N -> JS.digit_of (Db.digit_char d) = Some d.
Proof.
  intros H. unfold JS.digit_of, Db.digit_char. rewrite N_ascii_embedding by lia.
  destruct ((48 <=? 48 + d) && (48 + d <=? 57))%N eqn:E.
  - f_equal. lia.
  - apply andb_false_iff in E as [E|E]; apply N.leb_gt in E; lia.
Qed.

Lemma fixed_digits_app (k : nat) (n : N) (acc : string) :
  Db.fixed_digits k n acc = (Db.fixed_digits k n "" ++ acc)%string.
Proof.
  revert n acc. induction k as [|k IH]; intros n acc; [reflexivity|].
  cbn [Db.fixed_digits]. rewrite IH, (IH _ (String _ "")), append_assoc. reflexivity.
Qed.

Lemma fixed_digits_length (k : nat) (n : N) : String.length (Db.fixed_digits k n "") = k.
Proof.
  revert n. induction k as [|k IH]; intros n; [reflexivity|].
  cbn [Db.fixed_digits]. rewrite fixed_digits_app.
  assert (L : forall a b, String.length (a ++ b) = (String.length a + String.length b)%nat).
  { induction a as [|x a IHa]; intros b; cbn; [reflexivity | now rewrite IHa]. }
  rewrite L, IH. cbn. lia.
Qed.

(** Reading [k] digits written at fixed width appends them to what was read. *)
Lemma digits_fixed (k : nat) (n : N) (rest : string) (a : N) (len : nat) :
  JS.digits (Db.fixed_digits k n "" ++ rest) a len
  = JS.digits rest (a * 10 ^ N.of_nat k + n mod 10 ^ N.of_nat k)%N (len + k).
Proof.
  revert n rest. induction k as [|k IH]; intros n rest.
  - cbn [Db.fixed_digits String.append]. f_equal; [|lia].
    change (10 ^ N.of_nat 0)%N with 1%N. rewrite N.mod_1_r. lia.
  - cbn [Db.fixed_digits]. rewrite fixed_digits_app, append_assoc, IH.
    cbn [String.append JS.digits].
    rewrite digit_of_digit_char by (apply N.mod_lt; lia).
    f_equal; [|lia].
    rewrite Nnat.Nat2N.inj_succ, N.pow_succ_r'.
    rewrite (N.Div0.mod_mul_r n 10 (10 ^ N.of_nat k)). lia.
Qed.

Lemma strip_trailing_zeros_spec (width : nat) (n : N) :
  let '(w', n') := strip_trailing_zeros width n in
  (w' <= width)%nat /\ (n = n' * 10 ^ N.of_nat (width - w'))%N.
Proof.
  revert n. induction width as [|k IH]; intros n.
  - cbn. split; [lia|]. lia.
  - cbn [strip_trailing_zeros].
    destruct (n mod 10 =? 0)%N eqn:E.
    + specialize (IH (n / 10)%N). destruct (strip_trailing_zeros k (n / 10)) as [w' n'].
      destruct IH as [Hle Hn]. split; [lia|].
      replace (S k - w')%nat with (S (k - w')) by lia.
      rewrite Nnat.Nat2N.inj_succ, N.pow_succ_r'.
      apply N.eqb_eq in E.
      pose proof (N.Div0.div_mod n 10) as D. rewrite E in D. lia.
    + split; [lia|]. rewrite Nat.sub_diag. cbn. lia.
Qed.

(** The decimal text of a number starts with a digit. *)
Lemma N_text_head (n : N) :
  exists c s, JS.N_text n = String c s /\ JS.digit_of c <> None.
Proof.
  rewrite N_text_not_empty. pose proof (N_to_uint_not_nil n) as H.
  destruct (N.to_uint n); [congruence|..]; cbn [NilEmpty.string_of_uint];
    eexists _, _; (split; [reflexivity | discriminate]).
Qed.

(** A text that starts with a digit carries no sign and no leading blank. *)
Lemma numeric_in_text_unsigned (c : ascii) (r : string) :
  JS.digit_of c <> None ->
  Db.numeric_in_text (String c r) =
  match JS.unsigned_literal (String c r) with
  | Some (m, e, rest) =>
      if Db.all_ws rest then
        let z := if 0 <=? e + 6 then Z.of_N m * 10 ^ (e + 6)
                 else Db.round_half_away (Z.of_N m) (10 ^ (- (e + 6))) in
        if Db.numeric_fits z then Some z else None
      else None
  | None => None
  end.
Proof.
  intros H. unfold Db.numeric_in_text.
  destruct c as [b0 b1 b2 b3 b4 b5 b6 b7].
  destruct b0, b1, b2, b3, b4, b5, b6, b7;
    try (exfalso; apply H; reflexivity); reflexivity.
Qed.


(** What the NUMERIC(20,6) column makes of the text formatUnits prints for a
    token of at most six decimals: the amount itself, in millionths, when it
    fits the column. *)
Lemma numeric_in_formatUnits (v dec : Z) :
  0 <= v -> 0 <= dec <= 6 ->
  Db.numeric_in_text (formatUnits v dec)
  = if v * 10 ^ (6 - dec) <? 10 ^ 20 then Some (v * 10 ^ (6 - dec)) else None.
Proof.
  intros Hv Hdec. unfold formatUnits.
  replace (v <? 0) with false by (symmetry; apply Z.ltb_ge; exact Hv).
  set (a := Z.to_N (Z.abs v)).
  destruct (Z.eqb_spec dec 0) as [->|Hnz].
  { (* no decimals: the digits of the amount, and nothing else *)
    cbn [Z.to_nat strip_trailing_zeros String.append].
    destruct (N_text_head a) as (c & s & E & Hc).
    unfold Db.N_text. rewrite E, numeric_in_text_unsigned by assumption.
    unfold JS.unsigned_literal.
    rewrite <- E, <- (append_nil_r (JS.N_text a)), digits_N_text.
    cbn [JS.digits JS.exponent_part Db.all_ws]. cbv iota beta zeta.
    rewrite E at 1. cbn [String.length Db.all_ws]. cbv iota beta zeta.
    change (0 - Z.of_nat 0 + 6) with 6. change (0 <=? 6) with true. cbv iota.
    change (6 - 0) with 6.
    assert (Ha : Z.of_N a = v) by (unfold a; lia). rewrite Ha.
    unfold Db.numeric_fits. rewrite Z.abs_eq by lia. reflexivity. }
  set (unit := (10 ^ Z.to_N dec)%N).
  pose proof (strip_trailing_zeros_spec (Z.to_nat dec) (a mod unit)%N) as Hs.
  destruct (strip_trailing_zeros (Z.to_nat dec) (a mod unit)) as [w' f'].
  destruct Hs as [Hw Hf].
  cbn [String.append].
  destruct (N_text_head (a / unit)) as (c & s & E & Hc).
  unfold Db.N_text. rewrite E. cbn [String.append].
  rewrite numeric_in_text_unsigned by assumption.
  unfold JS.unsigned_literal.
  match goal with
  | |- context [JS.digits (String c (s ++ ?X)) 0%N 0%nat] =>
      change (String c (s ++ X)) with (String c s ++ X)%string
  end.
  rewrite <- E, digits_N_text, E.
  cbn [String.length].
  change ("." ++ ?X)%string with (String "."%char X).
  cbn [JS.digits]. change (JS.digit_of ".") with (@None N). cbv iota beta.
  assert (Hunit : Z.of_N unit = 10 ^ dec).
  { unfold unit. rewrite N2Z.inj_pow, Z2N.id by lia. reflexivity. }
  assert (Ha : Z.of_N a = v) by (unfold a; lia).
  assert (Hval : v = Z.of_N (a / unit) * 10 ^ dec
                     + Z.of_N f' * 10 ^ Z.of_nat (Z.to_nat dec - w')).
  { pose proof (N.Div0.div_mod a unit) as D. rewrite Hf in D.
    apply (f_equal Z.of_N) in D.
    rewrite N2Z.inj_add, !N2Z.inj_mul, N2Z.inj_pow, Hunit, Ha, nat_N_Z in D.
    change (Z.of_N 10) with 10 in D. lia. }
  assert (Hlt : Z.of_N f' * 10 ^ Z.of_nat (Z.to_nat dec - w') < 10 ^ dec).
  { pose proof (N.mod_lt a unit) as L. rewrite Hf in L.
    assert (unit <> 0%N) by (unfold unit; apply N.pow_nonzero; lia).
    specialize (L H). apply N2Z.inj_lt in L.
    rewrite N2Z.inj_mul, N2Z.inj_pow, Hunit, nat_N_Z in L. exact L. }
  destruct w' as [|k].
  - (* no digit of the fraction is left: "0" is printed *)
    cbn [JS.digits]. change (JS.digit_of "0") with (Some 0%N). cbv iota beta.
    cbn [JS.exponent_part Db.all_ws]. cbv iota beta zeta.
    change (0 - Z.of_nat 1 + 6) with 5. change (0 <=? 5) with true. cbv iota.
    rewrite Nat.sub_0_r, Z2Nat.id in Hval, Hlt by lia.
    assert (Hz : Z.of_N (10 * (a / unit) + 0) * 10 ^ 5 = v * 10 ^ (6 - dec)).
    { assert (F0 : Z.of_N f' = 0) by nia.
      rewrite F0, Z.mul_0_l, Z.add_0_r in Hval. rewrite Hval at 1.
      rewrite <- Z.mul_assoc, <- Z.pow_add_r by lia.
      replace (dec + (6 - dec)) with 6 by lia. lia. }
    rewrite Hz. unfold Db.numeric_fits. rewrite Z.abs_eq; [reflexivity|].
    apply Z.mul_nonneg_nonneg; [lia | apply Z.pow_nonneg; lia].
  - rewrite <- (append_nil_r (Db.fixed_digits (S k) f' "")), digits_fixed.
    cbn [JS.digits Nat.add]. cbv iota beta.
    cbn [JS.exponent_part Db.all_ws]. cbv iota beta zeta.
    set (W := Z.of_nat (S k)) in *.
    assert (HW : 1 <= W <= dec) by (unfold W; lia).
    replace (Z.of_nat (Z.to_nat dec - S k)) with (dec - W) in Hval, Hlt by (unfold W; lia).
    replace (0 <=? 0 - W + 6) with true by (symmetry; apply Z.leb_le; lia).
    set (T := 10 ^ W) in *. set (P := 10 ^ (dec - W)) in *. set (Q := 10 ^ (6 - dec)).
    assert (HT : 0 < T) by (apply Z.pow_pos_nonneg; lia).
    assert (HP : 0 < P) by (apply Z.pow_pos_nonneg; lia).
    assert (HQ : 0 < Q) by (apply Z.pow_pos_nonneg; lia).
    assert (E1 : 10 ^ dec = T * P).
    { unfold T, P. rewrite <- Z.pow_add_r by lia. f_equal. lia. }
    assert (E2 : 10 ^ (0 - W + 6) = P * Q).
    { unfold P, Q. rewrite <- Z.pow_add_r by lia. f_equal. lia. }
    assert (Hsmall : Z.of_N f' < T) by (rewrite E1 in Hlt; nia).
    match goal with
    | |- (if Db.numeric_fits ?z then _ else _) = _ =>
        assert (Hz : z = v * Q)
    end.
    { rewrite N2Z.inj_add, N2Z.inj_mul, N2Z.inj_mod, N2Z.inj_pow, nat_N_Z.
      change (Z.of_N 10) with 10. fold W. fold T.
      rewrite Z.mod_small by lia. rewrite E2, Hval, E1. ring. }
    rewrite Hz. unfold Db.numeric_fits. rewrite Z.abs_eq; [reflexivity|]. nia.
Qed.
End NumericText.

(** * More of the wallet service *)



(** The row the INSERT of createWallet writes, before the balance is read. *)
Definition inserted_row (rt : runtime) (userId : Db.uuid) (walletName : string)
    (clientId : option Db.uuid) (gw : generated_wallet) (ws : list Db.wallet_row)
    : Db.wallet_row :=
  Db.mkWallet (uuid_generate_v4 rt) userId clientId walletName (g_address gw)
    (WalletService.JSON_stringify rt (g_encryptedPrivateKey gw))
    (Nat.eqb (List.length (filter (fun r => String.eqb (Db.w_user_id r) userId) ws)) 0)
    (Some 0) None (NOW rt) (NOW rt) Db.WActive.

Lemma count_is_zero (n : nat) : String.eqb (Db.nat_text n) "0" = Nat.eqb n 0.
Proof.
  destruct (Nat.eqb_spec n 0) as [->|ne]; [reflexivity|].
  apply String.eqb_neq. intros H. apply nat_text_zero in H. contradiction.
Qed.

(** createWallet, step by step: nothing is written before the INSERT, and the
    balance is read after it. *)
Lemma createWallet_steps {cipher : Crypto.PasswordCipher} (rt : runtime)
    (userId : Db.uuid) (walletName : string) (clientId : option Db.uuid)
    (w w' : world) (r : outcome created_wallet) :
  createWallet rt userId walletName clientId w = (r, w') ->
  ((exists e, r = Throw e) /\ w' = w)
  \/
  exists gw,
    generateWallet (blockchainService rt) = Ok gw /\
    existsb (fun x => String.eqb (Db.w_id x) (uuid_generate_v4 rt)) (wallets w) = false /\
    existsb (fun x => String.eqb (Db.w_user_id x) userId
                      && String.eqb (Db.w_wallet_name x) walletName) (wallets w) = false /\
    (((exists e, r = Throw e) /\
      w' = with_wallets w (wallets w ++ [inserted_row rt userId walletName clientId gw (wallets w)]))
     \/
     exists z v,
       r = Ok v /\
       cw_id v = uuid_generate_v4 rt /\
       cw_isPrimary v
         = Nat.eqb (List.length (filter (fun x => String.eqb (Db.w_user_id x) userId)
                                        (wallets w))) 0 /\
       w' = with_wallets w
              (wallets w ++ [set_balance (NOW rt) z
                               (inserted_row rt userId walletName clientId gw (wallets w))])).
Proof.
  unfold createWallet. run_eff.
  destruct (filter _ (wallets w)) eqn:Hdup; [|intros [= <- <-]; left; eauto].
  apply existsb_false_filter in Hdup.
  destruct (generateWallet (blockchainService rt)) as [gw|e] eqn:Hgen;
    [|intros [= <- <-]; left; eauto].
  unfold insert_wallet. rewrite Hdup.
  destruct (existsb (fun x => String.eqb (Db.w_id x) (uuid_generate_v4 rt)) (wallets w))
    eqn:Hid; cbn [orb]; [intros [= <- <-]; left; eauto|].
  destruct (_ || _)%bool; [intros [= <- <-]; left; eauto|].
  rewrite count_is_zero.
  fold (inserted_row rt userId walletName clientId gw (wallets w)).
  set (row := inserted_row rt userId walletName clientId gw (wallets w)).
  unfold updateWalletBalance. run_eff. cbn [wallets].
  change (Db.w_id row) with (uuid_generate_v4 rt).
  rewrite filter_app. apply existsb_false_filter in Hid as Hid'. rewrite Hid'.
  cbn [filter app]. change (Db.w_id row) with (uuid_generate_v4 rt).
  rewrite String.eqb_refl.
  intros H. right. exists gw. repeat (split; [assumption || reflexivity|]).
  revert H.
  destruct (getUSDCBalance _ _) as [bd|e]; [|intros [= <- <-]; left; split; eauto].
  destruct (Db.numeric_in_text _) as [z|]; [|intros [= <- <-]; left; split; eauto].
  intros [= <- <-]. right. eexists z, _. split; [reflexivity|].
  split; [reflexivity|]. split; [reflexivity|].
  unfold with_wallets. cbn [wallets transactions submitted]. f_equal.
  rewrite update_where_app, (update_where_none _ _ _ Hid).
  unfold update_where. cbn [map]. change (Db.w_id row) with (uuid_generate_v4 rt).
  now rewrite String.eqb_refl.
Qed.

(** Settings for the cases below. *)
Module Cases.

(** A node that does not answer the token contract's balanceOf. *)
Definition silent_token_service : service :=
  {| sv_provider :=
       {| isAddress := isAddress Example.example_provider;
          createRandom := createRandom Example.example_provider;
          balanceOf := fun _ => None;
          decimals := decimals Example.example_provider;
          getBalance := getBalance Example.example_provider;
          getTransaction_rpc := getTransaction_rpc Example.example_provider;
          getTransactionReceipt := getTransactionReceipt Example.example_provider;
          getBlock_timestamp := getBlock_timestamp Example.example_provider;
          transfer := transfer Example.example_provider |};
     encryptionKey := encryptionKey Example.example_service;
     randomBytes16 := randomBytes16 Example.example_service |}.

Definition silent_token_runtime (id : Db.uuid) (now : Db.time) : runtime :=
  {| blockchainService := silent_token_service;
     WalletService.JSON_stringify := Example.example_stringify;
     JSON_parse := Example.example_parse;
     NOW := now;
     uuid_generate_v4 := id |}.

End Cases.

(** X2.  createWallet, outcome by outcome.  It writes no transaction and sends
    nothing.  Either it throws with the store as it was, or it has inserted
    exactly one row for the caller; and then it may still throw, when the
    balance cannot be read or stored: the row stays, with balance 0 and no
    balance update, and a further createWallet under the same name is refused
    as a duplicate. *)
Theorem createWallet_outcomes {cipher : Crypto.PasswordCipher} (rt : runtime)
    (userId : Db.uuid) (walletName : string) (clientId : option Db.uuid)
    (w w' : world) (r : outcome created_wallet) :
  createWallet rt userId walletName clientId w = (r, w') ->
  transactions w' = transactions w /\
  submitted w' = submitted w /\
  (((exists e, r = Throw e) /\ w' = w)
   \/
   exists row,
     wallets w' = (wallets w ++ [row])%list /\
     Db.w_id row = uuid_generate_v4 rt /\
     Db.w_user_id row = userId /\
     Db.w_wallet_name row = walletName /\
     Db.w_white_label_client_id row = clientId /\
     Db.w_address row = rw_address (createRandom (sv_provider (blockchainService rt))) /\
     Db.w_status row = Db.WActive /\
     Db.w_is_primary row
       = Nat.eqb (List.length (filter (fun x => String.eqb (Db.w_user_id x) userId)
                                      (wallets w))) 0 /\
     ((exists v, r = Ok v /\ cw_id v = Db.w_id row /\
                 cw_isPrimary v = Db.w_is_primary row)
      \/
      ((exists e, r = Throw e) /\
       Db.w_balance_usdc row = Some 0 /\
       Db.w_last_balance_update row = None /\
       forall rt' clientId',
         createWallet rt' userId walletName clientId' w'
           = (Throw (Error "Wallet with this name already exists"), w')))).
Proof.
  intros H. apply createWallet_steps in H as [[He ->]|(gw & Hgen & Hid & Hname & H)].
  - repeat split; try reflexivity. left. auto.
  - assert (Haddr : g_address gw
                    = rw_address (createRandom (sv_provider (blockchainService rt)))).
    { unfold generateWallet in Hgen. destruct (encryptPrivateKey _ _); [|discriminate].
      injection Hgen as <-. reflexivity. }
    destruct H as [[He ->]|(z & v & -> & Hv & Hp & ->)];
      cbn [with_wallets wallets transactions submitted];
      (split; [reflexivity|]); (split; [reflexivity|]); right.
    + exists (inserted_row rt userId walletName clientId gw (wallets w)).
      repeat (split; [first [reflexivity | exact Haddr]|]).
      right. repeat (split; [first [reflexivity | exact He]|]).
      intros rt' clientId'. unfold createWallet. run_eff. cbn [wallets with_wallets].
      rewrite filter_app. cbn [filter inserted_row Db.w_user_id Db.w_wallet_name].
      rewrite !String.eqb_refl. cbn [andb].
      destruct (filter _ (wallets w)); reflexivity.
    + exists (set_balance (NOW rt) z (inserted_row rt userId walletName clientId gw (wallets w))).
      repeat (split; [first [reflexivity | exact Haddr]|]).
      left. exists v. repeat split; assumption.
Qed.

Lemma createWallet_outcomes_witness :
  let rt := Cases.silent_token_runtime "w-1" 1000 in
  exists row w',
    createWallet (cipher := Example.example_cipher) rt "alice" "main" None empty_world
      = (Throw (Error "Failed to get USDC balance"), w') /\
    wallets w' = [row] /\
    Db.w_user_id row = "alice" /\ Db.w_wallet_name row = "main" /\
    Db.w_is_primary row = true /\ Db.w_balance_usdc row = Some 0 /\
    createWallet (cipher := Example.example_cipher) rt "alice" "main" None w'
      = (Throw (Error "Wallet with this name already exists"), w').
Proof.
  cbv zeta.
  destruct (createWallet (cipher := Example.example_cipher)
              (Cases.silent_token_runtime "w-1" 1000) "alice" "main" None empty_world)
    as [r w'] eqn:E.
  destruct (createWallet_outcomes (cipher := Example.example_cipher)
              (Cases.silent_token_runtime "w-1" 1000) "alice" "main" None
              empty_world w' r E) as (_ & _ & H).
  assert (Er : r = Throw (Error "Failed to get USDC balance"))
    by (apply (f_equal fst) in E; vm_compute in E; congruence).
  destruct H as [[_ Hw]|(row & Hrows & _ & Hu & Hn & _ & _ & _ & Hp & H)].
  - exfalso. apply (f_equal (fun x => List.length (wallets (snd x)))) in E.
    rewrite Hw in E. vm_compute in E. discriminate.
  - destruct H as [(v & Hv & _)|(_ & Hb & _ & Hretry)]; [congruence|].
    exists row, w'. rewrite Er. repeat split; auto.
Defined.

(** What encryptPrivateKey returns decrypts to the key under the same process
    secret. *)
Lemma decryptPrivateKey_encryptPrivateKey {cipher : Crypto.PasswordCipher}
    (sv sv' : service) (privateKey : string) (e : encrypted_data) :
  encryptionKey sv' = encryptionKey sv ->
  encryptPrivateKey sv privateKey = Ok e ->
  decryptPrivateKey sv' e = Ok privateKey.
Proof.
  unfold encryptPrivateKey, decryptPrivateKey. intros ->.
  destruct (encryptionKey sv) as [secret|]; [|discriminate].
  pose proof (Crypto.unseal_seal (Crypto.utf8 secret) (Crypto.utf8 privateKey)) as Hlaw.
  destruct (Crypto.seal _ _) as [ct tag]. cbn [fst snd] in Hlaw.
  intros [= <-]. cbn [Blockchain.encrypted Blockchain.authTag].
  rewrite Hex.encode_even, !Hex.decode_encode, Hlaw. now rewrite Crypto.from_utf8_utf8.
Qed.

(** X3.  Custody.  A wallet made by createWallet keeps, encrypted in its row, the
    key the library generated for it; a later sendUSDC from that wallet, under
    the same process secret and with a JSON parser that reads back what the
    serializer wrote, either throws with nothing sent or hands the network
    one transfer signed with exactly that key. *)
Theorem created_wallet_signs_with_its_key {cipher : Crypto.PasswordCipher}
    (rt rt' : runtime) (userId : Db.uuid) (walletName : string)
    (clientId : option Db.uuid) (w w1 w2 : world) (v : created_wallet)
    (toAddress : string) (amount : JS.value) (memo : option string)
    (r : outcome send_result) :
  (forall e,
     encryptPrivateKey (blockchainService rt)
       (rw_privateKey (createRandom (sv_provider (blockchainService rt)))) = Ok e ->
     JSON_parse rt' (WalletService.JSON_stringify rt e) = Some e) ->
  encryptionKey (blockchainService rt') = encryptionKey (blockchainService rt) ->
  createWallet rt userId walletName clientId w = (Ok v, w1) ->
  WalletService.sendUSDC rt' (cw_id v) userId toAddress amount memo w1 = (r, w2) ->
  ((exists e, r = Throw e) /\ submitted w2 = submitted w1)
  \/
  submitted w2
    = mkTransfer (rw_privateKey (createRandom (sv_provider (blockchainService rt))))
        toAddress amount :: submitted w1.
Proof.
  intros Hjson Hsecret Hcreate Hsend.
  apply createWallet_steps in Hcreate as [[[e He] _]|(gw & Hgen & Hid & _ & H)];
    [discriminate|].
  destruct H as [[[e He] _]|(z & v' & [= <-] & Hv & _ & ->)]; [discriminate|].
  assert (Henc : encryptPrivateKey (blockchainService rt)
                   (rw_privateKey (createRandom (sv_provider (blockchainService rt))))
                 = Ok (g_encryptedPrivateKey gw)).
  { unfold generateWallet in Hgen.
    destruct (encryptPrivateKey _ _) as [enc|]; [|discriminate].
    injection Hgen as <-. reflexivity. }
  pose proof (decryptPrivateKey_encryptPrivateKey _ (blockchainService rt') _ _
                Hsecret Henc) as Hkey.
  specialize (Hjson _ Henc).
  revert Hsend. unfold WalletService.sendUSDC. run_eff.
  destruct (negb _); [intros [= <- <-]; left; eauto|].
  cbn [wallets with_wallets]. rewrite filter_app, Hv.
  assert (Hnone : filter (fun x => String.eqb (Db.w_id x) (uuid_generate_v4 rt)
                                   && String.eqb (Db.w_user_id x) userId
                                   && Db.wallet_status_eqb (Db.w_status x) Db.WActive)
                         (wallets w) = []).
  { apply existsb_false_filter. apply not_true_is_false. intros Hex.
    apply existsb_exists in Hex as (x & Hx & Hsat).
    apply andb_true_iff in Hsat as [Hsat _]. apply andb_true_iff in Hsat as [Hsat _].
    assert (existsb (fun x => String.eqb (Db.w_id x) (uuid_generate_v4 rt)) (wallets w) = true)
      by (apply existsb_exists; eauto).
    congruence. }
  rewrite Hnone.
  cbn [app filter set_balance inserted_row Db.w_id Db.w_user_id Db.w_status
       Db.wallet_status_eqb].
  rewrite !String.eqb_refl. cbn [andb Db.w_encrypted_private_key].
  change (Db.w_encrypted_private_key
            (set_balance (NOW rt) z
               (inserted_row rt userId walletName clientId gw (wallets w))))
    with (WalletService.JSON_stringify rt (g_encryptedPrivateKey gw)).
  rewrite Hjson.
  destruct (PrimFloat.ltb _ (JS.parseFloat amount)); [intros [= <- <-]; left; eauto|].
  destruct (getETHBalance _ _); [|intros [= <- <-]; left; eauto].
  destruct (PrimFloat.ltb _ min_eth_for_gas); [intros [= <- <-]; left; eauto|].
  unfold Blockchain.sendUSDC. rewrite Hkey.
  destruct (transfer _ _ _ _); [intros [= <- <-]; left; eauto|].
  unfold insert_transaction. cbn [transactions wallets submitted with_wallets].
  destruct (Db.numeric_in amount); [|intros [= <- <-]; right; reflexivity].
  destruct (existsb _ (transactions w)); [intros [= <- <-]; right; reflexivity|].
  destruct (_ || _)%bool; intros [= <- <-]; right; reflexivity.
Qed.

Lemma created_wallet_signs_with_its_key_witness :
  exists v,
    Example.first_call empty_world = (Ok v, snd Example.after_first) /\
    submitted (snd Example.after_first) = [] /\
    submitted (snd (WalletService.sendUSDC (cipher := Example.example_cipher)
                      (Example.example_runtime "t-1" 4000) (cw_id v) "alice"
                      "0x9999999999999999999999999999999999999999" (JS.VNum 5%float)
                      None (snd Example.after_first)))
      = [mkTransfer "0xabc123" "0x9999999999999999999999999999999999999999"
           (JS.VNum 5%float)].
Proof.
  eexists. split; [vm_compute; reflexivity|]. split; [reflexivity|].
  match goal with
  | |- submitted (snd (WalletService.sendUSDC ?rt' (cw_id ?v) ?u ?a ?n ?m ?w1)) = _ =>
      destruct (created_wallet_signs_with_its_key (cipher := Example.example_cipher)
                  (Example.example_runtime "w-1" 1000) rt' "alice" "main" None
                  empty_world w1 (snd (WalletService.sendUSDC (cipher := Example.example_cipher) rt' (cw_id v) u a n m w1))
                  v a n m (fst (WalletService.sendUSDC (cipher := Example.example_cipher) rt' (cw_id v) u a n m w1)))
        as [[_ Hsame]|Hsent]
  end.
  - intros e He. vm_compute in He. injection He as <-. vm_compute. reflexivity.
  - reflexivity.
  - vm_compute. reflexivity.
  - apply surjective_pairing.
  - exfalso. vm_compute in Hsame. discriminate.
  - rewrite Hsent. reflexivity.
Defined.

(** X4.  updateWalletBalance on a token of at most six decimals.  The amount the
    contract reports, a count of the token's smallest units, is cached exactly
    (in millionths) in every row with that id, stamped with the database
    clock, and no other row changes; an amount the NUMERIC(20,6) column cannot
    hold makes the call throw the database's overflow error with the store as
    it was. *)
Theorem updateWalletBalance_caches_exact_amount
    (rt : runtime) (walletId : Db.uuid) (w : world)
    (row : Db.wallet_row) (others : list Db.wallet_row) (balance dec : Z) :
  filter (fun r => String.eqb (Db.w_id r) walletId) (wallets w) = row :: others ->
  balanceOf (sv_provider (blockchainService rt)) (Db.w_address row) = Some balance ->
  decimals (sv_provider (blockchainService rt)) = Some dec ->
  0 <= balance ->
  0 <= dec <= 6 ->
  let z := balance * 10 ^ (6 - dec) in
  (z < 10 ^ 20 ->
   exists v,
     updateWalletBalance rt walletId w
       = (Ok v,
          {| wallets :=
               map (fun r => if String.eqb (Db.w_id r) walletId
                             then set_balance (NOW rt) z r else r) (wallets w);
             transactions := transactions w;
             submitted := submitted w |}) /\
     bu_balance_wei v = Z_text balance) /\
  (10 ^ 20 <= z ->
   updateWalletBalance rt walletId w = (Throw (DbError numeric_value_out_of_range), w)).
Proof.
  intros Hsel Hbal Hdec Hpos Hrange z.
  unfold updateWalletBalance, getUSDCBalance. run_eff.
  rewrite Hsel, Hbal, Hdec. cbn [b_balance b_balanceWei].
  rewrite NumericText.numeric_in_formatUnits by assumption. fold z.
  split; intros Hz.
  - replace (z <? 10 ^ 20) with true by (symmetry; apply Z.ltb_lt; exact Hz).
    eexists. split; reflexivity.
  - replace (z <? 10 ^ 20) with false by (symmetry; apply Z.ltb_ge; exact Hz).
    reflexivity.
Qed.

Lemma updateWalletBalance_caches_exact_amount_witness :
  map Db.w_balance_usdc
    (wallets (snd (updateWalletBalance
                     (Example.example_runtime "-" 7000) "w-1" (snd Example.after_second))))
  = [Some 12500000; Some 12500000].
Proof.
  destruct (proj1 (updateWalletBalance_caches_exact_amount
                     (Example.example_runtime "-" 7000) "w-1" (snd Example.after_second)
                     _ _ 12500000 6 eq_refl eq_refl eq_refl
                     ltac:(lia) ltac:(lia)) ltac:(reflexivity)) as (v & E & _).
  rewrite E. reflexivity.
Defined.

(** * Reading a wallet, and the routes that check ownership through it
      (services/walletService.js getWallet; routes/wallets.js) *)
Module WalletAccess.

Local Open Scope eff_scope.

Record wallet_view := mkWalletView {
  wv_id : Db.uuid;
  wv_walletName : string;
  wv_address : string;
  wv_balance : string;
  wv_isPrimary : bool;
  wv_lastBalanceUpdate : option Db.time;
  wv_createdAt : Db.time;
  wv_status : Db.wallet_status
}.

(** getWallet *)
Definition getWallet (walletId userId : Db.uuid) : M wallet_view :=
  w <- get ;;
  match filter (fun r => String.eqb (Db.w_id r) walletId
                         && String.eqb (Db.w_user_id r) userId
                         && Db.wallet_status_eqb (Db.w_status r) Db.WActive)
               (wallets w) with
  | [] => throw (Error "Wallet not found or access denied")
  | wallet :: _ =>
      ret {| wv_id := Db.w_id wallet;
             wv_walletName := Db.w_wallet_name wallet;
             wv_address := Db.w_address wallet;
             wv_balance := balance_text wallet;
             wv_isPrimary := Db.w_is_primary wallet;
             wv_lastBalanceUpdate := Db.w_last_balance_update wallet;
             wv_createdAt := Db.w_created_at wallet;
             wv_status := Db.w_status wallet |}
  end.

(** What a handler answers: the status, the success flag and the message. *)
Record answer (A : Type) := mkAnswer {
  a_status : Z;
  a_success : bool;
  a_message : option string;
  a_data : option A
}.
Arguments mkAnswer {A}.
Arguments a_status {A}.
Arguments a_success {A}.
Arguments a_message {A}.
Arguments a_data {A}.

Section Routes.
Variable rt : WalletService.runtime.

(** router.get("/:walletId"); [is_uuid] is what the isUUID validator says of
    the parameter. *)
Definition get_wallet (is_uuid : bool) (walletId userId : Db.uuid)
    : M (answer wallet_view) :=
  try_catch
    (if negb is_uuid then ret (mkAnswer 400 false (Some "Invalid wallet ID") None)
     else
       wallet <- getWallet walletId userId ;;
       ret (mkAnswer 200 true None (Some wallet)))
    (fun error => ret (mkAnswer 404 false (Some (exn_message error)) None)).

(** router.post("/:walletId/balance") *)
Definition post_balance (is_uuid : bool) (walletId userId : Db.uuid)
    : M (answer balance_update) :=
  try_catch
    (if negb is_uuid then ret (mkAnswer 400 false (Some "Invalid wallet ID") None)
     else
       getWallet walletId userId ;;;
       balanceData <- updateWalletBalance rt walletId ;;
       ret (mkAnswer 200 true (Some "Balance updated successfully") (Some balanceData)))
    (fun error => ret (mkAnswer 400 false (Some (exn_message error)) None)).

(** router.post("/:walletId/set-primary") *)
Definition post_set_primary (is_uuid : bool) (walletId userId : Db.uuid)
    : M (answer unit) :=
  try_catch
    (if negb is_uuid then ret (mkAnswer 400 false (Some "Invalid wallet ID") None)
     else
       setPrimaryWallet rt walletId userId ;;;
       ret (mkAnswer 200 true (Some "Primary wallet updated successfully") None))
    (fun error => ret (mkAnswer 400 false (Some (exn_message error)) None)).

End Routes.

End WalletAccess.

Import WalletAccess.

(** X5.  A wallet the caller does not own is out of reach of every call that takes
    a wallet id from the caller: where no row carries both the id and the
    caller as its user, getWallet, sendUSDC and setPrimaryWallet throw, the
    balance and set-primary routes answer 400 and the wallet route 404, and the
    store is left as it was by each of them.  updateWalletBalance itself checks
    no owner: the balance route is what keeps it to the caller's wallets. *)
Theorem foreign_wallet_is_refused {cipher : Crypto.PasswordCipher}
    (rt : WalletService.runtime) (walletId userId : Db.uuid) (w : world)
    (toAddress : string) (amount : JS.value) (memo : option string) :
  (forall r, In r (wallets w) -> Db.w_id r = walletId -> Db.w_user_id r <> userId) ->
  getWallet walletId userId w = (Throw (Error "Wallet not found or access denied"), w) /\
  setPrimaryWallet rt walletId userId w
    = (Throw (Error "Wallet not found or access denied"), w) /\
  (exists e, WalletService.sendUSDC rt walletId userId toAddress amount memo w
             = (Throw e, w)) /\
  get_wallet true walletId userId w
    = (Ok (mkAnswer 404 false (Some "Wallet not found or access denied") None), w) /\
  post_balance rt true walletId userId w
    = (Ok (mkAnswer 400 false (Some "Wallet not found or access denied") None), w) /\
  post_set_primary rt true walletId userId w
    = (Ok (mkAnswer 400 false (Some "Wallet not found or access denied") None), w).
Proof.
  intros Hforeign.
  assert (Hnone : forall extra,
            filter (fun r => String.eqb (Db.w_id r) walletId
                             && String.eqb (Db.w_user_id r) userId && extra r)
                   (wallets w) = []).
  { intros extra. apply existsb_false_filter. apply not_true_is_false. intros Hex.
    apply existsb_exists in Hex as (r & Hr & Hsat).
    apply andb_true_iff in Hsat as [Hsat _]. apply andb_true_iff in Hsat as [Hi Hu].
    apply String.eqb_eq in Hi, Hu. exact (Hforeign r Hr Hi Hu). }
  assert (Hnone' : filter (fun r => String.eqb (Db.w_id r) walletId
                                    && String.eqb (Db.w_user_id r) userId)
                          (wallets w) = []).
  { rewrite <- (Hnone (fun _ => true)). apply filter_ext. intros r.
    now rewrite andb_true_r. }
  assert (Hget : getWallet walletId userId w
                 = (Throw (Error "Wallet not found or access denied"), w)).
  { unfold getWallet. run_eff. now rewrite Hnone. }
  assert (Hset : setPrimaryWallet rt walletId userId w
                 = (Throw (Error "Wallet not found or access denied"), w)).
  { unfold setPrimaryWallet, verify_ownership. run_eff. now rewrite Hnone'. }
  split; [exact Hget|]. split; [exact Hset|]. split; [|split; [|split]].
  - unfold WalletService.sendUSDC. run_eff.
    destruct (negb _); [eauto|]. rewrite Hnone. eauto.
  - unfold get_wallet. run_eff. cbn [negb]. now rewrite Hget.
  - unfold post_balance. run_eff. cbn [negb]. now rewrite Hget.
  - unfold post_set_primary. run_eff. cbn [negb]. now rewrite Hset.
Qed.

Lemma foreign_wallet_is_refused_witness :
  let rt := Example.example_runtime "t-9" 9000 in
  let w := snd Example.after_second in
  setPrimaryWallet rt "w-1" "mallory" w
    = (Throw (Error "Wallet not found or access denied"), w) /\
  post_balance rt true "w-1" "mallory" w
    = (Ok (mkAnswer 400 false (Some "Wallet not found or access denied") None), w) /\
  fst (updateWalletBalance rt "w-1" w)
    = Ok (mkBalanceUpdate "w-1" "0x1111111111111111111111111111111111111111"
            "12.5" "12500000").
Proof.
  cbv zeta.
  destruct (foreign_wallet_is_refused (cipher := Example.example_cipher)
              (Example.example_runtime "t-9" 9000) "w-1" "mallory"
              (snd Example.after_second) "0x9999999999999999999999999999999999999999"
              (JS.VNum 1%float) None) as (_ & Hset & _ & _ & Hbal & _).
  - intros r [<-|[<-|[]]] _; discriminate.
  - split; [exact Hset|]. split; [exact Hbal|]. vm_compute. reflexivity.
Defined.

(** The two UPDATEs of setPrimaryWallet keep every row's id, owner and
    status. *)
Lemma setPrimary_row_origin (rt : WalletService.runtime) (walletId userId : Db.uuid)
    (ws : list Db.wallet_row) (r' : Db.wallet_row) :
  In r' (mark_primary rt walletId (clear_primary rt userId ws)) ->
  exists r, In r ws /\ Db.w_id r' = Db.w_id r /\ Db.w_user_id r' = Db.w_user_id r /\
            Db.w_status r' = Db.w_status r.
Proof.
  unfold mark_primary, clear_primary, update_where. rewrite map_map.
  intros H. apply in_map_iff in H as (r & <- & Hin). exists r. split; [exact Hin|].
  destruct (String.eqb (Db.w_user_id r) userId);
    cbn [set_is_primary Db.w_id];
    destruct (String.eqb (Db.w_id r) walletId); cbn; auto.
Qed.

Lemma no_active_row (walletId userId : Db.uuid) (ws : list Db.wallet_row) :
  (forall r, In r ws -> Db.w_id r = walletId -> Db.w_status r <> Db.WActive) ->
  filter (fun r => String.eqb (Db.w_id r) walletId
                   && String.eqb (Db.w_user_id r) userId
                   && Db.wallet_status_eqb (Db.w_status r) Db.WActive) ws = [].
Proof.
  intros H. apply existsb_false_filter. apply not_true_is_false. intros Hex.
  apply existsb_exists in Hex as (r & Hr & Hsat).
  apply andb_true_iff in Hsat as [Hsat Hst]. apply andb_true_iff in Hsat as [Hi _].
  apply String.eqb_eq in Hi. apply (H r Hr Hi).
  destruct (Db.w_status r); [reflexivity | discriminate | discriminate].
Qed.

(** X6.  The status of a wallet is checked by some calls and not by others.  For a
    wallet of the caller that is frozen or deleted, getWallet and sendUSDC
    refuse with the store as it was, and setPrimaryWallet goes through: the
    wallet, still frozen or deleted, becomes the caller's one primary wallet,
    and sendUSDC keeps refusing it. *)
Theorem inactive_wallet_can_be_made_primary {cipher : Crypto.PasswordCipher}
    (rt : WalletService.runtime) (walletId userId : Db.uuid) (w : world)
    (row : Db.wallet_row) (toAddress : string) (amount : JS.value)
    (memo : option string) :
  ids_unique (wallets w) ->
  In row (wallets w) ->
  Db.w_id row = walletId ->
  Db.w_user_id row = userId ->
  Db.w_status row <> Db.WActive ->
  getWallet walletId userId w = (Throw (Error "Wallet not found or access denied"), w) /\
  (exists e, WalletService.sendUSDC rt walletId userId toAddress amount memo w
             = (Throw e, w)) /\
  exists w',
    setPrimaryWallet rt walletId userId w = (Ok true, w') /\
    primary_count userId (wallets w') = 1%nat /\
    (exists r, In r (wallets w') /\ Db.w_id r = walletId /\ Db.w_is_primary r = true /\
               Db.w_status r = Db.w_status row) /\
    (exists e, WalletService.sendUSDC rt walletId userId toAddress amount memo w'
               = (Throw e, w')).
Proof.
  intros Hids Hin Hid Hu Hst.
  assert (Hinactive : forall r, In r (wallets w) -> Db.w_id r = walletId ->
                                Db.w_status r <> Db.WActive).
  { intros r Hr Hi. rewrite (NoDup_map_eq Db.w_id (wallets w) r row Hids Hr Hin); congruence. }
  assert (Hown : verify_ownership walletId userId (wallets w) = true).
  { unfold verify_ownership.
    destruct (filter _ (wallets w)) eqn:Hf; [|reflexivity].
    apply existsb_false_filter in Hf.
    assert (existsb (fun r => String.eqb (Db.w_id r) walletId
                              && String.eqb (Db.w_user_id r) userId) (wallets w) = true).
    { apply existsb_exists. exists row. split; [exact Hin|].
      now rewrite Hid, Hu, !String.eqb_refl. }
    congruence. }
  assert (Hsend : forall w0, wallets w0 = wallets w \/
                             wallets w0 = mark_primary rt walletId
                                            (clear_primary rt userId (wallets w)) ->
            exists e, WalletService.sendUSDC rt walletId userId toAddress amount memo w0
                      = (Throw e, w0)).
  { intros w0 Hw0. unfold WalletService.sendUSDC. run_eff.
    destruct (negb _); [eauto|].
    rewrite (no_active_row walletId userId (wallets w0)); [eauto|].
    intros r Hr Hi. destruct Hw0 as [E|E]; rewrite E in Hr.
    - now apply Hinactive.
    - apply setPrimary_row_origin in Hr as (r0 & Hr0 & Ei & _ & Es).
      rewrite Es. apply Hinactive; congruence. }
  split; [|split].
  - unfold getWallet. run_eff. now rewrite (no_active_row walletId userId (wallets w)).
  - apply Hsend. now left.
  - exists (with_wallets w (mark_primary rt walletId (clear_primary rt userId (wallets w)))).
    split; [unfold setPrimaryWallet; run_eff; rewrite Hown; reflexivity|].
    cbn [wallets with_wallets].
    split; [now apply mark_after_clear_count|]. split.
    + exists (set_is_primary (NOW rt) true (set_is_primary (NOW rt) false row)).
      split; [|cbn; auto].
      unfold mark_primary, clear_primary, update_where. rewrite map_map.
      apply in_map_iff. exists row. split; [|exact Hin].
      rewrite Hu, String.eqb_refl. cbn [set_is_primary Db.w_id].
      now rewrite Hid, String.eqb_refl.
    + apply Hsend. now right.
Qed.

Lemma inactive_wallet_can_be_made_primary_witness :
  let rt := Example.example_runtime "t-9" 9000 in
  exists w',
    setPrimaryWallet rt "w-0" "alice" Example.with_deleted = (Ok true, w') /\
    primary_count "alice" (wallets w') = 1%nat /\
    (exists r, In r (wallets w') /\ Db.w_id r = "w-0" /\ Db.w_is_primary r = true /\
               Db.w_status r = Db.WDeleted) /\
    (exists e, WalletService.sendUSDC (cipher := Example.example_cipher) rt "w-0" "alice"
                 "0x9999999999999999999999999999999999999999" (JS.VNum 1%float) None w'
               = (Throw e, w')).
Proof.
  cbv zeta.
  destruct (inactive_wallet_can_be_made_primary (cipher := Example.example_cipher)
              (Example.example_runtime "t-9" 9000) "w-0" "alice" Example.with_deleted
              Example.deleted_row "0x9999999999999999999999999999999999999999"
              (JS.VNum 1%float) None) as (_ & _ & H).
  - unfold ids_unique. cbn. repeat constructor; cbn; intuition discriminate.
  - now left.
  - reflexivity.
  - reflexivity.
  - discriminate.
  - exact H.
Defined.

(** * The backup service (services/backupService.js): import, backup, restore *)
Module BackupService.

Local Open Scope eff_scope.

(** One wallet of a backup document, and the document. *)
Record backup_wallet := mkBackupWallet {
  bw_id : Db.uuid;
  bw_walletName : string;
  bw_address : string;
  bw_encryptedPrivateKey : string;
  bw_isPrimary : bool;
  bw_createdAt : string
}.

Record backup_data := mkBackupData {
  bd_version : string;
  bd_timestamp : string;
  bd_userId : Db.uuid;
  bd_wallets : list backup_wallet
}.

(** What a call finds around it, beyond what the wallet service needs: the
    address ethers derives from a private key ([None] where the Wallet
    constructor throws), Date's ISO text, the JSON codec of the backup
    document ([None] where JSON.parse throws; the texts it reads are
    documents of the shape createBackup writes, a list of wallets with text
    fields, whoever wrote them), the two draws of [crypto.randomBytes(16)],
    and the identifier the database generates for the INSERT of the k-th
    wallet of a restore. *)
Record runtime := mkRuntime {
  base : WalletService.runtime;
  address_of_key : string -> option string;
  toISOString : Db.time -> string;
  stringify_backup : backup_data -> string;
  parse_backup : string -> option backup_data;
  random_salt : Crypto.bytes;
  random_iv : Crypto.bytes;
  uuid_supply : nat -> Db.uuid
}.

Record imported_wallet := mkImported {
  iw_id : Db.uuid;
  iw_address : string;
  iw_walletName : string;
  iw_isPrimary : bool;
  iw_createdAt : Db.time
}.

Record backup_result := mkBackupResult {
  br_backup : encrypted_backup;
  br_walletCount : nat;
  br_createdAt : string
}.

Record restored_wallet := mkRestored {
  rs_id : Db.uuid;
  rs_address : string;
  rs_wallet_name : string
}.

Record restore_result := mkRestoreResult {
  rr_restoredWallets : list restored_wallet;
  rr_totalInBackup : nat;
  rr_restoredCount : nat
}.

Section Service.
Context {cipher : Crypto.PasswordCipher}.
Variable rt : runtime.

(** SELECT id FROM wallets WHERE address = $1 *)
Definition with_address (address : string) (ws : list Db.wallet_row) : list Db.wallet_row :=
  filter (fun r => String.eqb (Db.w_address r) address) ws.

(** importWallet *)
Definition importWallet (userId : Db.uuid) (privateKey walletName : string)
    (whitelabelClientId : option Db.uuid) : M imported_wallet :=
  match address_of_key rt privateKey with
  | None => throw (Error "Invalid private key")
  | Some address =>
      w <- get ;;
      match with_address address (wallets w) with
      | _ :: _ => throw (Error "Wallet with this address already exists")
      | [] =>
          encryptedPrivateKey <-
            lift (encryptPrivateKey (blockchainService (base rt)) privateKey) ;;
          let count :=
            Db.nat_text (List.length (filter (fun r => String.eqb (Db.w_user_id r) userId)
                                             (wallets w))) in
          let isPrimary := String.eqb count "0" in
          importedWallet <-
            insert_wallet (uuid_generate_v4 (base rt)) (NOW (base rt)) userId
              whitelabelClientId walletName address
              (WalletService.JSON_stringify (base rt) encryptedPrivateKey) isPrimary ;;
          ret {| iw_id := Db.w_id importedWallet;
                 iw_address := Db.w_address importedWallet;
                 iw_walletName := Db.w_wallet_name importedWallet;
                 iw_isPrimary := Db.w_is_primary importedWallet;
                 iw_createdAt := Db.w_created_at importedWallet |}
      end
  end.

Definition backup_entry (wallet : Db.wallet_row) : backup_wallet :=
  {| bw_id := Db.w_id wallet;
     bw_walletName := Db.w_wallet_name wallet;
     bw_address := Db.w_address wallet;
     bw_encryptedPrivateKey := Db.w_encrypted_private_key wallet;
     bw_isPrimary := Db.w_is_primary wallet;
     bw_createdAt := toISOString rt (Db.w_created_at wallet) |}.

(** SELECT ... FROM wallets WHERE user_id = $1 AND status = 'active' *)
Definition active_wallets (userId : Db.uuid) (ws : list Db.wallet_row) : list Db.wallet_row :=
  filter (fun r => String.eqb (Db.w_user_id r) userId
                   && Db.wallet_status_eqb (Db.w_status r) Db.WActive) ws.

(** createBackup *)
Definition createBackup (userId : Db.uuid) (password : string) : M backup_result :=
  w <- get ;;
  match active_wallets userId (wallets w) with
  | [] => throw (Error "No wallets found to backup")
  | rows =>
      let backupData :=
        {| bd_version := "1.0";
           bd_timestamp := toISOString rt (NOW (base rt));
           bd_userId := userId;
           bd_wallets := map backup_entry rows |} in
      let backupJson := stringify_backup rt backupData in
      let encryptedBackup :=
        encryptBackup (random_salt rt) (random_iv rt) backupJson password in
      ret {| br_backup := encryptedBackup;
             br_walletCount := List.length rows;
             br_createdAt := toISOString rt (NOW (base rt)) |}
  end.

(** The loop of restoreFromBackup, from the [k]-th wallet of the document on:
    a wallet whose address is in the table is skipped, and a wallet whose
    INSERT is refused is logged and skipped. *)
Fixpoint restore_each (userId : Db.uuid) (whitelabelClientId : option Db.uuid)
    (entries : list backup_wallet) (k : nat) : M (list restored_wallet) :=
  match entries with
  | [] => ret []
  | walletData :: rest =>
      restored <-
        try_catch
          (w <- get ;;
           match with_address (bw_address walletData) (wallets w) with
           | _ :: _ => ret []
           | [] =>
               row <- insert_wallet (uuid_supply rt k) (NOW (base rt)) userId
                        whitelabelClientId (bw_walletName walletData)
                        (bw_address walletData) (bw_encryptedPrivateKey walletData)
                        false ;;
               ret [{| rs_id := Db.w_id row;
                       rs_address := Db.w_address row;
                       rs_wallet_name := Db.w_wallet_name row |}]
           end)
          (fun _ => ret []) ;;
      more <- restore_each userId whitelabelClientId rest (S k) ;;
      ret (restored ++ more)%list
  end.

(** restoreFromBackup *)
Definition restoreFromBackup (userId : Db.uuid) (encryptedBackup : encrypted_backup)
    (password : string) (whitelabelClientId : option Db.uuid) : M restore_result :=
  backupJson <- lift (decryptBackup encryptedBackup password) ;;
  match parse_backup rt backupJson with
  | None => throw SyntaxError
  | Some backupData =>
      if negb (String.eqb (bd_version backupData) "1.0") then
        throw (Error "Unsupported backup version")
      else
        restoredWallets <-
          restore_each userId whitelabelClientId (bd_wallets backupData) 0 ;;
        ret {| rr_restoredWallets := restoredWallets;
               rr_totalInBackup := List.length (bd_wallets backupData);
               rr_restoredCount := List.length restoredWallets |}
  end.

End Service.

End BackupService.

(** * At most one primary wallet per user, call after call *)
Module PrimaryInvariant.

Import BackupService.

Definition one_primary (ws : list Db.wallet_row) : Prop :=
  forall u, (primary_count u ws <= 1)%nat.

(** The invariant the calls keep: the table's keys, and the primary flags. *)
Definition wallets_ok (ws : list Db.wallet_row) : Prop :=
  table_ok ws /\ one_primary ws.

Lemma primary_count_app u (a b : list Db.wallet_row) :
  primary_count u (a ++ b) = (primary_count u a + primary_count u b)%nat.
Proof. unfold primary_count. now rewrite filter_app, length_app. Qed.

Lemma primary_count_le_rows u (ws : list Db.wallet_row) :
  (primary_count u ws
   <= List.length (filter (fun r => String.eqb (Db.w_user_id r) u) ws))%nat.
Proof.
  unfold primary_count. induction ws as [|r ws IH]; cbn; [lia|].
  destruct (String.eqb (Db.w_user_id r) u); cbn; [|exact IH].
  destruct (Db.w_is_primary r); cbn; lia.
Qed.

Lemma primary_count_update u sel f (ws : list Db.wallet_row) :
  (forall r, Db.w_user_id (f r) = Db.w_user_id r) ->
  (forall r, Db.w_is_primary (f r) = Db.w_is_primary r) ->
  primary_count u (update_where sel f ws) = primary_count u ws.
Proof.
  intros Hu Hp. unfold primary_count, update_where.
  induction ws as [|r ws IH]; [reflexivity|]. cbn [map filter].
  assert (E : (String.eqb (Db.w_user_id (if sel r then f r else r)) u
               && Db.w_is_primary (if sel r then f r else r))%bool
              = (String.eqb (Db.w_user_id r) u && Db.w_is_primary r)%bool)
    by (destruct (sel r); [now rewrite Hu, Hp | reflexivity]).
  rewrite E. clear E.
  destruct (String.eqb (Db.w_user_id r) u && Db.w_is_primary r)%bool;
    cbn [List.length]; [f_equal|]; exact IH.
Qed.

(** The INSERT keeps the invariant when the flag it writes is set only for a
    user without rows. *)
Lemma insert_wallet_ok id now userId clientId walletName address key isPrimary w :
  (isPrimary = true ->
   filter (fun r => String.eqb (Db.w_user_id r) userId) (wallets w) = []) ->
  wallets_ok (wallets w) ->
  wallets_ok (wallets (snd (insert_wallet id now userId clientId walletName address key
                              isPrimary w))).
Proof.
  intros Hfirst [Hkeys Hone]. split; [now apply insert_wallet_table_ok|].
  unfold insert_wallet.
  destruct (_ || _)%bool; cbn [snd]; [assumption|].
  destruct (_ || _)%bool; cbn [snd wallets]; [assumption|].
  intros u. rewrite primary_count_app. specialize (Hone u).
  unfold primary_count at 2. cbn [filter Db.w_user_id Db.w_is_primary].
  destruct (String.eqb userId u) eqn:Eu; cbn [andb]; [|cbn; lia].
  destruct isPrimary; cbn [List.length]; [|lia].
  apply String.eqb_eq in Eu. subst u.
  pose proof (primary_count_le_rows userId (wallets w)) as Hle.
  rewrite (Hfirst eq_refl) in Hle. cbn in Hle. lia.
Qed.

Lemma first_wallet_flag (ws : list Db.wallet_row) (userId : Db.uuid) :
  String.eqb (Db.nat_text (List.length (filter (fun r => String.eqb (Db.w_user_id r) userId)
                                               ws))) "0" = true ->
  filter (fun r => String.eqb (Db.w_user_id r) userId) ws = [].
Proof.
  rewrite count_is_zero. intros H. apply Nat.eqb_eq in H.
  now apply length_zero_iff_nil.
Qed.

Lemma updateWalletBalance_ok rt walletId w :
  wallets_ok (wallets w) -> wallets_ok (wallets (snd (updateWalletBalance rt walletId w))).
Proof.
  intros [Hkeys Hone]. split; [now apply updateWalletBalance_table_ok|].
  unfold updateWalletBalance. run_eff.
  destruct (filter _ (wallets w)); cbn [snd]; [assumption|].
  destruct (getUSDCBalance _ _); cbn [snd]; [|assumption].
  destruct (Db.numeric_in_text _); cbn [snd wallets with_wallets]; [|assumption].
  intros u. rewrite primary_count_update by reflexivity. apply Hone.
Qed.

Lemma createWallet_ok {cipher : Crypto.PasswordCipher} rt userId walletName clientId w :
  wallets_ok (wallets w) ->
  wallets_ok (wallets (snd (createWallet rt userId walletName clientId w))).
Proof.
  intros H. unfold createWallet. run_eff.
  destruct (filter _ (wallets w)); cbn [snd]; [|assumption].
  destruct (generateWallet _); cbn [snd]; [|assumption].
  match goal with
  | |- context [insert_wallet ?a ?b ?c ?d ?e ?f ?g ?h w] =>
      pose proof (insert_wallet_ok a b c d e f g h w (first_wallet_flag _ _) H) as Hins;
      destruct (insert_wallet a b c d e f g h w) as [[row|e0] w1]
  end; cbn [snd] in *; [|assumption].
  pose proof (updateWalletBalance_ok rt (Db.w_id row) w1 Hins) as Hupd.
  destruct (updateWalletBalance rt (Db.w_id row) w1) as [[b|e0] w2]; cbn [snd] in *;
    assumption.
Qed.

Lemma setPrimaryWallet_ok rt walletId userId w :
  wallets_ok (wallets w) ->
  wallets_ok (wallets (snd (setPrimaryWallet rt walletId userId w))).
Proof.
  intros [Hkeys Hone]. split; [now apply setPrimaryWallet_table_ok|].
  unfold setPrimaryWallet. run_eff.
  destruct (verify_ownership walletId userId (wallets w)) eqn:Hown;
    cbn [negb snd wallets with_wallets]; [|assumption].
  intros u. destruct (String.eqb u userId) eqn:Eu.
  - apply String.eqb_eq in Eu. subst u.
    rewrite mark_after_clear_count; [lia | apply Hkeys | exact Hown].
  - rewrite (mark_primary_count_other rt walletId userId u).
    + rewrite clear_primary_count_other by assumption. apply Hone.
    + intros r' Hin' Hid'. apply clear_primary_In in Hin' as (r & Hin & Ei & Eu').
      rewrite Eu'. apply (target_owner walletId userId (wallets w)); auto.
      * apply Hkeys.
      * congruence.
    + assumption.
Qed.

Lemma importWallet_ok {cipher : Crypto.PasswordCipher} brt userId privateKey walletName
    clientId w :
  wallets_ok (wallets w) ->
  wallets_ok (wallets (snd (importWallet brt userId privateKey walletName clientId w))).
Proof.
  intros H. unfold importWallet.
  destruct (address_of_key brt privateKey); [|exact H]. run_eff.
  destruct (with_address _ _); cbn [snd]; [|assumption].
  destruct (encryptPrivateKey _ _); cbn [snd]; [|assumption].
  match goal with
  | |- context [insert_wallet ?a ?b ?c ?d ?e ?f ?g ?h w] =>
      pose proof (insert_wallet_ok a b c d e f g h w (first_wallet_flag _ _) H) as Hins;
      destruct (insert_wallet a b c d e f g h w) as [[row|e0] w1]
  end; cbn [snd] in *; assumption.
Qed.

Lemma restore_each_ok brt userId clientId entries k w :
  wallets_ok (wallets w) ->
  wallets_ok (wallets (snd (restore_each brt userId clientId entries k w))).
Proof.
  revert k w. induction entries as [|e rest IH]; intros k w H; [exact H|].
  cbn [restore_each]. run_eff.
  assert (Hstep : forall x, wallets_ok (wallets (snd x)) ->
            wallets_ok (wallets (snd
              (let (o, w') := x in
               match o with
               | Ok a =>
                   let (o0, w'0) := restore_each brt userId clientId rest (S k) w' in
                   match o0 with
                   | Ok a0 => (Ok (a ++ a0)%list, w'0)
                   | Throw e0 => (Throw e0, w'0)
                   end
               | Throw e0 => (Throw e0, w')
               end)))).
  { intros [[a|e0] w1] Hx; cbn [snd] in *; [|assumption].
    specialize (IH (S k) w1 Hx).
    destruct (restore_each brt userId clientId rest (S k) w1) as [[a0|e0] w2];
      cbn [snd] in *; assumption. }
  apply Hstep.
  destruct (with_address _ _); cbn [snd]; [|assumption].
  match goal with
  | |- context [insert_wallet ?a ?b ?c ?d ?e ?f ?g ?h w] =>
      pose proof (insert_wallet_ok a b c d e f g h w ltac:(discriminate) H) as Hins;
      destruct (insert_wallet a b c d e f g h w) as [[row|e0] w1]
  end; cbn [snd] in *; assumption.
Qed.

Lemma restoreFromBackup_ok {cipher : Crypto.PasswordCipher} brt userId backup password
    clientId w :
  wallets_ok (wallets w) ->
  wallets_ok (wallets (snd (restoreFromBackup brt userId backup password clientId w))).
Proof.
  intros H. unfold restoreFromBackup. run_eff.
  destruct (decryptBackup _ _); cbn [snd]; [|assumption].
  destruct (parse_backup _ _); cbn [snd]; [|assumption].
  destruct (negb _); cbn [snd]; [assumption|].
  pose proof (restore_each_ok brt userId clientId (bd_wallets b) 0 w H) as Hr.
  destruct (restore_each _ _ _ _ _ _) as [[rs|ex] w1]; cbn [snd] in *; assumption.
Qed.

(** The calls of the two services that reach the wallets table. *)
Inductive service_call :=
| CreateWallet (rt : WalletService.runtime) (userId : Db.uuid) (walletName : string)
    (whitelabelClientId : option Db.uuid)
| UpdateWalletBalance (rt : WalletService.runtime) (walletId : Db.uuid)
| SendUSDC (rt : WalletService.runtime) (walletId userId : Db.uuid) (toAddress : string)
    (amount : JS.value) (memo : option string)
| SetPrimaryWallet (rt : WalletService.runtime) (walletId userId : Db.uuid)
| ImportWallet (rt : BackupService.runtime) (userId : Db.uuid)
    (privateKey walletName : string) (whitelabelClientId : option Db.uuid)
| CreateBackup (rt : BackupService.runtime) (userId : Db.uuid) (password : string)
| RestoreFromBackup (rt : BackupService.runtime) (userId : Db.uuid)
    (encryptedBackup : encrypted_backup) (password : string)
    (whitelabelClientId : option Db.uuid).

(** One call run to its end, whether it returns or throws. *)
Definition run_service_call {cipher : Crypto.PasswordCipher} (c : service_call) (w : world)
    : world :=
  match c with
  | CreateWallet rt u n c => snd (createWallet rt u n c w)
  | UpdateWalletBalance rt i => snd (updateWalletBalance rt i w)
  | SendUSDC rt i u a v m => snd (WalletService.sendUSDC rt i u a v m w)
  | SetPrimaryWallet rt i u => snd (setPrimaryWallet rt i u w)
  | ImportWallet rt u k n c => snd (importWallet rt u k n c w)
  | CreateBackup rt u p => snd (createBackup rt u p w)
  | RestoreFromBackup rt u b p c => snd (restoreFromBackup rt u b p c w)
  end.

Definition run_service_calls {cipher : Crypto.PasswordCipher} (cs : list service_call)
    (w : world) : world :=
  fold_left (fun w c => run_service_call c w) cs w.

Lemma run_service_call_ok {cipher : Crypto.PasswordCipher} c w :
  wallets_ok (wallets w) -> wallets_ok (wallets (run_service_call c w)).
Proof.
  intros H. destruct c; cbn [run_service_call].
  - now apply createWallet_ok.
  - now apply updateWalletBalance_ok.
  - now rewrite sendUSDC_wallets.
  - now apply setPrimaryWallet_ok.
  - now apply importWallet_ok.
  - unfold createBackup. run_eff. destruct (active_wallets _ _); exact H.
  - now apply restoreFromBackup_ok.
Qed.

Lemma run_service_calls_ok {cipher : Crypto.PasswordCipher} cs w :
  wallets_ok (wallets w) -> wallets_ok (wallets (run_service_calls cs w)).
Proof.
  revert w. induction cs as [|c cs IH]; intros w H; cbn; [assumption|].
  apply IH. now apply run_service_call_ok.
Qed.

End PrimaryInvariant.

(** X7.  Calls run one after the other, each to its end, never leave a user with
    two primary wallets: in every state the calls of the wallet service and of
    the backup service reach from a table that has at most one primary wallet
    per user (the empty one, for instance), each user has at most one. *)
Theorem sequential_calls_keep_one_primary {cipher : Crypto.PasswordCipher}
    (calls : list PrimaryInvariant.service_call) (w : world) (u : Db.uuid) :
  table_ok (wallets w) ->
  (forall u', (primary_count u' (wallets w) <= 1)%nat) ->
  (primary_count u (wallets (PrimaryInvariant.run_service_calls calls w)) <= 1)%nat.
Proof.
  intros Hkeys Hone.
  apply (PrimaryInvariant.run_service_calls_ok calls w). split; assumption.
Qed.

(** * The backup service, call by call *)
Module BackupFacts.

Import BackupService.

Lemma with_address_nil (address : string) (ws : list Db.wallet_row) :
  with_address address ws = [] <-> ~ In address (map Db.w_address ws).
Proof.
  unfold with_address. induction ws as [|r ws IH]; cbn; [tauto|].
  destruct (String.eqb_spec (Db.w_address r) address) as [E|NE].
  - split; [discriminate | intros H; exfalso; apply H; now left].
  - rewrite IH. tauto.
Qed.

Lemma world_eq (w w' : world) :
  wallets w' = wallets w -> transactions w' = transactions w ->
  submitted w' = submitted w -> w' = w.
Proof. destruct w, w'; cbn; congruence. Qed.

(** The name and the address of a wallet of the document are no longer than
    the columns they go to, VARCHAR(100) and VARCHAR(42): the INSERT stores
    them as they are. *)
Definition fits_widths (e : backup_wallet) : Prop :=
  (String.length (bw_walletName e) <= 100)%nat /\
  (String.length (bw_address e) <= 42)%nat.

(** What every row a restore writes has, whatever the document says. *)
Definition restored_for (userId : Db.uuid) (clientId : option Db.uuid)
    (row : Db.wallet_row) : Prop :=
  Db.w_user_id row = userId /\
  Db.w_white_label_client_id row = clientId /\
  Db.w_is_primary row = false /\
  Db.w_balance_usdc row = Some 0 /\
  Db.w_status row = Db.WActive.

(** What a restore writes for one wallet of the document. *)
Definition restored_from (userId : Db.uuid) (clientId : option Db.uuid)
    (entries : list backup_wallet) (row : Db.wallet_row) : Prop :=
  Db.w_user_id row = userId /\
  Db.w_white_label_client_id row = clientId /\
  Db.w_is_primary row = false /\
  Db.w_balance_usdc row = Some 0 /\
  Db.w_status row = Db.WActive /\
  exists e, In e entries /\
            Db.w_wallet_name row = bw_walletName e /\
            Db.w_address row = bw_address e /\
            Db.w_encrypted_private_key row = bw_encryptedPrivateKey e.

Lemma restored_from_for userId clientId entries row :
  restored_from userId clientId entries row -> restored_for userId clientId row.
Proof. intros (A & B & C & D & E & _). repeat split; assumption. Qed.

Lemma restored_from_more userId clientId e entries row :
  restored_from userId clientId entries row ->
  restored_from userId clientId (e :: entries) row.
Proof.
  intros (A & B & C & D & E & e0 & Hin & F). repeat (split; [assumption|]).
  exists e0. split; [now right | exact F].
Qed.

(** The loop of a restore never throws; it appends rows, one for each wallet
    of the document it could insert. *)
Lemma restore_each_spec brt userId clientId entries k w :
  exists rs added w',
    restore_each brt userId clientId entries k w = (Ok rs, w') /\
    wallets w' = (wallets w ++ added)%list /\
    transactions w' = transactions w /\
    submitted w' = submitted w /\
    map rs_address rs = map Db.w_address added /\
    (List.length added <= List.length entries)%nat /\
    Forall (restored_from userId clientId entries) added /\
    NoDup (map Db.w_address added) /\
    (forall a, In a (map Db.w_address added) -> ~ In a (map Db.w_address (wallets w))).
Proof.
  revert k w. induction entries as [|e rest IH]; intros k w.
  - exists [], [], w. cbn. rewrite app_nil_r.
    repeat split; auto; try constructor.
  - cbn [restore_each]. run_eff.
    destruct (with_address (bw_address e) (wallets w)) eqn:Hsel.
    + (* the address is not in the table: the INSERT is tried *)
      unfold insert_wallet.
      destruct (_ || _)%bool;
        [|destruct (_ || _)%bool].
      1, 2: destruct (IH (S k) w) as (rs & added & w' & E & Hw & Ht & Hs & Hm & Hl & Hf & Hnd & Hnew);
        exists rs, added, w'; rewrite E; cbn [app];
        repeat (split; [first [assumption | reflexivity]|]);
        split; [cbn; lia|]; split; [|split; assumption];
        eapply Forall_impl; [|exact Hf]; intros row; apply restored_from_more.
      set (row := Db.mkWallet _ _ _ _ _ _ _ _ _ _ _ _).
      set (w1 := {| wallets := (wallets w ++ [row])%list;
                    transactions := transactions w; submitted := submitted w |}).
      destruct (IH (S k) w1) as (rs & added & w' & E & Hw & Ht & Hs & Hm & Hl & Hf & Hnd & Hnew).
      exists ({| rs_id := Db.w_id row; rs_address := Db.w_address row;
                 rs_wallet_name := Db.w_wallet_name row |} :: rs), (row :: added), w'.
      rewrite E. cbn [app]. split; [reflexivity|].
      split; [rewrite Hw; unfold w1; cbn [wallets]; now rewrite <- app_assoc|].
      split; [exact Ht|]. split; [exact Hs|].
      split; [cbn [map]; now rewrite Hm|].
      split; [cbn; lia|].
      assert (Hfresh : ~ In (bw_address e) (map Db.w_address (wallets w)))
        by (now apply with_address_nil).
      split; [|split].
      * constructor.
        -- unfold restored_from, row. cbn. repeat (split; [reflexivity|]).
           exists e. split; [now left|]. repeat split.
        -- eapply Forall_impl; [|exact Hf]. intros r0. apply restored_from_more.
      * cbn [map]. constructor; [|exact Hnd].
        intros Hin. apply (Hnew _ Hin). unfold w1. cbn [wallets].
        rewrite map_app. apply in_or_app. right. now left.
      * intros a [<-|Hin]; [exact Hfresh|].
        intros Hold. apply (Hnew _ Hin). unfold w1. cbn [wallets].
        rewrite map_app. apply in_or_app. now left.
    + (* the address is there already: the wallet is skipped *)
      destruct (IH (S k) w) as (rs & added & w' & E & Hw & Ht & Hs & Hm & Hl & Hf & Hnd & Hnew).
      exists rs, added, w'. rewrite E. cbn [app].
      repeat (split; [first [assumption | reflexivity]|]).
      split; [cbn; lia|]. split; [|split; assumption].
      eapply Forall_impl; [|exact Hf]. intros row. apply restored_from_more.
Qed.

End BackupFacts.

Import BackupService.

(** X8.  restoreFromBackup, outcome by outcome, for a backup whose text is
    unreadable or a document of the shape createBackup writes, whoever wrote
    it.  Transactions and transfers are not touched, and no row that was in
    the wallets table changes.  It throws for one of three reasons (the
    backup does not decrypt under the password, the text is not readable, the
    version is not 1.0), and nothing was written then.  When it returns, the
    rows it appended are as many as it reports, at most one for each wallet
    of the document; they belong to the caller, whoever the document names as
    its user, are tagged with the caller's client, are active, have balance 0
    and are not primary.  For a document whose names and addresses fit their
    columns (at most 100 and 42 bytes), each row carries the name, address
    and encrypted key of a wallet of the document, none has an address that
    was in the table, and no address is restored twice. *)
Theorem restoreFromBackup_outcomes {cipher : Crypto.PasswordCipher}
    (brt : BackupService.runtime) (userId : Db.uuid) (encryptedBackup : encrypted_backup)
    (password : string) (clientId : option Db.uuid) (w w' : world)
    (r : outcome restore_result) :
  restoreFromBackup brt userId encryptedBackup password clientId w = (r, w') ->
  transactions w' = transactions w /\
  submitted w' = submitted w /\
  match r with
  | Throw e =>
      w' = w /\
      (decryptBackup encryptedBackup password = Throw e
       \/
       exists text,
         decryptBackup encryptedBackup password = Ok text /\
         (parse_backup brt text = None /\ e = SyntaxError
          \/
          exists document,
            parse_backup brt text = Some document /\
            bd_version document <> "1.0" /\
            e = Error "Unsupported backup version"))
  | Ok v =>
      exists text document added,
        decryptBackup encryptedBackup password = Ok text /\
        parse_backup brt text = Some document /\
        bd_version document = "1.0" /\
        wallets w' = (wallets w ++ added)%list /\
        rr_totalInBackup v = List.length (bd_wallets document) /\
        rr_restoredCount v = List.length added /\
        map rs_address (rr_restoredWallets v) = map Db.w_address added /\
        (rr_restoredCount v <= rr_totalInBackup v)%nat /\
        Forall (BackupFacts.restored_for userId clientId) added /\
        (Forall BackupFacts.fits_widths (bd_wallets document) ->
         Forall (BackupFacts.restored_from userId clientId (bd_wallets document)) added /\
         NoDup (map Db.w_address added) /\
         (forall row, In row added ->
                      ~ In (Db.w_address row) (map Db.w_address (wallets w))))
  end.
Proof.
  unfold restoreFromBackup. run_eff.
  destruct (decryptBackup encryptedBackup password) as [text|e];
    [|intros [= <- <-]; auto].
  destruct (parse_backup brt text) as [document|] eqn:Hparse;
    [|intros [= <- <-]; repeat split; right; exists text; auto].
  destruct (String.eqb_spec (bd_version document) "1.0") as [Hv|Hv]; cbn [negb];
    [|intros [= <- <-]; repeat split; right; exists text; split; [reflexivity|];
      right; exists document; auto].
  destruct (BackupFacts.restore_each_spec brt userId clientId (bd_wallets document) 0 w)
    as (rs & added & w1 & E & Hw & Ht & Hs & Hm & Hl & Hf & Hnd & Hnew).
  rewrite E. intros [= <- <-].
  split; [exact Ht|]. split; [exact Hs|].
  exists text, document, added. cbn [rr_totalInBackup rr_restoredCount rr_restoredWallets].
  assert (Hlen : List.length rs = List.length added).
  { apply (f_equal (@List.length _)) in Hm. now rewrite !length_map in Hm. }
  repeat (split; [first [assumption | reflexivity | lia]|]).
  split.
  - eapply Forall_impl; [|exact Hf]. intros row. apply BackupFacts.restored_from_for.
  - intros _. split; [exact Hf|]. split; [exact Hnd|].
    intros row Hin. apply Hnew. now apply in_map.
Qed.

(** X9.  A restore changes no user's primary wallet, and gives none: a user whose
    wallets all come from a restore has no primary wallet, and a createWallet
    after it does not make its wallet primary either. *)
Theorem restored_wallets_have_no_primary {cipher : Crypto.PasswordCipher}
    (brt : BackupService.runtime) (rt : WalletService.runtime) (userId : Db.uuid)
    (encryptedBackup : encrypted_backup) (password : string)
    (clientId clientId' : option Db.uuid) (walletName : string)
    (w w1 w2 : world) (v : restore_result) (c : created_wallet) :
  restoreFromBackup brt userId encryptedBackup password clientId w = (Ok v, w1) ->
  (forall u, primary_count u (wallets w1) = primary_count u (wallets w)) /\
  (rr_restoredCount v <> 0%nat ->
   createWallet rt userId walletName clientId' w1 = (Ok c, w2) ->
   cw_isPrimary c = false /\
   primary_count userId (wallets w2) = primary_count userId (wallets w)).
Proof.
  intros H.
  unfold restoreFromBackup in H. run_eff.
  destruct (decryptBackup encryptedBackup password) as [text|e]; [|discriminate].
  destruct (parse_backup brt text) as [document|]; [|discriminate].
  destruct (negb _); [discriminate|].
  destruct (BackupFacts.restore_each_spec brt userId clientId (bd_wallets document) 0 w)
    as (rs & added & w' & E & Hw & Ht & Hs & Hm & Hl & Hf & Hnd & Hnew).
  rewrite E in H. injection H as <- <-. cbn [rr_restoredCount].
  assert (Hlen : List.length rs = List.length added).
  { apply (f_equal (@List.length _)) in Hm. now rewrite !length_map in Hm. }
  assert (Hzero : forall u, primary_count u added = 0%nat).
  { intros u. unfold primary_count. clear - Hf.
    induction Hf as [|row l (_ & _ & Hp & _) _ IH]; [reflexivity|].
    cbn [filter]. rewrite Hp, andb_false_r. exact IH. }
  assert (Hcount : forall u, primary_count u (wallets w') = primary_count u (wallets w)).
  { intros u. rewrite Hw, PrimaryInvariant.primary_count_app, Hzero. lia. }
  split; [exact Hcount|].
  intros Hsome Hcreate.
  apply createWallet_steps in Hcreate as [[[e He] _]|(gw & _ & _ & _ & Hc)];
    [discriminate|].
  destruct Hc as [[[e He] _]|(z & c' & [= <-] & _ & Hp & ->)]; [discriminate|].
  assert (Hrows : List.length (filter (fun x => String.eqb (Db.w_user_id x) userId)
                                      (wallets w')) <> 0%nat).
  { rewrite Hw, filter_app, length_app.
    destruct added as [|row l]; [cbn in Hlen; lia|].
    apply Forall_inv in Hf. destruct Hf as (Hu & _).
    cbn [filter]. rewrite Hu, String.eqb_refl. cbn. lia. }
  apply Nat.eqb_neq in Hrows. rewrite Hrows in Hp.
  split; [exact Hp|].
  cbn [wallets with_wallets]. rewrite PrimaryInvariant.primary_count_app, Hcount.
  unfold primary_count at 2.
  cbn [filter set_balance inserted_row Db.w_user_id Db.w_is_primary].
  rewrite Hrows, andb_false_r. cbn. lia.
Qed.

(** X10.  A backup restored into the database it was taken from restores nothing:
    every address of the document is in the table (rows are never removed, a
    deleted wallet keeps its row), so each wallet is skipped, for whichever
    user asks, and the store is left as it was. *)
Theorem restore_where_backed_up_restores_nothing {cipher : Crypto.PasswordCipher}
    (brt brt' : BackupService.runtime) (userId userId' : Db.uuid) (password : string)
    (clientId : option Db.uuid) (w w1 : world) (v : backup_result) :
  parse_backup brt'
    (stringify_backup brt
       {| bd_version := "1.0";
          bd_timestamp := BackupService.toISOString brt (NOW (base brt));
          bd_userId := userId;
          bd_wallets := map (backup_entry brt) (active_wallets userId (wallets w)) |})
  = Some {| bd_version := "1.0";
            bd_timestamp := BackupService.toISOString brt (NOW (base brt));
            bd_userId := userId;
            bd_wallets := map (backup_entry brt) (active_wallets userId (wallets w)) |} ->
  createBackup brt userId password w = (Ok v, w1) ->
  w1 = w /\
  restoreFromBackup brt' userId' (br_backup v) password clientId w1
  = (Ok {| rr_restoredWallets := [];
           rr_totalInBackup := br_walletCount v;
           rr_restoredCount := 0 |}, w).
Proof.
  intros Hcodec Hbackup.
  unfold createBackup in Hbackup. run_eff.
  destruct (active_wallets userId (wallets w)) as [|row0 rows0] eqn:Hactive;
    [discriminate|].
  rewrite <- Hactive in *. injection Hbackup as <- <-.
  split; [reflexivity|].
  unfold restoreFromBackup. run_eff. cbn [br_backup br_walletCount].
  rewrite decryptBackup_encryptBackup, Hcodec. cbn [bd_version bd_wallets].
  change (negb ("1.0" =? "1.0")%string) with false. cbv iota beta.
  assert (Hall : forall entries k,
            incl entries (map (backup_entry brt) (active_wallets userId (wallets w))) ->
            restore_each brt' userId' clientId entries k w = (Ok [], w)).
  { induction entries as [|e rest IH]; intros k Hincl; [reflexivity|].
    cbn [restore_each]. run_eff.
    destruct (with_address (bw_address e) (wallets w)) eqn:Hsel.
    - exfalso. apply BackupFacts.with_address_nil in Hsel. apply Hsel.
      assert (Hin : In e (map (backup_entry brt) (active_wallets userId (wallets w))))
        by (apply Hincl; now left).
      apply in_map_iff in Hin as (x & <- & Hx).
      apply filter_In in Hx as [Hx _]. cbn [bw_address backup_entry].
      now apply in_map.
    - rewrite IH by (intros x Hx; apply Hincl; now right). reflexivity. }
  rewrite Hall by apply incl_refl. cbn [List.length]. now rewrite length_map.
Qed.

(** X11.  importWallet, outcome by outcome.  Either it throws with the store as it
    was, or it has appended one active row for the caller under the address
    ethers derives from the key, an address no row had; the row is primary
    exactly when the caller had no row, its balance is 0 and was not read from
    the chain, and the key it stores decrypts, under the process secret, to
    the key that was imported. *)
Theorem importWallet_outcomes {cipher : Crypto.PasswordCipher}
    (brt : BackupService.runtime) (userId : Db.uuid) (privateKey walletName : string)
    (clientId : option Db.uuid) (w w' : world) (r : outcome imported_wallet) :
  importWallet brt userId privateKey walletName clientId w = (r, w') ->
  ((exists e, r = Throw e) /\ w' = w)
  \/
  exists v address row key,
    r = Ok v /\
    address_of_key brt privateKey = Some address /\
    ~ In address (map Db.w_address (wallets w)) /\
    wallets w' = (wallets w ++ [row])%list /\
    transactions w' = transactions w /\
    submitted w' = submitted w /\
    Db.w_id row = iw_id v /\
    Db.w_user_id row = userId /\
    Db.w_white_label_client_id row = clientId /\
    Db.w_wallet_name row = walletName /\
    Db.w_address row = address /\
    Db.w_status row = Db.WActive /\
    Db.w_balance_usdc row = Some 0 /\
    Db.w_last_balance_update row = None /\
    Db.w_is_primary row
      = Nat.eqb (List.length (filter (fun x => String.eqb (Db.w_user_id x) userId)
                                     (wallets w))) 0 /\
    iw_isPrimary v = Db.w_is_primary row /\
    Db.w_encrypted_private_key row = WalletService.JSON_stringify (base brt) key /\
    decryptPrivateKey (blockchainService (base brt)) key = Ok privateKey.
Proof.
  unfold importWallet.
  destruct (address_of_key brt privateKey) as [address|]; [|intros [= <- <-]; left; eauto].
  run_eff.
  destruct (with_address address (wallets w)) eqn:Hsel; [|intros [= <- <-]; left; eauto].
  apply BackupFacts.with_address_nil in Hsel.
  destruct (encryptPrivateKey _ privateKey) as [key|e] eqn:Henc;
    [|intros [= <- <-]; left; eauto].
  unfold insert_wallet.
  destruct (_ || _)%bool; [intros [= <- <-]; left; eauto|].
  destruct (_ || _)%bool; [intros [= <- <-]; left; eauto|].
  intros [= <- <-]. right. rewrite count_is_zero.
  eexists _, address, _, key. cbn.
  repeat (split; [first [reflexivity | assumption]|]).
  now apply (decryptPrivateKey_encryptPrivateKey (blockchainService (base brt))).
Qed.

(** X12.  What importWallet refuses.  A key whose address is in the table, under
    any user and in any status, is refused with the service's message.  A
    name the caller already has is not checked by the service: with the
    process secret set, the INSERT is refused by UNIQUE(user_id, wallet_name)
    and the call throws the database error 23505.  The store is left as it
    was in both cases. *)
Theorem importWallet_rejections {cipher : Crypto.PasswordCipher}
    (brt : BackupService.runtime) (userId : Db.uuid) (privateKey walletName : string)
    (clientId : option Db.uuid) (w : world) (address : string) :
  address_of_key brt privateKey = Some address ->
  ((exists x, In x (wallets w) /\ Db.w_address x = address) ->
   importWallet brt userId privateKey walletName clientId w
     = (Throw (Error "Wallet with this address already exists"), w)) /\
  (~ In address (map Db.w_address (wallets w)) ->
   encryptionKey (blockchainService (base brt)) <> None ->
   (exists x, In x (wallets w) /\ Db.w_user_id x = userId /\
              Db.w_wallet_name x = walletName) ->
   importWallet brt userId privateKey walletName clientId w
     = (Throw (DbError unique_violation), w)).
Proof.
  intros Haddr. unfold importWallet. rewrite Haddr. run_eff. split.
  - intros (x & Hx & Ex).
    destruct (with_address address (wallets w)) eqn:Hsel; [|reflexivity].
    apply BackupFacts.with_address_nil in Hsel. exfalso. apply Hsel.
    rewrite <- Ex. now apply in_map.
  - intros Hnew Hsecret (x & Hx & Eu & En).
    apply BackupFacts.with_address_nil in Hnew. rewrite Hnew.
    unfold encryptPrivateKey.
    destruct (encryptionKey (blockchainService (base brt))); [|congruence].
    destruct (Crypto.seal _ _) as [ct tag].
    unfold insert_wallet.
    rewrite (existsb_name_true userId walletName (wallets w) x Hx Eu En).
    rewrite orb_true_r. reflexivity.
Qed.

(** X13.  createBackup writes nothing.  It throws when the caller has no active
    wallet; otherwise the backup it returns decrypts, under the password it
    was made with, to the serialized document that lists the caller's active
    wallets in table order, frozen and deleted ones left out, each with its
    name, address, stored key and primary flag. *)
Theorem createBackup_contents {cipher : Crypto.PasswordCipher}
    (brt : BackupService.runtime) (userId : Db.uuid) (password : string) (w : world) :
  snd (createBackup brt userId password w) = w /\
  (active_wallets userId (wallets w) = [] ->
   fst (createBackup brt userId password w) = Throw (Error "No wallets found to backup")) /\
  (active_wallets userId (wallets w) <> [] ->
   exists v,
     fst (createBackup brt userId password w) = Ok v /\
     br_walletCount v = List.length (active_wallets userId (wallets w)) /\
     decryptBackup (br_backup v) password
       = Ok (stringify_backup brt
               {| bd_version := "1.0";
                  bd_timestamp := BackupService.toISOString brt (NOW (base brt));
                  bd_userId := userId;
                  bd_wallets :=
                    map (fun x =>
                           {| bw_id := Db.w_id x;
                              bw_walletName := Db.w_wallet_name x;
                              bw_address := Db.w_address x;
                              bw_encryptedPrivateKey := Db.w_encrypted_private_key x;
                              bw_isPrimary := Db.w_is_primary x;
                              bw_createdAt :=
                                BackupService.toISOString brt (Db.w_created_at x) |})
                        (filter (fun x => String.eqb (Db.w_user_id x) userId
                                          && Db.wallet_status_eqb (Db.w_status x) Db.WActive)
                                (wallets w)) |})).
Proof.
  unfold createBackup. run_eff.
  change (filter (fun x => String.eqb (Db.w_user_id x) userId
                           && Db.wallet_status_eqb (Db.w_status x) Db.WActive) (wallets w))
    with (active_wallets userId (wallets w)).
  destruct (active_wallets userId (wallets w)) as [|row rows] eqn:E.
  - repeat split; auto. congruence.
  - split; [reflexivity|]. split; [discriminate|]. intros _.
    eexists. split; [reflexivity|]. split; [reflexivity|].
    cbn [br_backup]. apply decryptBackup_encryptBackup.
Qed.

(** A setting for the backup service: two known keys, and a codec that writes
    the document's fields between separators no field contains. *)
Module BackupCases.

Import BackupService.

Fixpoint split_on (c : ascii) (s cur : string) : list string :=
  match s with
  | EmptyString => [cur]
  | String x s' =>
      if Ascii.eqb x c then cur :: split_on c s' ""
      else split_on c s' (cur ++ String x "")
  end.

Definition entry_text (e : backup_wallet) : string :=
  String.concat "|"
    [bw_id e; bw_walletName e; bw_address e; bw_encryptedPrivateKey e;
     if bw_isPrimary e then "true" else "false"; bw_createdAt e].

Definition entry_of_text (t : string) : option backup_wallet :=
  match split_on "|" t "" with
  | [i; n; a; k; p; c] =>
      if String.eqb p "true" then Some (mkBackupWallet i n a k true c)
      else if String.eqb p "false" then Some (mkBackupWallet i n a k false c)
      else None
  | _ => None
  end.

Fixpoint all_some {A} (l : list (option A)) : option (list A) :=
  match l with
  | [] => Some []
  | Some a :: l' => option_map (cons a) (all_some l')
  | None :: _ => None
  end.

Definition document_text (d : backup_data) : string :=
  String.concat "#"
    [bd_version d; bd_timestamp d; bd_userId d;
     String.concat ";" (map entry_text (bd_wallets d))].

Definition document_of_text (t : string) : option backup_data :=
  match split_on "#" t "" with
  | [v; ts; u; ws] =>
      option_map (mkBackupData v ts u)
        (if String.eqb ws "" then Some []
         else all_some (map entry_of_text (split_on ";" ws "")))
  | _ => None
  end.

Definition example_address_of_key (privateKey : string) : option string :=
  if String.eqb privateKey "0xabc123"
  then Some "0x1111111111111111111111111111111111111111"
  else if String.eqb privateKey "0xdef456"
  then Some "0x5555555555555555555555555555555555555555"
  else None.

Definition backup_runtime (id : Db.uuid) (now : Db.time) : BackupService.runtime :=
  {| base := Example.example_runtime id now;
     address_of_key := example_address_of_key;
     BackupService.toISOString := fun t => JS.N_text (Z.to_N t);
     stringify_backup := document_text;
     parse_backup := document_of_text;
     random_salt := [Byte.x0a; Byte.x0b; Byte.x0c; Byte.x0d];
     random_iv := [Byte.x01; Byte.x02];
     uuid_supply := fun k => "r-" ++ Db.nat_text k |}.

(** alice creates a wallet and imports another. *)
Definition alice_world : world :=
  Eval vm_compute in
    snd (importWallet (cipher := Example.example_cipher) (backup_runtime "w-5" 5000)
           "alice" "0xdef456" "cold" None (snd Example.after_first)).

(** The document of alice's two wallets, and its encryption under a
    password. *)
Definition alice_document : backup_data :=
  {| bd_version := "1.0";
     bd_timestamp := "8000";
     bd_userId := "alice";
     bd_wallets :=
       map (backup_entry (backup_runtime "-" 8000))
           (active_wallets "alice" (wallets alice_world)) |}.

Definition alice_backup : encrypted_backup :=
  encryptBackup (cipher := Example.example_cipher)
    [Byte.x0a; Byte.x0b; Byte.x0c; Byte.x0d] [Byte.x01; Byte.x02]
    (document_text alice_document) "correct horse".

Lemma alice_document_reads_back :
  document_of_text (document_text alice_document) = Some alice_document.
Proof. vm_compute. reflexivity. Qed.

(** bob restores alice's backup into a database that has none of its
    wallets. *)
Lemma bob_restores_alice_backup :
  exists v w1,
    restoreFromBackup (cipher := Example.example_cipher) (backup_runtime "-" 9000) "bob"
      alice_backup "correct horse" None empty_world = (Ok v, w1) /\
    rr_totalInBackup v = 2%nat /\
    rr_restoredCount v = 2%nat /\
    map Db.w_user_id (wallets w1) = ["bob"; "bob"] /\
    map Db.w_is_primary (wallets w1) = [false; false].
Proof.
  unfold restoreFromBackup, alice_backup. run_eff.
  rewrite decryptBackup_encryptBackup.
  change (parse_backup (backup_runtime "-" 9000)) with document_of_text.
  rewrite alice_document_reads_back.
  eexists _, _. split; [vm_compute; reflexivity|].
  repeat split; reflexivity.
Qed.

End BackupCases.

Lemma sequential_calls_keep_one_primary_witness :
  Nat.le
    (primary_count "alice"
     (wallets
        (PrimaryInvariant.run_service_calls (cipher := Example.example_cipher)
           [PrimaryInvariant.CreateWallet (Example.example_runtime "w-1" 1000)
              "alice" "main" None;
            PrimaryInvariant.ImportWallet (BackupCases.backup_runtime "w-5" 5000)
              "alice" "0xdef456" "cold" None;
            PrimaryInvariant.SetPrimaryWallet (Example.example_runtime "-" 6000)
              "w-5" "alice";
            PrimaryInvariant.RestoreFromBackup (BackupCases.backup_runtime "-" 9000)
              "alice" BackupCases.alice_backup "correct horse" None;
            PrimaryInvariant.CreateWallet (Example.example_runtime "w-7" 9500)
              "alice" "spare" None]
           empty_world))) 1.
Proof.
  apply (sequential_calls_keep_one_primary (cipher := Example.example_cipher)).
  - split; constructor.
  - intros u'. cbn. lia.
Defined.

Lemma restoreFromBackup_outcomes_witness :
  exists v w1 added,
    restoreFromBackup (cipher := Example.example_cipher)
      (BackupCases.backup_runtime "-" 9000) "bob" BackupCases.alice_backup
      "correct horse" None empty_world = (Ok v, w1) /\
    wallets w1 = added /\
    rr_restoredCount v = List.length added /\
    Forall BackupFacts.fits_widths (bd_wallets BackupCases.alice_document) /\
    NoDup (map Db.w_address added) /\
    Forall (BackupFacts.restored_from "bob" None (bd_wallets BackupCases.alice_document))
           added.
Proof.
  destruct BackupCases.bob_restores_alice_backup as (v & w1 & E & _).
  pose proof (restoreFromBackup_outcomes (cipher := Example.example_cipher)
                _ _ _ _ _ _ _ _ E) as (_ & _ & text & document & added & Hd & Hp & _ & Hw
                                        & _ & Hc & _ & _ & _ & Hfit).
  assert (Hwidths : Forall BackupFacts.fits_widths (bd_wallets BackupCases.alice_document))
    by (repeat constructor; cbn; lia).
  exists v, w1, added. split; [exact E|]. split; [exact Hw|]. split; [exact Hc|].
  split; [exact Hwidths|].
  unfold BackupCases.alice_backup in Hd. rewrite decryptBackup_encryptBackup in Hd.
  injection Hd as <-.
  change (parse_backup (BackupCases.backup_runtime "-" 9000))
    with BackupCases.document_of_text in Hp.
  rewrite BackupCases.alice_document_reads_back in Hp. injection Hp as <-.
  destruct (Hfit Hwidths) as (Hf & Hnd & _).
  split; [exact Hnd | exact Hf].
Defined.

Lemma restored_wallets_have_no_primary_witness :
  exists v w1,
    restoreFromBackup (cipher := Example.example_cipher)
      (BackupCases.backup_runtime "-" 9000) "bob" BackupCases.alice_backup
      "correct horse" None empty_world = (Ok v, w1) /\
    List.length (wallets w1) = 2%nat /\
    primary_count "bob" (wallets w1) = 0%nat.
Proof.
  destruct BackupCases.bob_restores_alice_backup as (v & w1 & E & _ & _ & Hu & _).
  exists v, w1. split; [exact E|].
  split; [apply (f_equal (@List.length _)) in Hu; now rewrite length_map in Hu|].
  exact (proj1 (restored_wallets_have_no_primary (cipher := Example.example_cipher)
                  _ (Example.example_runtime "w-8" 9900) _ _ _ _ None "new" _ _
                  empty_world _
                  (mkCreated "" "" "" false "" 0) E) "bob").
Defined.

Lemma restore_where_backed_up_restores_nothing_witness :
  exists v,
    createBackup (cipher := Example.example_cipher) (BackupCases.backup_runtime "-" 8000)
      "alice" "correct horse" BackupCases.alice_world = (Ok v, BackupCases.alice_world) /\
    br_walletCount v = 2%nat /\
    restoreFromBackup (cipher := Example.example_cipher)
      (BackupCases.backup_runtime "-" 9000) "bob" (br_backup v) "correct horse" None
      BackupCases.alice_world
    = (Ok {| rr_restoredWallets := []; rr_totalInBackup := 2; rr_restoredCount := 0 |},
       BackupCases.alice_world).
Proof.
  eexists. split; [reflexivity|]. split; [reflexivity|].
  apply (restore_where_backed_up_restores_nothing (cipher := Example.example_cipher)
           (BackupCases.backup_runtime "-" 8000) (BackupCases.backup_runtime "-" 9000)
           "alice" "bob" "correct horse" None BackupCases.alice_world
           BackupCases.alice_world).
  - exact BackupCases.alice_document_reads_back.
  - reflexivity.
Defined.

Lemma importWallet_outcomes_witness :
  exists v w' row key,
    importWallet (cipher := Example.example_cipher) (BackupCases.backup_runtime "w-5" 5000)
      "alice" "0xdef456" "cold" None (snd Example.after_first) = (Ok v, w') /\
    wallets w' = (wallets (snd Example.after_first) ++ [row])%list /\
    Db.w_address row = "0x5555555555555555555555555555555555555555" /\
    Db.w_is_primary row = false /\
    Db.w_balance_usdc row = Some 0 /\
    Db.w_encrypted_private_key row = Example.example_stringify key /\
    decryptPrivateKey (cipher := Example.example_cipher) Example.example_service key
      = Ok "0xdef456".
Proof.
  destruct (importWallet (cipher := Example.example_cipher)
              (BackupCases.backup_runtime "w-5" 5000) "alice" "0xdef456" "cold" None
              (snd Example.after_first)) as [r w'] eqn:E.
  destruct (importWallet_outcomes (cipher := Example.example_cipher) _ _ _ _ _ _ _ _ E)
    as [[[e He] _]|(v & address & row & key & -> & Ha & _ & Hw & _ & _ & _ & _ & _ & _
                    & Hadd & _ & Hb & _ & Hp & _ & Hk & Hd)].
  - exfalso. subst r. vm_compute in E. discriminate.
  - exists v, w', row, key. split; [reflexivity|]. split; [exact Hw|].
    split; [rewrite Hadd; vm_compute in Ha; congruence|].
    split; [rewrite Hp; reflexivity|]. split; [exact Hb|]. split; [exact Hk|exact Hd].
Defined.

Lemma importWallet_rejections_witness :
  importWallet (cipher := Example.example_cipher) (BackupCases.backup_runtime "w-6" 6000)
    "bob" "0xabc123" "mine" None (snd Example.after_first)
  = (Throw (Error "Wallet with this address already exists"), snd Example.after_first) /\
  importWallet (cipher := Example.example_cipher) (BackupCases.backup_runtime "w-6" 6000)
    "alice" "0xdef456" "main" None (snd Example.after_first)
  = (Throw (DbError unique_violation), snd Example.after_first).
Proof.
  split.
  - apply (proj1 (importWallet_rejections (cipher := Example.example_cipher)
                    (BackupCases.backup_runtime "w-6" 6000) "bob" "0xabc123" "mine" None
                    (snd Example.after_first) _ eq_refl)).
    eexists. split; [now left | reflexivity].
  - apply (proj2 (importWallet_rejections (cipher := Example.example_cipher)
                    (BackupCases.backup_runtime "w-6" 6000) "alice" "0xdef456" "main" None
                    (snd Example.after_first) _ eq_refl)).
    + cbn. intros [H|[]]. discriminate.
    + discriminate.
    + eexists. split; [now left | split; reflexivity].
Defined.

(** * More of the transaction route *)

Lemma select_for_user_update_status txHash userId status confirmations confirmed_at w :
  select_for_user txHash userId (update_status txHash status confirmations confirmed_at w)
  = map (set_chain_status status confirmations confirmed_at)
        (select_for_user txHash userId w).
Proof.
  unfold select_for_user, update_status. cbn [transactions wallets].
  induction (transactions w) as [|t ts IH]; [reflexivity|].
  cbn [map flat_map]. rewrite map_app, IH. f_equal.
  destruct (String.eqb (Db.t_transaction_hash t) txHash) eqn:E.
  - cbn [set_chain_status Db.t_transaction_hash Db.t_wallet_id]. rewrite E.
    now rewrite map_map.
  - rewrite E. reflexivity.
Qed.

Lemma tx_status_eqb_refl (s : Db.tx_status) : Db.tx_status_eqb s s = true.
Proof. now destruct s. Qed.

(** X14.  Reconciliation is idempotent while the node's answer stays the same: a
    second GET of the same hash by the same user, at any later time, returns
    the response of the first and writes nothing. *)
Theorem reconciliation_is_idempotent (blockchainService : Blockchain.service)
    (now now' : Db.time) (userId : Db.uuid) (txHash : string) (w : world) :
  get_by_hash blockchainService now' userId txHash
    (snd (get_by_hash blockchainService now userId txHash w))
  = get_by_hash blockchainService now userId txHash w.
Proof.
  unfold get_by_hash. run_eff.
  destruct (negb (String.length txHash =? 66)%nat); cbn [snd]; [reflexivity|].
  destruct (select_for_user txHash userId w) as [|row others] eqn:Hsel; cbn [snd].
  - rewrite Hsel. reflexivity.
  - destruct (getTransaction blockchainService txHash) as [chainTx|e]; cbn [snd];
      [|rewrite Hsel; reflexivity].
    destruct (Db.tx_status_eqb (c_status chainTx) (Db.t_status row)) eqn:Hst;
      cbn [negb snd].
    + rewrite Hsel, Hst. reflexivity.
    + rewrite select_for_user_update_status, Hsel. cbn [map].
      cbn [set_chain_status Db.t_status Db.t_memo Db.t_transaction_type].
      rewrite tx_status_eqb_refl. reflexivity.
Qed.

(** The columns of a transaction row that reconciliation never writes. *)
Definition written_once (t : Db.tx_row) :=
  (Db.t_id t, Db.t_wallet_id t, Db.t_transaction_hash t, Db.t_from_address t,
   Db.t_to_address t, Db.t_amount t, Db.t_gas_used t, Db.t_gas_price t,
   Db.t_transaction_type t, Db.t_memo t, Db.t_created_at t).

(** X15.  The handler of GET /:txHash always answers.  It writes nothing to wallets
    or transfers, and of a transaction row only status, confirmations and
    confirmed_at, rows staying in place.  Any answer other than 200 leaves the
    store as it was; a hash with no transaction in a wallet of the caller is
    answered 400 (not 66 characters) or 404, and the node is not what decides:
    the answer is the same under any chain adapter.  And where the node
    reports the status that is stored, nothing is written, the stored
    confirmations included. *)
Theorem get_by_hash_always_answers (blockchainService : Blockchain.service)
    (now : Db.time) (userId : Db.uuid) (txHash : string) (w : world) :
  exists resp w',
    get_by_hash blockchainService now userId txHash w = (Ok resp, w') /\
    wallets w' = wallets w /\
    submitted w' = submitted w /\
    map written_once (transactions w') = map written_once (transactions w) /\
    (http_status resp = 200 \/ w' = w) /\
    (select_for_user txHash userId w = [] ->
     (http_status resp = 400 \/ http_status resp = 404) /\ w' = w /\
     forall otherService now',
       get_by_hash otherService now' userId txHash w = (Ok resp, w)) /\
    (forall row others chainTx,
       select_for_user txHash userId w = row :: others ->
       getTransaction blockchainService txHash = Ok chainTx ->
       c_status chainTx = Db.t_status row ->
       w' = w).
Proof.
  unfold get_by_hash. run_eff.
  destruct (negb (String.length txHash =? 66)%nat) eqn:Hlen.
  { eexists _, _. split; [reflexivity|]. repeat split; auto.
    all: cbn; auto. }
  destruct (select_for_user txHash userId w) as [|row others] eqn:Hsel.
  { eexists _, _. split; [reflexivity|]. repeat split; auto; try discriminate.
    all: cbn; auto. }
  destruct (getTransaction blockchainService txHash) as [chainTx|e] eqn:Hchain.
  2:{ eexists _, _. split; [reflexivity|]. repeat split; auto; discriminate. }
  destruct (Db.tx_status_eqb_spec (c_status chainTx) (Db.t_status row)) as [Hst|Hst];
    cbn [negb].
  - eexists _, _. split; [reflexivity|]. repeat split; auto; discriminate.
  - eexists _, _. split; [reflexivity|]. cbn [wallets submitted transactions update_status].
    repeat split; auto; try discriminate.
    + rewrite map_map. apply map_ext. intros t.
      destruct (String.eqb (Db.t_transaction_hash t) txHash); reflexivity.
    + intros row0 others0 chainTx0 [= <- <-] [= <-] E. contradiction.
Qed.

(** * Tenant detection (middleware/whitelabel.js, applyWhitelabelConfig) *)
Module Tenants.

(** white_label_clients, the columns the middleware reads. *)
Record client_row := mkClientRow {
  cl_id : Db.uuid;
  cl_client_name : string;
  cl_subdomain : string;
  cl_custom_domain : option string;
  cl_brand_config : option string;
  cl_features_config : option features_config;
  cl_is_active : bool
}.

(** What the middleware attaches to the request. *)
Record resolved_client := mkResolved {
  r_config : client_config;
  r_brandConfig : option string
}.

(** Whether the database answers each of the two lookups. *)
Record lookups := mkLookups {
  subdomain_query_answers : bool;
  domain_query_answers : bool
}.

(** The capture of [/^([^.]+)\./]: the characters before the first dot, when
    there is a dot and at least one character before it. *)
Fixpoint before_first_dot (s : string) : option string :=
  match s with
  | EmptyString => None
  | String c s' =>
      if Ascii.eqb c "." then Some ""
      else option_map (String c) (before_first_dot s')
  end.

Definition subdomainMatch (host : string) : option string :=
  match before_first_dot host with
  | Some "" => None
  | m => m
  end.

Definition config_of (row : client_row) : resolved_client :=
  {| r_config := mkClient (cl_id row) (cl_client_name row) (cl_features_config row);
     r_brandConfig := cl_brand_config row |}.

(** WHERE subdomain = $1 AND is_active = true *)
Definition by_subdomain (subdomain : string) (clients : list client_row) : list client_row :=
  filter (fun c => String.eqb (cl_subdomain c) subdomain && cl_is_active c) clients.

(** WHERE custom_domain = $1 AND is_active = true *)
Definition by_custom_domain (host : string) (clients : list client_row) : list client_row :=
  filter (fun c => WalletService.opt_eqb (cl_custom_domain c) host && cl_is_active c) clients.

(** The body of [if (host) { ... }]: the subdomain lookup, then the custom
    domain lookup when the first found nothing; a lookup that throws is logged
    and counts as finding nothing. *)
Definition detect_client (s : lookups) (clients : list client_row) (host : string)
    : option resolved_client :=
  let fromSubdomain :=
    match subdomainMatch host with
    | Some subdomain =>
        if negb (String.eqb subdomain "www") && negb (String.eqb subdomain "api") then
          if subdomain_query_answers s then
            match by_subdomain subdomain clients with
            | row :: _ => Some (config_of row)
            | [] => None
            end
          else None
        else None
    | None => None
    end in
  match fromSubdomain with
  | Some clientConfig => Some clientConfig
  | None =>
      if domain_query_answers s then
        match by_custom_domain host clients with
        | row :: _ => Some (config_of row)
        | [] => None
        end
      else None
  end.

(** applyWhitelabelConfig: what it leaves in [req.whitelabelClient]; the
    request always goes on.  A Host header that is absent or empty is not
    looked up. *)
Definition applyWhitelabelConfig (s : lookups) (clients : list client_row)
    (host : option string) : option resolved_client :=
  match host with
  | None => None
  | Some host => if String.eqb host "" then None else detect_client s clients host
  end.

(** The request the later middleware sees. *)
Definition request_of (resolved : option resolved_client) (userId : option Db.uuid)
    (amount : JS.value) : request :=
  mkRequest (option_map r_config resolved) userId amount.

End Tenants.

Import Tenants.

Lemma filter_head_In {A} (f : A -> bool) (l : list A) (a : A) (rest : list A) :
  filter f l = a :: rest -> In a l /\ f a = true.
Proof.
  intros H. apply filter_In. rewrite H. now left.
Qed.

Lemma by_custom_domain_head host clients row rest :
  by_custom_domain host clients = row :: rest ->
  In row clients /\ cl_is_active row = true /\ cl_custom_domain row = Some host.
Proof.
  intros Hf. apply filter_head_In in Hf as [Hin Hsat].
  apply andb_true_iff in Hsat as [Hdom Hact]. repeat split; auto.
  unfold WalletService.opt_eqb in Hdom.
  destruct (cl_custom_domain row); [|discriminate].
  apply String.eqb_eq in Hdom. congruence.
Qed.

(** Where a resolved tenant comes from. *)
Lemma resolved_client_origin (s : lookups) (clients : list client_row) (host : string)
    (resolved : resolved_client) :
  applyWhitelabelConfig s clients (Some host) = Some resolved ->
  exists row,
    In row clients /\ cl_is_active row = true /\ resolved = config_of row /\
    ((subdomainMatch host = Some (cl_subdomain row) /\
      cl_subdomain row <> "www" /\ cl_subdomain row <> "api" /\
      subdomain_query_answers s = true)
     \/
     (cl_custom_domain row = Some host /\ domain_query_answers s = true)).
Proof.
  unfold applyWhitelabelConfig.
  destruct (String.eqb host ""); [discriminate|]. unfold detect_client.
  assert (Hdomain :
    (if domain_query_answers s
     then match by_custom_domain host clients with
          | row :: _ => Some (config_of row)
          | [] => None
          end
     else None) = Some resolved ->
    exists row,
      In row clients /\ cl_is_active row = true /\ resolved = config_of row /\
      ((subdomainMatch host = Some (cl_subdomain row) /\
        cl_subdomain row <> "www" /\ cl_subdomain row <> "api" /\
        subdomain_query_answers s = true)
       \/
       (cl_custom_domain row = Some host /\ domain_query_answers s = true))).
  { destruct (domain_query_answers s); [|discriminate].
    destruct (by_custom_domain host clients) as [|row rest] eqn:Hf; [discriminate|].
    intros [= <-]. apply by_custom_domain_head in Hf as (Hin & Hact & Hdom).
    exists row. repeat split; auto. }
  destruct (subdomainMatch host) as [label|] eqn:Hm; [|exact Hdomain].
  destruct (String.eqb_spec label "www") as [Ew|Ew]; cbn [negb andb]; [exact Hdomain|].
  destruct (String.eqb_spec label "api") as [Ea|Ea]; cbn [negb andb]; [exact Hdomain|].
  destruct (subdomain_query_answers s) eqn:Hq; [|exact Hdomain].
  destruct (by_subdomain label clients) as [|row rest] eqn:Hf; [exact Hdomain|].
  intros [= <-]. apply filter_head_In in Hf as [Hin Hsat].
  apply andb_true_iff in Hsat as [Hsub Hact]. apply String.eqb_eq in Hsub.
  exists row. repeat split; auto. left. rewrite Hsub. auto.
Qed.

(** X16.  Which tenant a host resolves to.  A resolved tenant is an active client,
    found either by the label before the host's first dot, a label other than
    www and api, or by the whole host as its custom domain.  The label goes
    first: where the subdomain lookup answers and an active client has that
    label, it is the tenant, whatever client has the host as custom domain.
    A host whose label is www or api, or that has no dot before which a
    character stands, is resolved by custom domain alone. *)
Theorem tenant_resolution (s : lookups) (clients : list client_row) (host : string) :
  (forall resolved,
     applyWhitelabelConfig s clients (Some host) = Some resolved ->
     exists row,
       In row clients /\ cl_is_active row = true /\ resolved = config_of row /\
       ((subdomainMatch host = Some (cl_subdomain row) /\
         cl_subdomain row <> "www" /\ cl_subdomain row <> "api" /\
         subdomain_query_answers s = true)
        \/
        (cl_custom_domain row = Some host /\ domain_query_answers s = true))) /\
  (forall label row rest,
     subdomainMatch host = Some label -> label <> "www" -> label <> "api" ->
     subdomain_query_answers s = true ->
     by_subdomain label clients = row :: rest ->
     applyWhitelabelConfig s clients (Some host) = Some (config_of row)) /\
  (host <> "" ->
   (subdomainMatch host = None \/ subdomainMatch host = Some "www"
    \/ subdomainMatch host = Some "api") ->
   applyWhitelabelConfig s clients (Some host)
   = if domain_query_answers s
     then match by_custom_domain host clients with
          | row :: _ => Some (config_of row)
          | [] => None
          end
     else None).
Proof.
  split; [|split].
  - apply resolved_client_origin.
  - intros label row rest Hm Hw Ha Hq Hf. unfold applyWhitelabelConfig.
    destruct (String.eqb_spec host "") as [->|_]; [discriminate|]. unfold detect_client.
    rewrite Hm. apply String.eqb_neq in Hw, Ha. rewrite Hw, Ha, Hq, Hf. reflexivity.
  - intros Hhost Hm. unfold applyWhitelabelConfig. apply String.eqb_neq in Hhost.
    rewrite Hhost. unfold detect_client.
    destruct Hm as [Hm|[Hm|Hm]]; rewrite Hm; reflexivity.
Qed.

(** X17.  A request whose tenant is not resolved is not restricted.  When neither
    lookup finds an active client for the host (the client was deactivated,
    the lookups fail, no client matches), the request carries no tenant: the
    feature check allows every feature and the limit check lets every amount
    through, whatever the deactivated client's configuration says. *)
Theorem unresolved_tenant_is_unrestricted (s : lookups) (clients : list client_row)
    (host : option string) (userId : option Db.uuid) (amount : JS.value)
    (limits : Whitelabel.surroundings) (w : world) (feature : string) :
  (forall row h, host = Some h -> In row clients ->
                 (subdomainMatch h = Some (cl_subdomain row) \/ cl_custom_domain row = Some h) ->
                 cl_is_active row = false
                 \/ (subdomain_query_answers s = false /\ domain_query_answers s = false)) ->
  let req := request_of (applyWhitelabelConfig s clients host) userId amount in
  applyWhitelabelConfig s clients host = None /\
  checkFeaturePermission feature req = true /\
  checkTransactionLimits limits req w = Next.
Proof.
  intros Hnone.
  assert (E : applyWhitelabelConfig s clients host = None).
  { destruct (applyWhitelabelConfig s clients host) as [resolved|] eqn:Hr; [|reflexivity].
    destruct host as [h|]; [|discriminate].
    destruct (resolved_client_origin s clients h resolved Hr)
      as (row & Hin & Hact & _ & Hhow).
    exfalso.
    destruct (Hnone row h eq_refl Hin) as [Hoff|[Hq1 Hq2]].
    - destruct Hhow as [(Hm & _)|(Hd & _)]; auto.
    - congruence.
    - destruct Hhow as [(_ & _ & _ & Hq)|(_ & Hq)]; congruence. }
  cbv zeta. rewrite E. repeat split; reflexivity.
Qed.

(** * More of the limit check *)

(** A transaction the limit queries do not count for this user under this
    tenant: it failed, or its wallet is not a wallet of the user tagged with
    the tenant. *)
Definition uncounted (userId clientId : Db.uuid) (ws : list Db.wallet_row) (t : Db.tx_row)
    : Prop :=
  Db.t_status t = Db.Failed \/
  forall wl, In wl ws -> Db.w_id wl = Db.t_wallet_id t ->
             Db.w_user_id wl <> userId \/ Db.w_white_label_client_id wl <> Some clientId.

Lemma counted_uncounted userId clientId from to ws ts extra sub :
  Forall (uncounted userId clientId ws) extra ->
  counted userId clientId from to
    {| wallets := ws; transactions := ts ++ extra; submitted := sub |}
  = counted userId clientId from to
      {| wallets := ws; transactions := ts; submitted := sub |}.
Proof.
  intros Hall. unfold counted. cbn [wallets transactions].
  rewrite flat_map_app. rewrite <- app_nil_r. f_equal.
  induction Hall as [|t extra Ht _ IH]; [reflexivity|].
  cbn [flat_map]. rewrite IH, app_nil_r.
  destruct ((from <=? Db.t_created_at t) && (Db.t_created_at t <? to)
            && negb (Db.tx_status_eqb (Db.t_status t) Db.Failed)) eqn:Hc; [|reflexivity].
  apply andb_true_iff in Hc as [_ Hnf].
  destruct Ht as [Hfailed|Hforeign].
  - rewrite Hfailed in Hnf. discriminate.
  - replace (filter _ ws) with (@nil Db.wallet_row); [reflexivity|].
    symmetry. apply existsb_false_filter. apply not_true_is_false. intros Hex.
    apply existsb_exists in Hex as (wl & Hwl & Hsat).
    apply andb_true_iff in Hsat as [Hsat Hcl]. apply andb_true_iff in Hsat as [Hi Hu].
    apply String.eqb_eq in Hi, Hu.
    destruct (Hforeign wl Hwl Hi) as [H|H]; [contradiction|].
    unfold WalletService.opt_eqb in Hcl.
    destruct (Db.w_white_label_client_id wl); [|discriminate].
    apply String.eqb_eq in Hcl. congruence.
Qed.

(** X18.  What never counts against a tenant's limits: failed transactions,
    transactions of other users, and transactions from wallets that do not
    carry the tenant's tag (wallets created outside the tenant, or imported or
    restored under another tag).  With any number of them added to the
    table, the limit check gives the verdict it gave without them. *)
Theorem limits_count_only_tagged_wallets (s : Whitelabel.surroundings) (req : request)
    (clientConfig : client_config) (userId : Db.uuid) (w w' : world)
    (extra : list Db.tx_row) :
  whitelabelClient req = Some clientConfig ->
  user_id req = Some userId ->
  wallets w' = wallets w ->
  transactions w' = (transactions w ++ extra)%list ->
  Forall (uncounted userId (cc_id clientConfig) (wallets w)) extra ->
  checkTransactionLimits s req w' = checkTransactionLimits s req w.
Proof.
  intros Hc Hu Hw Ht Hall.
  assert (Hq : forall answers from to,
            limit_query answers userId (cc_id clientConfig) from to w'
            = limit_query answers userId (cc_id clientConfig) from to w).
  { intros answers from to. unfold limit_query. destruct answers; [|reflexivity].
    do 2 f_equal.
    destruct w as [ws ts sub], w' as [ws' ts' sub']. cbn [wallets transactions] in *.
    subst ws' ts'.
    transitivity (counted userId (cc_id clientConfig) from to
                    {| wallets := ws; transactions := ts ++ extra; submitted := sub |}).
    - reflexivity.
    - now apply counted_uncounted. }
  unfold checkTransactionLimits, check_limits. rewrite Hc, Hu.
  destruct (cc_featuresConfig clientConfig); [|reflexivity].
  rewrite !Hq. reflexivity.
Qed.

(** * More of the send route *)

(** X19.  POST /:walletId/send always answers, and never writes the wallets table.
    A request stopped by the feature check, the limit check or the validators
    leaves the store as it was; a tenant that does not list the send feature
    is always stopped at the feature check.  A success has sent one transfer
    and written its one transaction row.  A failure answer writes no
    transaction row. *)
Theorem post_send_always_answers {cipher : Crypto.PasswordCipher}
    (rt : WalletService.runtime) (s : Whitelabel.surroundings) (req : request)
    (p : send_params) (w : world) :
  exists resp w',
    post_send rt s req p w = (Ok resp, w') /\
    wallets w' = wallets w /\
    (checkFeaturePermission "send" req = false ->
     resp = FeatureDisabled "Feature 'send' is not enabled for this client") /\
    match resp with
    | FeatureDisabled _ | LimitExceeded _ _ _ | ValidationFailed => w' = w
    | Sent _ =>
        List.length (submitted w') = S (List.length (submitted w)) /\
        List.length (transactions w') = S (List.length (transactions w))
    | SendFailed _ => transactions w' = transactions w
    end.
Proof.
  unfold post_send. run_eff.
  destruct (checkFeaturePermission "send" req); cbn [negb].
  2:{ eexists _, _. repeat split; reflexivity. }
  destruct (checkTransactionLimits s req w).
  2:{ eexists _, _. repeat split; try reflexivity. discriminate. }
  unfold send_handler.
  destruct (negb _).
  { eexists _, _. repeat split; try reflexivity. discriminate. }
  destruct (user_id req) as [userId|].
  2:{ eexists _, _. repeat split; try reflexivity. discriminate. }
  run_eff.
  unfold WalletService.sendUSDC. run_eff.
  destruct (negb _).
  { eexists _, _. repeat split; try reflexivity. discriminate. }
  destruct (filter _ (wallets w)) as [|wallet others].
  { eexists _, _. repeat split; try reflexivity. discriminate. }
  destruct (JSON_parse rt _).
  2:{ eexists _, _. repeat split; try reflexivity. discriminate. }
  destruct (PrimFloat.ltb _ (JS.parseFloat (body_amount req))).
  { eexists _, _. repeat split; try reflexivity. discriminate. }
  destruct (getETHBalance _ _).
  2:{ eexists _, _. repeat split; try reflexivity. discriminate. }
  destruct (PrimFloat.ltb _ min_eth_for_gas).
  { eexists _, _. repeat split; try reflexivity. discriminate. }
  unfold Blockchain.sendUSDC.
  destruct (decryptPrivateKey _ _) as [pk|[m| |c]].
  2-4: eexists _, _; repeat split; try reflexivity; discriminate.
  destruct (transfer _ _ _ _) as [m|tx].
  { eexists _, _. repeat split; try reflexivity. discriminate. }
  unfold insert_transaction. cbn [transactions wallets submitted].
  destruct (Db.numeric_in (body_amount req)).
  2:{ eexists _, _. repeat split; try reflexivity. discriminate. }
  destruct (existsb _ (transactions w)).
  { eexists _, _. repeat split; try reflexivity. discriminate. }
  destruct (_ || _)%bool.
  { eexists _, _. repeat split; try reflexivity. discriminate. }
  eexists _, _. split; [reflexivity|]. cbn [wallets transactions submitted].
  repeat split; try reflexivity; try discriminate.
  rewrite length_app. cbn. lia.
Qed.

(** * Registering a webhook (services/webhookService.js, createWebhook) *)
Module WebhookRegistry.

(** INSERT INTO webhooks (client_id, url, events, secret, status, created_at)
    VALUES ($1, $2, $3, $4, 'active', NOW()) RETURNING *, with the identifier
    the database generates: the primary key and the widths of url
    (VARCHAR(500)) and secret (VARCHAR(100)) are checked.  The client the row
    refers to is in a table this development does not follow, and is taken to
    exist. *)
Definition createWebhook (id : Db.uuid) (clientId : Db.uuid) (url : string)
    (events : list string) (secret : option string) : MS store webhook_row :=
  fun st =>
    let row := mkWebhook id (Some clientId) url events secret true in
    if existsb (fun h => String.eqb (wh_id h) id) (webhooks st)
    then (Throw (DbError WalletService.unique_violation), st)
    else if (500 <? String.length url)%nat
            || match secret with
               | Some key => (100 <? String.length key)%nat
               | None => false
               end
    then (Throw (DbError WalletService.string_data_right_truncation), st)
    else (Ok row,
          {| webhooks := webhooks st ++ [row];
             webhook_logs := webhook_logs st;
             posted := posted st |}).

End WebhookRegistry.

Import WebhookRegistry.

(** sendWebhook when the SELECT answers, whatever the store. *)
Lemma sendWebhook_effect (s : Webhook.surroundings) clientId event data st :
  select_answers s = true ->
  sendWebhook s clientId event data st =
  (Ok tt,
   {| webhooks := webhooks st;
      webhook_logs :=
        webhook_logs st
        ++ map (log_of s event) (filter (logged s event) (listening clientId event st));
      posted := posted st ++ flat_map (post_of s event data) (listening clientId event st) |}).
Proof.
  intros Hsel. unfold sendWebhook. run_eff. rewrite Hsel.
  rewrite deliver_each_effect; [reflexivity|].
  intros webhook Hin. now apply (listening_present clientId event).
Qed.

(** X20.  A registration made by createWebhook takes part in the events it lists,
    and in no other.  After a successful createWebhook with a secret, a
    sendWebhook of the same client for a listed event (the SELECT answering)
    posts to the registered url the payload carrying the new webhook's id,
    signed with the HMAC of that payload under the secret; for an event the
    registration does not list, or for another client, what is posted is what
    would have been posted without the registration. *)
Theorem created_webhook_receives_its_events (s : Webhook.surroundings)
    (id clientId : Db.uuid) (url : string) (events : list string) (key : string)
    (st st1 : store) (row : webhook_row) (event data : string) (otherClient : Db.uuid) :
  createWebhook id clientId url events (Some key) st = (Ok row, st1) ->
  select_answers s = true ->
  wh_id row = id /\
  (In event events ->
   let payload :=
     Webhook.JSON_stringify s event data (Webhook.toISOString s (Webhook.now s)) id in
   posted (snd (sendWebhook s clientId event data st1))
   = (posted (snd (sendWebhook s clientId event data st))
      ++ [mkPost url payload (hmac_sha256_hex s key payload)])%list) /\
  (~ In event events ->
   posted (snd (sendWebhook s clientId event data st1))
   = posted (snd (sendWebhook s clientId event data st))) /\
  (otherClient <> clientId ->
   posted (snd (sendWebhook s otherClient event data st1))
   = posted (snd (sendWebhook s otherClient event data st))).
Proof.
  unfold createWebhook.
  destruct (existsb _ (webhooks st)); [discriminate|].
  destruct (_ || _)%bool; [discriminate|].
  intros [= <- <-] Hsel. split; [reflexivity|].
  rewrite !sendWebhook_effect by assumption. cbn [snd posted webhooks webhook_logs].
  assert (Hlisten : forall c,
    listening c event
      {| webhooks := webhooks st ++ [mkWebhook id (Some clientId) url events (Some key) true];
         webhook_logs := webhook_logs st; posted := posted st |}
    = (listening c event st
       ++ if String.eqb clientId c && existsb (String.eqb event) events
          then [mkWebhook id (Some clientId) url events (Some key) true] else [])%list).
  { intros c. unfold listening. cbn [webhooks]. rewrite filter_app. f_equal.
    cbn [filter wh_client_id wh_active wh_events WalletService.opt_eqb].
    rewrite andb_true_r. destruct (_ && _)%bool; reflexivity. }
  rewrite !Hlisten. split; [|split].
  - intros Hin. cbv zeta. rewrite String.eqb_refl.
    assert (Hex : existsb (String.eqb event) events = true).
    { apply existsb_exists. exists event. split; [exact Hin | apply String.eqb_refl]. }
    rewrite Hex. cbn [andb]. rewrite flat_map_app, app_assoc. reflexivity.
  - intros Hnot.
    assert (Hex : existsb (String.eqb event) events = false).
    { apply not_true_is_false. intros H. apply existsb_exists in H as (x & Hx & E).
      apply String.eqb_eq in E. subst x. contradiction. }
    rewrite Hex, andb_false_r, app_nil_r. reflexivity.
  - intros Hother. apply String.eqb_neq in Hother. rewrite String.eqb_sym in Hother.
    rewrite Hother. cbn [andb]. rewrite app_nil_r. reflexivity.
Qed.

(** X21.  sendWebhook never fails its caller and never writes the registrations:
    whatever the database and the endpoints do, it returns; the webhooks
    table is as it was, the log and the posts made before are kept; and when
    the SELECT fails nothing is posted or logged. *)
Theorem sendWebhook_never_throws (s : Webhook.surroundings) (clientId : Db.uuid)
    (event data : string) (st : store) :
  exists st' logs posts,
    sendWebhook s clientId event data st = (Ok tt, st') /\
    webhooks st' = webhooks st /\
    webhook_logs st' = (webhook_logs st ++ logs)%list /\
    posted st' = (posted st ++ posts)%list /\
    (List.length logs <= List.length (listening clientId event st))%nat /\
    (List.length posts <= List.length (listening clientId event st))%nat /\
    (select_answers s = false -> st' = st).
Proof.
  destruct (select_answers s) eqn:Hsel.
  - rewrite sendWebhook_effect by assumption.
    eexists _, _, _. split; [reflexivity|]. cbn [webhooks webhook_logs posted].
    repeat split; try reflexivity; try discriminate.
    + rewrite length_map. induction (listening clientId event st) as [|h l IH]; [cbn; lia|].
      cbn [filter]. destruct (logged s event h); cbn [List.length]; lia.
    + induction (listening clientId event st) as [|h l IH]; [cbn; lia|].
      cbn [flat_map]. rewrite length_app. unfold post_of at 1.
      destruct (wh_secret h); cbn [List.length]; lia.
  - exists st, [], []. unfold sendWebhook. run_eff. rewrite Hsel.
    rewrite !app_nil_r. repeat split; auto; cbn; lia.
Qed.

(** Settings for the cases of the middleware and the dispatcher. *)
Module MiddlewareCases.

(** A client that was deactivated; its configuration allows receiving only. *)
Definition retired_client : client_row :=
  {| cl_id := "tenant-7";
     cl_client_name := "Retired";
     cl_subdomain := "retired";
     cl_custom_domain := Some "pay.retired.example";
     cl_brand_config := None;
     cl_features_config := Some (mkFeatures ["receive"] (Some 1%float) (Some 1%float));
     cl_is_active := false |}.

(** bob's second wallet, made outside the tenant: it carries no tag. *)
Definition untagged_wallet : Db.wallet_row :=
  Db.mkWallet "w-10" "bob" None "side" "0x6666666666666666666666666666666666666666"
    "{}" false (Some 9000000000) None 0 0 Db.WActive.

Definition side_world : world :=
  {| wallets := [Example.tenant_wallet; untagged_wallet];
     transactions := transactions Example.limits_world;
     submitted := [] |}.

(** 5000 USDC sent today from the untagged wallet. *)
Definition side_send : Db.tx_row :=
  Db.mkTx "t-20" "w-10" "0xc1" "0x6666666666666666666666666666666666666666"
    "0x9999999999999999999999999999999999999999" 5000000000 "21000" "1000000000"
    Db.TSend Db.Confirmed 3 None 1793695000000 None.

Definition side_world_after : world :=
  {| wallets := wallets side_world;
     transactions := (transactions side_world ++ [side_send])%list;
     submitted := [] |}.

End MiddlewareCases.

Lemma unresolved_tenant_is_unrestricted_witness :
  let resolved :=
    applyWhitelabelConfig (mkLookups true true) [MiddlewareCases.retired_client]
      (Some "retired.usdcwallet.com") in
  resolved = None /\
  checkFeaturePermission "send" (request_of resolved (Some "bob") (JS.VNum 500%float))
    = true /\
  checkTransactionLimits Example.database_up
    (request_of resolved (Some "bob") (JS.VNum 500%float)) Example.limits_world = Next.
Proof.
  cbv zeta.
  apply (unresolved_tenant_is_unrestricted (mkLookups true true)
           [MiddlewareCases.retired_client] (Some "retired.usdcwallet.com") (Some "bob")
           (JS.VNum 500%float) Example.database_up Example.limits_world "send").
  intros row h _ [<-|[]] _. left. reflexivity.
Defined.

Lemma limits_count_only_tagged_wallets_witness :
  checkTransactionLimits Example.database_up (Example.send_of 10%float)
    MiddlewareCases.side_world_after = Next.
Proof.
  rewrite (limits_count_only_tagged_wallets Example.database_up (Example.send_of 10%float)
             Example.tenant "bob" MiddlewareCases.side_world
             MiddlewareCases.side_world_after [MiddlewareCases.side_send]
             eq_refl eq_refl eq_refl eq_refl).
  - vm_compute. reflexivity.
  - constructor; [|constructor]. right.
    intros wl [<-|[<-|[]]] Hid; [discriminate Hid|]. right. discriminate.
Defined.

Lemma created_webhook_receives_its_events_witness :
  let s := Example.hooks_surroundings (fun _ => true) in
  exists row st1,
    createWebhook "h-3" "client-1" "https://c.example/hook" ["wallet.created"]
      (Some "s3cret-3") Example.hooks_store = (Ok row, st1) /\
    map hp_url (posted (snd (sendWebhook s "client-1" "wallet.created" "{}" st1)))
      = ["https://a.example/hook"; "https://b.example/hook"; "https://c.example/hook"] /\
    map hp_url (posted (snd (sendWebhook s "client-1" "transaction.created" "{}" st1)))
      = ["https://a.example/hook"].
Proof.
  cbv zeta. eexists _, _. split; [reflexivity|].
  match goal with
  | |- context [sendWebhook ?s ?c _ _ ?st1] =>
      pose proof (created_webhook_receives_its_events s "h-3" "client-1"
                    "https://c.example/hook" ["wallet.created"] "s3cret-3"
                    Example.hooks_store st1 _ "wallet.created" "{}" "client-2"
                    eq_refl eq_refl) as (_ & Hin & _);
      pose proof (created_webhook_receives_its_events s "h-3" "client-1"
                    "https://c.example/hook" ["wallet.created"] "s3cret-3"
                    Example.hooks_store st1 _ "transaction.created" "{}" "client-2"
                    eq_refl eq_refl) as (_ & _ & Hout & _)
  end.
  cbv zeta in Hin. rewrite (Hin (or_introl eq_refl)).
  rewrite Hout by (intros [H|[]]; discriminate).
  split; vm_compute; reflexivity.
Defined.

(** * The notification service (services/notificationService.js) *)
Module Notifications.

Local Open Scope eff_scope.

(** notifications, as the schema creates it. *)
Record notification_row := mkNotification {
  n_id : Db.uuid;
  n_user_id : Db.uuid;
  n_type : string;
  n_title : string;
  n_message : string;
  n_data : string;
  n_is_read : bool;
  n_created_at : Db.time;
  n_updated_at : Db.time
}.

Definition inbox := list notification_row.

Record created_notification := mkCreatedNotification {
  cn_id : Db.uuid;
  cn_createdAt : Db.time
}.

(** The digits of a hexadecimal literal. *)
Definition hex_digit_of (c : ascii) : option N :=
  let n := N_of_ascii c in
  if ((48 <=? n) && (n <=? 57))%N then Some (n - 48)%N
  else if ((97 <=? n) && (n <=? 102))%N then Some (n - 87)%N
  else if ((65 <=? n) && (n <=? 70))%N then Some (n - 55)%N
  else None.

Fixpoint hex_digits (s : string) (acc : N) (len : nat) : N * nat :=
  match s with
  | String c s' =>
      match hex_digit_of c with
      | Some d => hex_digits s' (16 * acc + d)%N (S len)
      | None => (acc, len)
      end
  | EmptyString => (acc, len)
  end.

(** The digits [Number.parseInt] reads when no radix is given: in base 16
    after a 0x prefix, in base 10 otherwise; the value, and how many digits
    were read. *)
Definition integer_digits (u : string) : N * nat :=
  if (String.prefix "0x" u || String.prefix "0X" u)%bool then
    match u with
    | String _ (String _ r) => hex_digits r 0%N 0%nat
    | _ => (0%N, 0%nat)
    end
  else
    let '(v, len, _) := JS.digits u 0%N 0%nat in (v, len).

(** [Number.parseInt(text)]: leading blanks and a sign are skipped, the
    longest run of digits is read, and no digit at all gives NaN. *)
Definition parseInt (text : string) : JS.number :=
  let t := JS.trim_start text in
  let '(neg, u) :=
    match t with
    | String "+"%char r => (false, r)
    | String "-"%char r => (true, r)
    | _ => (false, t)
    end in
  let '(v, len) := integer_digits u in
  match len with
  | O => JS.NaN
  | _ => JS.of_decimal neg v 0
  end.

Section Service.
(** The identifier the database generates for the next row, and its clock. *)
Variable uuid_generate_v4 : Db.uuid.
Variable NOW : Db.time.

(** createNotification; [data] is the text [JSON.stringify(data)] gives.  The
    INSERT checks the primary key and the widths of type (VARCHAR(50)) and
    title (VARCHAR(200)); the user the row refers to is taken to exist. *)
Definition createNotification (userId : Db.uuid) (type title message data : string)
    : MS inbox created_notification :=
  fun rows =>
    if existsb (fun n => String.eqb (n_id n) uuid_generate_v4) rows
    then (Throw (DbError WalletService.unique_violation), rows)
    else if (50 <? String.length type)%nat || (200 <? String.length title)%nat
    then (Throw (DbError WalletService.string_data_right_truncation), rows)
    else
      (Ok {| cn_id := uuid_generate_v4; cn_createdAt := NOW |},
       (rows ++ [mkNotification uuid_generate_v4 userId type title message data false
                   NOW NOW])%list).

Definition set_read (n : notification_row) : notification_row :=
  mkNotification (n_id n) (n_user_id n) (n_type n) (n_title n) (n_message n) (n_data n)
    true (n_created_at n) NOW.

(** markAsRead *)
Definition markAsRead (userId notificationId : Db.uuid) : MS inbox bool :=
  rows <- get ;;
  let selected n := String.eqb (n_id n) notificationId && String.eqb (n_user_id n) userId in
  put (map (fun n => if selected n then set_read n else n) rows) ;;;
  match filter selected rows with
  | [] => throw (Error "Notification not found or access denied")
  | _ :: _ => ret true
  end.

(** markAllAsRead *)
Definition markAllAsRead (userId : Db.uuid) : MS inbox bool :=
  rows <- get ;;
  put (map (fun n => if String.eqb (n_user_id n) userId && negb (n_is_read n)
                     then set_read n else n) rows) ;;;
  ret true.

(** SELECT COUNT( * ) ... WHERE user_id = $1 AND is_read = false *)
Definition unread (userId : Db.uuid) (rows : inbox) : list notification_row :=
  filter (fun n => String.eqb (n_user_id n) userId && negb (n_is_read n)) rows.

(** getUnreadCount: the count comes back as text. *)
Definition getUnreadCount (userId : Db.uuid) : MS inbox JS.number :=
  rows <- get ;;
  let count := Db.nat_text (List.length (unread userId rows)) in
  ret (parseInt count).

End Service.

(** *** Reading a count back *)

Lemma uint_value_nat (d : Decimal.uint) (acc : nat) :
  NumericText.uint_value d (N.of_nat acc) = N.of_nat (Nat.of_uint_acc d acc).
Proof.
  revert acc. induction d; intros acc; cbn [NumericText.uint_value Nat.of_uint_acc];
    [reflexivity|..];
    rewrite <- IHd; f_equal; rewrite Nat.tail_mul_spec; lia.
Qed.

Fixpoint digits_only (s : string) : bool :=
  match s with
  | EmptyString => true
  | String c s' =>
      match JS.digit_of c with
      | Some _ => digits_only s'
      | None => false
      end
  end.

Lemma string_of_uint_digits_only (d : Decimal.uint) :
  digits_only (NilEmpty.string_of_uint d) = true.
Proof. induction d; cbn; auto. Qed.

Lemma nat_text_not_empty (k : nat) :
  Db.nat_text k = NilEmpty.string_of_uint (Nat.to_uint k) /\
  exists c r, Db.nat_text k = String c r /\ JS.digit_of c <> None.
Proof.
  unfold Db.nat_text, NilZero.string_of_uint.
  assert (H : Nat.to_uint k <> Decimal.Nil).
  { intros E. pose proof (DecimalNat.Unsigned.of_to k) as F. rewrite E in F.
    cbn in F. subst k. discriminate. }
  destruct (Nat.to_uint k); [congruence|..]; (split; [reflexivity|]);
    cbn [NilEmpty.string_of_uint]; eexists _, _; (split; [reflexivity | discriminate]).
Qed.

Lemma digits_nat_text (k : nat) :
  JS.digits (Db.nat_text k) 0 0
  = (N.of_nat k, String.length (Db.nat_text k), "").
Proof.
  destruct (nat_text_not_empty k) as [E _]. rewrite E.
  rewrite <- (NumericText.append_nil_r (NilEmpty.string_of_uint _)) at 1.
  rewrite NumericText.digits_uint. cbn [JS.digits].
  change 0%N with (N.of_nat 0). rewrite uint_value_nat.
  change (Nat.of_uint_acc (Nat.to_uint k) 0) with (Nat.of_uint (Nat.to_uint k)).
  now rewrite DecimalNat.Unsigned.of_to.
Qed.

Lemma parseInt_unsigned (c : ascii) (r : string) :
  JS.digit_of c <> None ->
  parseInt (String c r)
  = let '(v, len) := integer_digits (String c r) in
    match len with
    | O => JS.NaN
    | _ => JS.of_decimal false v 0
    end.
Proof.
  intros H. unfold parseInt.
  destruct c as [b0 b1 b2 b3 b4 b5 b6 b7].
  destruct b0, b1, b2, b3, b4, b5, b6, b7;
    try (exfalso; apply H; reflexivity); reflexivity.
Qed.

Lemma no_hex_prefix (x : ascii) (s : string) :
  digits_only s = true -> String.prefix (String "0" (String x "")) s = true ->
  JS.digit_of x = None -> False.
Proof.
  destruct s as [|c [|c2 r]]; cbn [String.prefix digits_only].
  - discriminate.
  - destruct (ascii_dec "0" c); discriminate.
  - destruct (JS.digit_of c); [|discriminate].
    destruct (JS.digit_of c2) eqn:E2; [|discriminate].
    destruct (ascii_dec "0" c); [|discriminate].
    destruct (ascii_dec x c2) as [->|]; [|discriminate]. congruence.
Qed.

(** The text of a count reads back as the count. *)
Lemma parseInt_nat_text (k : nat) :
  parseInt (Db.nat_text k) = JS.of_decimal false (N.of_nat k) 0.
Proof.
  destruct (nat_text_not_empty k) as [E (c & r & Ecr & Hc)].
  rewrite Ecr, parseInt_unsigned by assumption. rewrite <- Ecr.
  unfold integer_digits.
  assert (Hd : digits_only (Db.nat_text k) = true)
    by (rewrite E; apply string_of_uint_digits_only).
  destruct (String.prefix "0x" (Db.nat_text k)) eqn:P1;
    [exfalso; exact (no_hex_prefix "x" _ Hd P1 eq_refl)|].
  destruct (String.prefix "0X" (Db.nat_text k)) eqn:P2;
    [exfalso; exact (no_hex_prefix "X" _ Hd P2 eq_refl)|].
  cbn [orb]. rewrite digits_nat_text, Ecr. reflexivity.
Qed.

End Notifications.

Import Notifications.

(** X22.  markAsRead reaches only the caller's own notification.  Where no row
    carries both the id and the caller, it throws and the table is as it was,
    so a notification of another user stays unread.  Where the caller has a
    row with that id, it returns, and the table afterwards is the table before
    with that row marked read and stamped, every other row as it was. *)
Theorem markAsRead_only_own (NOW : Db.time) (userId notificationId : Db.uuid)
    (rows : inbox) :
  ((forall n, In n rows -> n_id n = notificationId -> n_user_id n <> userId) ->
   markAsRead NOW userId notificationId rows
   = (Throw (Error "Notification not found or access denied"), rows)) /\
  ((exists n, In n rows /\ n_id n = notificationId /\ n_user_id n = userId) ->
   markAsRead NOW userId notificationId rows
   = (Ok true,
      map (fun n => if String.eqb (n_id n) notificationId && String.eqb (n_user_id n) userId
                    then set_read NOW n else n) rows) /\
   forall u, u <> userId ->
     unread u (snd (markAsRead NOW userId notificationId rows)) = unread u rows).
Proof.
  unfold markAsRead. run_eff. split.
  - intros Hforeign.
    assert (Hnone : existsb (fun n => String.eqb (n_id n) notificationId
                                      && String.eqb (n_user_id n) userId) rows = false).
    { apply not_true_is_false. intros Hex. apply existsb_exists in Hex as (n & Hn & Hsat).
      apply andb_true_iff in Hsat as [Hi Hu]. apply String.eqb_eq in Hi, Hu.
      exact (Hforeign n Hn Hi Hu). }
    apply existsb_false_filter in Hnone as Hf. rewrite Hf. f_equal.
    clear Hf Hforeign. induction rows as [|n rows IH]; [reflexivity|].
    cbn [existsb] in Hnone. apply orb_false_iff in Hnone as [Hn Hrest].
    cbn [map]. rewrite Hn. f_equal. now apply IH.
  - intros (n & Hn & Hi & Hu).
    destruct (filter _ rows) eqn:Hf.
    + exfalso. apply existsb_false_filter in Hf.
      assert (existsb (fun n => String.eqb (n_id n) notificationId
                                && String.eqb (n_user_id n) userId) rows = true).
      { apply existsb_exists. exists n. split; [exact Hn|].
        now rewrite Hi, Hu, !String.eqb_refl. }
      congruence.
    + split; [reflexivity|]. intros u Hne. cbn [snd]. unfold unread.
      clear - Hne. induction rows as [|m rows IH]; [reflexivity|]. cbn [map filter].
      rewrite IH.
      destruct (String.eqb (n_id m) notificationId && String.eqb (n_user_id m) userId)
        eqn:Hsel; [|reflexivity].
      apply andb_true_iff in Hsel as [_ Hmu]. apply String.eqb_eq in Hmu.
      cbn [set_read n_user_id n_is_read]. rewrite Hmu.
      destruct (String.eqb_spec userId u) as [E|_]; [|reflexivity].
      exfalso. now apply Hne.
Qed.

Lemma markAsRead_only_own_witness :
  let mine := mkNotification "n-1" "alice" "transaction_sent" "Transaction Sent"
                "Successfully sent 5 USDC" "{}" false 100 100 in
  let theirs := mkNotification "n-2" "bob" "transaction_received" "USDC Received"
                  "Received 5 USDC" "{}" false 110 110 in
  markAsRead 200 "alice" "n-2" [mine; theirs]
    = (Throw (Error "Notification not found or access denied"), [mine; theirs]) /\
  markAsRead 200 "alice" "n-1" [mine; theirs]
    = (Ok true, [set_read 200 mine; theirs]).
Proof.
  cbv zeta. split.
  - apply (proj1 (markAsRead_only_own 200 "alice" "n-2" _)).
    intros n [<-|[<-|[]]]; cbn; intros; discriminate.
  - refine (proj1 (proj2 (markAsRead_only_own 200 "alice" "n-1" _) _)).
    eexists. split; [now left|]. split; reflexivity.
Defined.

(** X23.  The unread count follows the inbox.  getUnreadCount writes nothing and
    returns, as a JS number, the number of the caller's unread rows.  After
    markAllAsRead the caller has no unread row and the count is 0, and every
    other user's unread rows are as they were.  A createNotification that
    succeeds adds one unread row for its user and none for anyone else. *)
Theorem unread_count_follows_inbox (NOW : Db.time) (userId : Db.uuid) (rows : inbox) :
  getUnreadCount userId rows
    = (Ok (JS.of_decimal false (N.of_nat (List.length (unread userId rows))) 0), rows) /\
  (let rows' := snd (markAllAsRead NOW userId rows) in
   unread userId rows' = [] /\
   getUnreadCount userId rows' = (Ok PrimFloat.zero, rows') /\
   forall u, u <> userId -> unread u rows' = unread u rows) /\
  (forall id type title message data v rows',
     createNotification id NOW userId type title message data rows = (Ok v, rows') ->
     List.length (unread userId rows') = S (List.length (unread userId rows)) /\
     forall u, u <> userId -> unread u rows' = unread u rows).
Proof.
  assert (Hcount : forall rs,
            getUnreadCount userId rs
            = (Ok (JS.of_decimal false (N.of_nat (List.length (unread userId rs))) 0), rs)).
  { intros rs. unfold getUnreadCount. run_eff. now rewrite parseInt_nat_text. }
  split; [apply Hcount|]. split.
  - cbv zeta. unfold markAllAsRead. run_eff. cbn [snd].
    assert (Hnone : unread userId
                      (map (fun n => if String.eqb (n_user_id n) userId && negb (n_is_read n)
                                     then set_read NOW n else n) rows) = []).
    { unfold unread. induction rows as [|n rows IH]; [reflexivity|]. cbn [map filter].
      destruct (String.eqb (n_user_id n) userId) eqn:Eu; cbn [andb].
      - destruct (n_is_read n) eqn:Er; cbn [negb set_read n_user_id n_is_read].
        + rewrite Eu, Er. exact IH.
        + rewrite Eu. exact IH.
      - rewrite Eu. exact IH. }
    split; [exact Hnone|]. split.
    + rewrite Hcount, Hnone. reflexivity.
    + intros u Hne. unfold unread. clear - Hne.
      induction rows as [|n rows IH]; [reflexivity|]. cbn [map filter]. rewrite IH.
      destruct (String.eqb (n_user_id n) userId && negb (n_is_read n)) eqn:Hsel;
        [|reflexivity].
      apply andb_true_iff in Hsel as [Hu _]. apply String.eqb_eq in Hu.
      cbn [set_read n_user_id n_is_read]. rewrite Hu.
      destruct (String.eqb_spec userId u) as [E|_]; [|reflexivity].
      exfalso. now apply Hne.
  - intros id type title message data v rows'. unfold createNotification.
    destruct (existsb _ rows); [discriminate|].
    destruct (_ || _)%bool; [discriminate|].
    intros [= _ <-]. unfold unread. rewrite !filter_app. cbn [filter n_user_id n_is_read].
    split.
    + rewrite String.eqb_refl. cbn [andb negb]. rewrite length_app. cbn. lia.
    + intros u Hne. rewrite filter_app. cbn [filter n_user_id n_is_read].
      destruct (String.eqb_spec userId u) as [E|_]; [now elim Hne|].
      cbn [andb]. apply app_nil_r.
Qed.

(** * A send, and what the other routes make of it *)

(** What a sendUSDC that returns has done. *)
Lemma sendUSDC_returns {cipher : Crypto.PasswordCipher} (rt : WalletService.runtime)
    (walletId userId : Db.uuid) (toAddress : string) (amount : JS.value)
    (memo : option string) (w w' : world) (v : send_result) :
  WalletService.sendUSDC rt walletId userId toAddress amount memo w = (Ok v, w') ->
  exists wallet row,
    In wallet (wallets w) /\
    Db.w_id wallet = walletId /\ Db.w_user_id wallet = userId /\
    wallets w' = wallets w /\
    transactions w' = (transactions w ++ [row])%list /\
    existsb (fun t => String.eqb (Db.t_transaction_hash t) (sr_transactionHash v))
            (transactions w) = false /\
    Db.t_transaction_hash row = sr_transactionHash v /\
    Db.t_wallet_id row = walletId /\
    Db.numeric_in amount = Some (Db.t_amount row) /\
    Db.t_status row = Db.Pending /\
    Db.t_created_at row = NOW rt.
Proof.
  unfold WalletService.sendUSDC. run_eff.
  destruct (negb _); [discriminate|].
  destruct (filter _ (wallets w)) as [|wallet others] eqn:Hsel; [discriminate|].
  apply filter_head_In in Hsel as [Hin Hsat].
  apply andb_true_iff in Hsat as [Hsat _]. apply andb_true_iff in Hsat as [Hid Hu].
  apply String.eqb_eq in Hid, Hu.
  destruct (JSON_parse rt _); [|discriminate].
  destruct (PrimFloat.ltb _ (JS.parseFloat amount)); [discriminate|].
  destruct (getETHBalance _ _); [|discriminate].
  destruct (PrimFloat.ltb _ min_eth_for_gas); [discriminate|].
  unfold Blockchain.sendUSDC.
  destruct (decryptPrivateKey _ _) as [pk|[m| |c]]; try discriminate.
  destruct (transfer _ _ _ _) as [m|tx]; [discriminate|].
  unfold insert_transaction. cbn [transactions wallets submitted].
  destruct (Db.numeric_in amount) as [z|]; [|discriminate].
  destruct (existsb _ (transactions w)) eqn:Hex; [discriminate|].
  destruct (_ || _)%bool; [discriminate|].
  intros [= <- <-]. eexists wallet, _. cbn.
  repeat (split; [first [assumption | reflexivity]|]).
  split; [|repeat split; reflexivity].
  apply not_true_is_false. intros H. apply existsb_exists in H as (t & Ht & E).
  assert (existsb (fun r => String.eqb (Db.t_id r) (uuid_generate_v4 rt)
                            || String.eqb (Db.t_transaction_hash r) (s_transactionHash tx))
                  (transactions w) = true).
  { apply existsb_exists. exists t. split; [exact Ht|]. rewrite E. apply orb_true_r. }
  congruence.
Qed.

(** In a list without two rows of one id, the rows a predicate selects,
    when it selects [x] and only rows with the id of [x], are [x] alone. *)
Lemma filter_unique_id (p : Db.wallet_row -> bool) (ws : list Db.wallet_row)
    (x : Db.wallet_row) :
  ids_unique ws -> In x ws -> p x = true ->
  (forall y, p y = true -> Db.w_id y = Db.w_id x) ->
  filter p ws = [x].
Proof.
  unfold ids_unique. intros Hnd Hin Hx Hid.
  induction ws as [|r ws IH]; [contradiction|].
  cbn [map] in Hnd. inversion Hnd as [|? ? Hnot Hnd']; subst.
  cbn [filter]. destruct Hin as [->|Hin].
  - rewrite Hx. f_equal. apply existsb_false_filter. apply not_true_is_false.
    intros H. apply existsb_exists in H as (y & Hy & Hp). apply Hnot.
    rewrite <- (Hid y Hp). now apply in_map.
  - destruct (p r) eqn:Hr.
    + exfalso. apply Hnot. rewrite (Hid r Hr). now apply in_map.
    + now apply IH.
Qed.

(** X24.  A transaction that was sent is visible to its sender and to nobody else.
    After a sendUSDC that returned, on a table whose ids are unique and with a
    hash of 66 characters, GET /:txHash by the sender is never answered 404,
    and by any other user it is always answered 404, with nothing written and
    whatever the node says. *)
Theorem sent_transaction_is_visible_to_sender_only {cipher : Crypto.PasswordCipher}
    (rt : WalletService.runtime) (walletId userId : Db.uuid) (toAddress : string)
    (amount : JS.value) (memo : option string) (w w' : world) (v : send_result)
    (sv : Blockchain.service) (now : Db.time) :
  WalletService.sendUSDC rt walletId userId toAddress amount memo w = (Ok v, w') ->
  ids_unique (wallets w) ->
  String.length (sr_transactionHash v) = 66%nat ->
  (exists resp w'',
     get_by_hash sv now userId (sr_transactionHash v) w' = (Ok resp, w'') /\
     http_status resp <> 404) /\
  (forall other,
     other <> userId ->
     get_by_hash sv now other (sr_transactionHash v) w'
     = (Ok (mkResponse 404 false (Some "Transaction not found or access denied") None), w')).
Proof.
  intros Hsend Hids Hlen.
  apply sendUSDC_returns in Hsend
    as (wallet & row & Hin & Hid & Hu & Hw & Ht & Hfresh & Hhash & Hwid & _).
  assert (Hold : flat_map
            (fun t =>
               if String.eqb (Db.t_transaction_hash t) (sr_transactionHash v) then
                 map (fun _ => t)
                     (filter (fun wl => String.eqb (Db.w_id wl) (Db.t_wallet_id t)
                                        && String.eqb (Db.w_user_id wl) userId) (wallets w))
               else []) (transactions w) = []
          /\ forall other, flat_map
            (fun t =>
               if String.eqb (Db.t_transaction_hash t) (sr_transactionHash v) then
                 map (fun _ => t)
                     (filter (fun wl => String.eqb (Db.w_id wl) (Db.t_wallet_id t)
                                        && String.eqb (Db.w_user_id wl) other) (wallets w))
               else []) (transactions w) = []).
  { clear - Hfresh. induction (transactions w) as [|t ts IH]; [split; reflexivity|].
    cbn [existsb] in Hfresh. apply orb_false_iff in Hfresh as [Hth Hrest].
    destruct (IH Hrest) as [IH1 IH2]. cbn [flat_map]. rewrite Hth. split.
    - exact IH1.
    - intros other. apply IH2. }
  destruct Hold as [_ Hold].
  assert (Hsel : forall u,
            select_for_user (sr_transactionHash v) u w'
            = map (fun _ => row)
                  (filter (fun wl => String.eqb (Db.w_id wl) walletId
                                     && String.eqb (Db.w_user_id wl) u) (wallets w))).
  { intros u. unfold select_for_user. rewrite Ht, Hw, flat_map_app, Hold.
    cbn [flat_map app]. rewrite Hhash, String.eqb_refl, Hwid. apply app_nil_r. }
  split.
  - unfold get_by_hash. run_eff. rewrite Hlen. cbn [Nat.eqb negb]. rewrite Hsel.
    rewrite (filter_unique_id _ (wallets w) wallet Hids Hin).
    + cbn [map].
      destruct (getTransaction sv _) as [chainTx|e].
      * destruct (negb _); eexists _, _; (split; [reflexivity|]); cbn; discriminate.
      * eexists _, _. split; [reflexivity|]. cbn. discriminate.
    + now rewrite Hid, Hu, !String.eqb_refl.
    + intros y Hy. apply andb_true_iff in Hy as [Hy _]. apply String.eqb_eq in Hy.
      congruence.
  - intros other Hother. unfold get_by_hash. run_eff. rewrite Hlen.
    cbn [Nat.eqb negb]. rewrite Hsel.
    replace (filter _ (wallets w)) with (@nil Db.wallet_row); [reflexivity|].
    symmetry. apply existsb_false_filter. apply not_true_is_false. intros H.
    apply existsb_exists in H as (y & Hy & Hp).
    apply andb_true_iff in Hp as [Hyi Hyu]. apply String.eqb_eq in Hyi, Hyu.
    assert (y = wallet) by (apply (NoDup_map_eq Db.w_id (wallets w)); auto; congruence).
    subst y. congruence.
Qed.

Lemma sent_transaction_is_visible_to_sender_only_witness :
  (exists resp w'',
     get_by_hash Example.example_service 5000 "alice" Example.example_hash
       (snd Example.after_send) = (Ok resp, w'') /\
     http_status resp <> 404) /\
  get_by_hash Example.example_service 5000 "bob" Example.example_hash
    (snd Example.after_send)
  = (Ok (mkResponse 404 false (Some "Transaction not found or access denied") None),
     snd Example.after_send).
Proof.
  destruct (sent_transaction_is_visible_to_sender_only (cipher := Example.example_cipher)
              (Example.example_runtime "t-1" 4000) "w-1" "alice"
              "0x9999999999999999999999999999999999999999" (JS.VNum 5%float) None
              (snd Example.after_second) (snd Example.after_send)
              (mkSendResult "t-1" Example.example_hash
                 "0x1111111111111111111111111111111111111111"
                 "0x9999999999999999999999999999999999999999" (JS.VNum 5%float)
                 "pending" 4000)
              Example.example_service 5000) as [Hmine Hothers].
  - vm_compute. reflexivity.
  - unfold ids_unique. cbn. repeat constructor; cbn; intuition discriminate.
  - reflexivity.
  - split; [exact Hmine|]. apply Hothers. discriminate.
Defined.

(** X25.  A send from a wallet of the tenant counts toward the tenant's limits.
    After a sendUSDC that returned, from a wallet tagged with the tenant, on a
    table whose ids are unique, the rows a limit query counts for the sender
    over a window that holds the time of the send are the rows it counted
    before and the new transaction, whose amount is the amount sent. *)
Theorem sends_count_toward_limits {cipher : Crypto.PasswordCipher}
    (rt : WalletService.runtime) (walletId userId clientId : Db.uuid)
    (toAddress : string) (amount : JS.value) (memo : option string) (w w' : world)
    (v : send_result) (from to : Db.time) :
  WalletService.sendUSDC rt walletId userId toAddress amount memo w = (Ok v, w') ->
  ids_unique (wallets w) ->
  (forall wl, In wl (wallets w) -> Db.w_id wl = walletId ->
              Db.w_white_label_client_id wl = Some clientId) ->
  from <= NOW rt < to ->
  exists row,
    counted userId clientId from to w'
      = (counted userId clientId from to w ++ [row])%list /\
    Db.t_wallet_id row = walletId /\
    Db.numeric_in amount = Some (Db.t_amount row).
Proof.
  intros Hsend Hids Htag Hwin.
  apply sendUSDC_returns in Hsend
    as (wallet & row & Hin & Hid & Hu & Hw & Ht & _ & _ & Hwid & Hz & Hst & Hat).
  exists row. split; [|split; assumption].
  unfold counted. rewrite Ht, Hw, flat_map_app. f_equal.
  cbn [flat_map]. rewrite app_nil_r, Hat, Hst, Hwid.
  replace ((from <=? NOW rt) && (NOW rt <? to)
           && negb (Db.tx_status_eqb Db.Pending Db.Failed)) with true
    by (symmetry; rewrite !andb_true_iff; repeat split;
        [apply Z.leb_le | apply Z.ltb_lt]; lia).
  rewrite (filter_unique_id _ (wallets w) wallet Hids Hin); [reflexivity| |].
  - rewrite Hid, Hu, !String.eqb_refl, (Htag wallet Hin Hid). cbn.
    now rewrite String.eqb_refl.
  - intros y Hy. apply andb_true_iff in Hy as [Hy _]. apply andb_true_iff in Hy as [Hy _].
    apply String.eqb_eq in Hy. congruence.
Qed.

Lemma sends_count_toward_limits_witness :
  let created :=
    snd (createWallet (cipher := Example.example_cipher)
           (Example.example_runtime "w-30" 1793700000000) "carol" "main"
           (Some "tenant-1") empty_world) in
  let sent :=
    snd (WalletService.sendUSDC (cipher := Example.example_cipher)
           (Example.example_runtime "t-30" Example.noon_3_november_2026) "w-30" "carol"
           "0x9999999999999999999999999999999999999999" (JS.VNum 5%float) None created) in
  let today := Whitelabel.midnight Whitelabel.utc Example.noon_3_november_2026 in
  counted "carol" "tenant-1" today (Whitelabel.add_day Whitelabel.utc today) created = [] /\
  map Db.t_amount
      (counted "carol" "tenant-1" today (Whitelabel.add_day Whitelabel.utc today) sent)
    = [5000000].
Proof.
  cbv zeta. split; [vm_compute; reflexivity|].
  match goal with
  | |- map _ (counted _ _ ?from ?to (snd (WalletService.sendUSDC ?rt ?i ?u ?a ?n ?m ?w))) = _ =>
      destruct (sends_count_toward_limits (cipher := Example.example_cipher)
                  rt i u "tenant-1" a n m w
                  (snd (WalletService.sendUSDC (cipher := Example.example_cipher)
                          rt i u a n m w))
                  (mkSendResult "t-30" Example.example_hash
                     "0x1111111111111111111111111111111111111111" a n "pending"
                     Example.noon_3_november_2026)
                  from to) as (row & Hrows & _ & Hz)
  end.
  - vm_compute. reflexivity.
  - unfold ids_unique. cbn. repeat constructor; cbn; intuition discriminate.
  - intros wl [<-|[]] _. reflexivity.
  - split; [apply Z.leb_le | apply Z.ltb_lt]; vm_compute; reflexivity.
  - rewrite Hrows.
    assert (E : Db.numeric_in (JS.VNum 5%float) = Some 5000000) by (vm_compute; reflexivity).
    rewrite E in Hz. injection Hz as Hz.
    replace (counted _ _ _ _ _) with (@nil Db.tx_row) by (vm_compute; reflexivity).
    cbn [app map]. now rewrite <- Hz.
Defined.

(** * A backup restored into an empty database *)
Module RestoreFacts.

Import BackupService.

(** The rows the loop writes when every INSERT goes through, the first with
    the [k]-th identifier. *)
Fixpoint restored_rows (brt : BackupService.runtime) (userId : Db.uuid)
    (clientId : option Db.uuid) (k : nat) (entries : list backup_wallet)
    : list Db.wallet_row :=
  match entries with
  | [] => []
  | e :: rest =>
      Db.mkWallet (uuid_supply brt k) userId clientId (bw_walletName e) (bw_address e)
        (bw_encryptedPrivateKey e) false (Some 0) None (NOW (base brt)) (NOW (base brt))
        Db.WActive
      :: restored_rows brt userId clientId (S k) rest
  end.

Lemma existsb_id_absent (id : Db.uuid) (ws : list Db.wallet_row) :
  ~ In id (map Db.w_id ws) -> existsb (fun r => String.eqb (Db.w_id r) id) ws = false.
Proof.
  intros H. apply not_true_is_false. intros Hex.
  apply existsb_exists in Hex as (r & Hr & E). apply String.eqb_eq in E.
  apply H. rewrite <- E. now apply in_map.
Qed.

Lemma existsb_name_absent (u n : string) (ws : list Db.wallet_row) :
  ~ In (u, n) (map owner_name ws) ->
  existsb (fun r => String.eqb (Db.w_user_id r) u && String.eqb (Db.w_wallet_name r) n) ws
  = false.
Proof.
  intros H. apply not_true_is_false. intros Hex.
  apply existsb_exists in Hex as (r & Hr & E).
  apply andb_true_iff in E as [E1 E2]. apply String.eqb_eq in E1, E2.
  apply H. rewrite <- E1, <- E2. now apply (in_map owner_name).
Qed.

Definition fits_columns (e : backup_wallet) : Prop :=
  (String.length (bw_walletName e) <= 100)%nat /\ (String.length (bw_address e) <= 42)%nat.

(** Where nothing stands in the way (fresh identifiers, addresses and names
    that are new and distinct, texts that fit their columns), the loop
    restores every wallet of the document. *)
Lemma restore_each_all brt userId clientId entries k w0 :
  (forall i j, uuid_supply brt i = uuid_supply brt j -> i = j) ->
  (forall j, (k <= j)%nat -> ~ In (uuid_supply brt j) (map Db.w_id (wallets w0))) ->
  NoDup (map bw_address entries) ->
  (forall e, In e entries -> ~ In (bw_address e) (map Db.w_address (wallets w0))) ->
  NoDup (map bw_walletName entries) ->
  (forall e, In e entries -> ~ In (userId, bw_walletName e) (map owner_name (wallets w0))) ->
  Forall fits_columns entries ->
  exists rs w',
    restore_each brt userId clientId entries k w0 = (Ok rs, w') /\
    List.length rs = List.length entries /\
    wallets w' = (wallets w0 ++ restored_rows brt userId clientId k entries)%list.
Proof.
  intros Hinj. revert k w0.
  induction entries as [|e rest IH]; intros k w0 Hids Hnda Hnewa Hndn Hnewn Hfit.
  - exists [], w0. cbn. now rewrite app_nil_r.
  - cbn [restore_each]. run_eff.
    assert (Ha : with_address (bw_address e) (wallets w0) = [])
      by (apply BackupFacts.with_address_nil, Hnewa; now left).
    rewrite Ha. unfold insert_wallet.
    rewrite (existsb_id_absent _ _ (Hids k (le_n k))).
    rewrite (existsb_name_absent _ _ _ (Hnewn e (or_introl eq_refl))).
    apply Forall_inv in Hfit as Hfe. apply Forall_inv_tail in Hfit.
    destruct Hfe as [Hl1 Hl2].
    replace ((100 <? String.length (bw_walletName e))%nat
             || (42 <? String.length (bw_address e))%nat) with false
      by (symmetry; apply orb_false_iff; split; apply Nat.ltb_ge; assumption).
    cbn [orb].
    cbn [map] in Hnda, Hndn.
    inversion Hnda as [|? ? Hna Hnda']; subst.
    inversion Hndn as [|? ? Hnn Hndn']; subst.
    set (row := Db.mkWallet _ _ _ _ _ _ _ _ _ _ _ _).
    set (w1 := {| wallets := (wallets w0 ++ [row])%list;
                  transactions := transactions w0; submitted := submitted w0 |}).
    destruct (IH (S k) w1) as (rs & w' & E & Hlen & Hw); auto.
    + intros j Hj. unfold w1. cbn [wallets]. rewrite map_app. intros Hin.
      apply in_app_or in Hin as [Hin|[Hin|[]]].
      * apply (Hids j); [lia | exact Hin].
      * cbn in Hin. apply Hinj in Hin. lia.
    + intros e' He'. unfold w1. cbn [wallets]. rewrite map_app. intros Hin.
      apply in_app_or in Hin as [Hin|[Hin|[]]].
      * apply (Hnewa e'); [now right | exact Hin].
      * cbn in Hin. apply Hna. rewrite Hin. now apply in_map.
    + intros e' He'. unfold w1. cbn [wallets]. rewrite map_app. intros Hin.
      apply in_app_or in Hin as [Hin|[Hin|[]]].
      * apply (Hnewn e'); [now right | exact Hin].
      * cbn in Hin. injection Hin as Hin. apply Hnn. rewrite Hin. now apply in_map.
    + rewrite E. eexists _, w'. split; [reflexivity|].
      split; [cbn; now rewrite Hlen|].
      rewrite Hw. unfold w1. cbn [wallets restored_rows]. now rewrite <- app_assoc.
Qed.

Lemma NoDup_map_filter {K : Type} (key : Db.wallet_row -> K)
    (selected : Db.wallet_row -> bool) (rows : list Db.wallet_row)
    (Hkeys : NoDup (map key rows)) :
  NoDup (map key (filter selected rows)).
Proof.
  induction rows as [|row rows IH]; cbn in *; [exact Hkeys|].
  inversion Hkeys as [|? ? Hnot Hnd]; subst.
  destruct (selected row); cbn; [constructor|]; auto.
  intros Hin. apply Hnot. apply in_map_iff in Hin as (x & Ex & Hx).
  apply filter_In in Hx as [Hx _]. rewrite <- Ex. now apply in_map.
Qed.

Lemma names_of_one_user (u : Db.uuid) (rows : list Db.wallet_row) :
  (forall r, In r rows -> Db.w_user_id r = u) ->
  NoDup (map owner_name rows) -> NoDup (map Db.w_wallet_name rows).
Proof.
  induction rows as [|r rows IH]; cbn; [constructor|].
  intros Hu H. inversion H as [|? ? Hnot Hnd]; subst.
  constructor; [|apply IH; auto].
  intros Hin. apply Hnot. apply in_map_iff in Hin as (x & Ex & Hx).
  apply in_map_iff. exists x. split; [|exact Hx].
  unfold owner_name. rewrite Ex, (Hu x (or_intror Hx)), (Hu r (or_introl eq_refl)).
  reflexivity.
Qed.

Lemma restored_rows_columns brt brt' userId clientId k rows :
  map (fun x => (Db.w_wallet_name x, Db.w_address x, Db.w_encrypted_private_key x))
      (restored_rows brt' userId clientId k (map (backup_entry brt) rows))
  = map (fun x => (Db.w_wallet_name x, Db.w_address x, Db.w_encrypted_private_key x)) rows.
Proof.
  revert k. induction rows as [|r rows IH]; intros k; [reflexivity|].
  cbn. now rewrite IH.
Qed.

Lemma restored_rows_owner brt userId clientId k entries :
  Forall (fun x => Db.w_user_id x = userId /\ Db.w_white_label_client_id x = clientId /\
                   Db.w_is_primary x = false /\ Db.w_status x = Db.WActive)
         (restored_rows brt userId clientId k entries).
Proof.
  revert k. induction entries as [|e rest IH]; intros k; cbn; constructor; auto.
Qed.

End RestoreFacts.

(** X26.  A backup restored into an empty database brings every wallet back.  For a
    backup made by createBackup from a table that keeps UNIQUE(user_id,
    wallet_name), whose active wallets of the user have distinct addresses and
    texts that fit their columns, restoreFromBackup with the password into an
    empty database, for any caller, restores as many wallets as the backup
    holds: one active row per wallet, in order, with its name, address and
    encrypted key, owned by the caller and not primary. *)
Theorem backup_restores_into_empty_database {cipher : Crypto.PasswordCipher}
    (brt brt' : BackupService.runtime) (userId userId' : Db.uuid) (password : string)
    (clientId : option Db.uuid) (w w1 : world) (v : backup_result) :
  parse_backup brt'
    (stringify_backup brt
       {| bd_version := "1.0";
          bd_timestamp := BackupService.toISOString brt (NOW (base brt));
          bd_userId := userId;
          bd_wallets := map (backup_entry brt) (active_wallets userId (wallets w)) |})
  = Some {| bd_version := "1.0";
            bd_timestamp := BackupService.toISOString brt (NOW (base brt));
            bd_userId := userId;
            bd_wallets := map (backup_entry brt) (active_wallets userId (wallets w)) |} ->
  createBackup brt userId password w = (Ok v, w1) ->
  names_unique (wallets w) ->
  NoDup (map Db.w_address (active_wallets userId (wallets w))) ->
  Forall (fun r => (String.length (Db.w_wallet_name r) <= 100)%nat /\
                   (String.length (Db.w_address r) <= 42)%nat)
         (active_wallets userId (wallets w)) ->
  (forall i j, uuid_supply brt' i = uuid_supply brt' j -> i = j) ->
  exists r w2,
    restoreFromBackup brt' userId' (br_backup v) password clientId empty_world = (Ok r, w2) /\
    rr_totalInBackup r = br_walletCount v /\
    rr_restoredCount r = br_walletCount v /\
    map (fun x => (Db.w_wallet_name x, Db.w_address x, Db.w_encrypted_private_key x))
        (wallets w2)
    = map (fun x => (Db.w_wallet_name x, Db.w_address x, Db.w_encrypted_private_key x))
          (active_wallets userId (wallets w)) /\
    Forall (fun x => Db.w_user_id x = userId' /\ Db.w_white_label_client_id x = clientId /\
                     Db.w_is_primary x = false /\ Db.w_status x = Db.WActive)
           (wallets w2).
Proof.
  intros Hcodec Hbackup Hnames Haddr Hfit Hinj.
  unfold createBackup in Hbackup. run_eff.
  set (rows := active_wallets userId (wallets w)) in *.
  destruct rows as [|row0 rows0] eqn:Hrows; [discriminate|].
  rewrite <- Hrows in *. injection Hbackup as <- <-.
  unfold restoreFromBackup. run_eff. cbn [br_backup br_walletCount].
  rewrite decryptBackup_encryptBackup, Hcodec. cbn [bd_version bd_wallets].
  change (negb ("1.0" =? "1.0")%string) with false. cbv iota beta.
  destruct (RestoreFacts.restore_each_all brt' userId' clientId
              (map (backup_entry brt) rows) 0 empty_world)
    as (rs & w2 & E & Hlen & Hw); auto.
  - rewrite map_map. cbn [bw_address backup_entry]. exact Haddr.
  - rewrite map_map. cbn [bw_walletName backup_entry].
    apply (RestoreFacts.names_of_one_user userId).
    + intros r Hr. unfold rows, active_wallets in Hr. apply filter_In in Hr as [_ Hr].
      apply andb_true_iff in Hr as [Hr _]. now apply String.eqb_eq in Hr.
    + unfold rows, active_wallets. now apply RestoreFacts.NoDup_map_filter.
  - apply Forall_map. eapply Forall_impl; [|exact Hfit]. intros r Hr. exact Hr.
  - rewrite E. eexists _, w2. split; [reflexivity|].
    cbn [rr_totalInBackup rr_restoredCount]. rewrite !length_map in *.
    split; [reflexivity|]. split; [now rewrite Hlen|].
    rewrite Hw. cbn [wallets empty_world app]. split.
    + apply RestoreFacts.restored_rows_columns.
    + apply RestoreFacts.restored_rows_owner.
Qed.

Lemma nat_text_injective (i j : nat) : Db.nat_text i = Db.nat_text j -> i = j.
Proof.
  intros H. pose proof (Notifications.digits_nat_text i) as Hi.
  pose proof (Notifications.digits_nat_text j) as Hj.
  rewrite H, Hj in Hi. injection Hi as Hi. lia.
Qed.

Lemma backup_restores_into_empty_database_witness :
  exists v r w2,
    createBackup (cipher := Example.example_cipher) (BackupCases.backup_runtime "-" 8000)
      "alice" "correct horse" BackupCases.alice_world = (Ok v, BackupCases.alice_world) /\
    restoreFromBackup (cipher := Example.example_cipher)
      (BackupCases.backup_runtime "-" 9000) "bob" (br_backup v) "correct horse" None
      empty_world = (Ok r, w2) /\
    rr_restoredCount r = 2%nat /\
    map Db.w_address (wallets w2)
      = ["0x1111111111111111111111111111111111111111";
         "0x5555555555555555555555555555555555555555"] /\
    map Db.w_user_id (wallets w2) = ["bob"; "bob"] /\
    map Db.w_is_primary (wallets w2) = [false; false].
Proof.
  eexists.
  edestruct (backup_restores_into_empty_database (cipher := Example.example_cipher)
               (BackupCases.backup_runtime "-" 8000) (BackupCases.backup_runtime "-" 9000)
               "alice" "bob" "correct horse" None BackupCases.alice_world
               BackupCases.alice_world)
    as (r & w2 & E & _ & Hc & Hcols & Hown).
  - exact BackupCases.alice_document_reads_back.
  - reflexivity.
  - unfold names_unique. cbn. repeat constructor; cbn; intuition discriminate.
  - cbn. repeat constructor; cbn; intuition discriminate.
  - cbn. repeat constructor; cbn; lia.
  - intros i j H. cbn in H. injection H as H. now apply nat_text_injective.
  - exists r, w2. split; [reflexivity|]. split; [exact E|]. split; [exact Hc|].
    apply (f_equal (map (fun t => snd (fst t)))) in Hcols as Ha.
    rewrite !map_map in Ha. cbn [fst snd] in Ha.
    split; [exact Ha|].
    assert (Hlen : List.length (wallets w2) = 2%nat).
    { apply (f_equal (@List.length _)) in Ha. rewrite !length_map in Ha. exact Ha. }
    clear E Hc Hcols Ha.
    destruct (wallets w2) as [|x [|y [|z l]]]; try discriminate Hlen.
    inversion Hown as [|? ? (Hx & _ & Hpx & _) Hown']; subst.
    inversion Hown' as [|? ? (Hy & _ & Hpy & _) _]; subst.
    cbn. now rewrite Hx, Hy, Hpx, Hpy.
Defined.

(** X27.  Custody of an imported key.  A wallet made by importWallet keeps,
    encrypted in its row, the key it was given; a later sendUSDC from that
    wallet, under the same process secret and with a JSON parser that reads
    back what the serializer wrote, either throws with nothing sent or hands
    the network one transfer signed with exactly the imported key. *)
Theorem imported_wallet_signs_with_imported_key {cipher : Crypto.PasswordCipher}
    (brt : BackupService.runtime) (rt' : WalletService.runtime) (userId : Db.uuid)
    (privateKey walletName : string) (clientId : option Db.uuid) (w w1 w2 : world)
    (v : imported_wallet) (toAddress : string) (amount : JS.value)
    (memo : option string) (r : outcome send_result) :
  (forall e,
     encryptPrivateKey (blockchainService (base brt)) privateKey = Ok e ->
     JSON_parse rt' (WalletService.JSON_stringify (base brt) e) = Some e) ->
  encryptionKey (blockchainService rt') = encryptionKey (blockchainService (base brt)) ->
  importWallet brt userId privateKey walletName clientId w = (Ok v, w1) ->
  WalletService.sendUSDC rt' (iw_id v) userId toAddress amount memo w1 = (r, w2) ->
  ((exists e, r = Throw e) /\ submitted w2 = submitted w1)
  \/
  submitted w2 = mkTransfer privateKey toAddress amount :: submitted w1.
Proof.
  intros Hjson Hsecret Himport Hsend.
  unfold importWallet in Himport.
  destruct (address_of_key brt privateKey) as [address|]; [|discriminate].
  run_eff.
  destruct (with_address address (wallets w)); [|discriminate].
  destruct (encryptPrivateKey _ privateKey) as [enc|] eqn:Henc; [|discriminate].
  unfold insert_wallet in Himport.
  destruct (existsb (fun x => String.eqb (Db.w_id x) (uuid_generate_v4 (base brt)))
                    (wallets w)) eqn:Hid; cbn [orb] in Himport; [discriminate|].
  destruct (existsb (fun x => String.eqb (Db.w_user_id x) userId
                              && String.eqb (Db.w_wallet_name x) walletName)
                    (wallets w)); [discriminate|].
  destruct ((100 <? String.length walletName)%nat || (42 <? String.length address)%nat)%bool;
    [discriminate|].
  injection Himport as <- <-. cbn [iw_id Db.w_id] in Hsend.
  pose proof (decryptPrivateKey_encryptPrivateKey _ (blockchainService rt') _ _
                Hsecret Henc) as Hkey.
  specialize (Hjson enc eq_refl).
  revert Hsend. unfold WalletService.sendUSDC. run_eff.
  destruct (negb _); [intros [= <- <-]; left; eauto|].
  cbn [wallets]. rewrite filter_app.
  assert (Hnone : filter (fun x => String.eqb (Db.w_id x) (uuid_generate_v4 (base brt))
                                   && String.eqb (Db.w_user_id x) userId
                                   && Db.wallet_status_eqb (Db.w_status x) Db.WActive)
                         (wallets w) = []).
  { apply existsb_false_filter. apply not_true_is_false. intros Hex.
    apply existsb_exists in Hex as (x & Hx & Hsat).
    apply andb_true_iff in Hsat as [Hsat _]. apply andb_true_iff in Hsat as [Hsat _].
    assert (existsb (fun x => String.eqb (Db.w_id x) (uuid_generate_v4 (base brt)))
                    (wallets w) = true)
      by (apply existsb_exists; eauto).
    congruence. }
  rewrite Hnone.
  cbn [app filter Db.w_id Db.w_user_id Db.w_status Db.wallet_status_eqb].
  rewrite !String.eqb_refl. cbn [andb Db.w_encrypted_private_key].
  rewrite Hjson.
  destruct (PrimFloat.ltb _ (JS.parseFloat amount)); [intros [= <- <-]; left; eauto|].
  destruct (getETHBalance _ _); [|intros [= <- <-]; left; eauto].
  destruct (PrimFloat.ltb _ min_eth_for_gas); [intros [= <- <-]; left; eauto|].
  unfold Blockchain.sendUSDC. rewrite Hkey.
  destruct (transfer _ _ _ _); [intros [= <- <-]; left; eauto|].
  unfold insert_transaction. cbn [transactions wallets submitted].
  destruct (Db.numeric_in amount); [|intros [= <- <-]; right; reflexivity].
  destruct (existsb _ (transactions w)); [intros [= <- <-]; right; reflexivity|].
  destruct (_ || _)%bool; intros [= <- <-]; right; reflexivity.
Qed.

Lemma imported_wallet_signs_with_imported_key_witness :
  exists v w1,
    importWallet (cipher := Example.example_cipher) (BackupCases.backup_runtime "w-5" 5000)
      "alice" "0xdef456" "cold" None (snd Example.after_first) = (Ok v, w1) /\
    submitted
      (snd (WalletService.sendUSDC (cipher := Example.example_cipher)
              (Example.example_runtime "t-5" 6000) (iw_id v) "alice"
              "0x9999999999999999999999999999999999999999" (JS.VNum 0%float) None w1))
    = [mkTransfer "0xdef456" "0x9999999999999999999999999999999999999999"
         (JS.VNum 0%float)].
Proof.
  eexists _, _. split; [vm_compute; reflexivity|].
  match goal with
  | |- submitted (snd (WalletService.sendUSDC ?rt' (iw_id ?v) ?u ?a ?n ?m ?w1)) = _ =>
      destruct (imported_wallet_signs_with_imported_key (cipher := Example.example_cipher)
                  (BackupCases.backup_runtime "w-5" 5000) rt' "alice" "0xdef456" "cold"
                  None (snd Example.after_first) w1
                  (snd (WalletService.sendUSDC (cipher := Example.example_cipher)
                          rt' (iw_id v) u a n m w1))
                  v a n m
                  (fst (WalletService.sendUSDC (cipher := Example.example_cipher)
                          rt' (iw_id v) u a n m w1)))
        as [[_ Hsame]|Hsent]
  end.
  - intros e He. vm_compute in He. injection He as <-. vm_compute. reflexivity.
  - reflexivity.
  - vm_compute. reflexivity.
  - apply surjective_pairing.
  - exfalso. vm_compute in Hsame. discriminate.
  - rewrite Hsent. reflexivity.
Defined.
